(** * Practice / quiz session engine of the CCNA tutor front end

    A shallow embedding of [ccna-tutor/static/js/practice.js] (the linear
    practice page) and of the concept-group quiz script that follows it in the
    same source file.  Module-level mutable state ([practiceState],
    [quizState]) becomes a record that every handler takes and returns; the
    part of the document the handlers read and write (the answer inputs, the
    visibility of the action buttons) is a second record; [fetch] calls are
    entries added to a list of in-flight requests, and each [.then] callback
    is a function applied when the response is delivered.  A string is its
    sequence of code units; numbers sent by the server and the counters are
    integers. *)

From Stdlib Require Import Ascii.
From stdpp Require Import gmap strings list sorting.

Local Open Scope Z_scope.

(** ** JavaScript values used by both pages *)

Module Js.

(** [if (x)] on a string-valued field that may be missing: [undefined],
    [null] and the empty string are falsy. *)
Definition truthy (x : option string) : bool :=
  match x with
  | Some s => negb (String.eqb s EmptyString)
  | None => false
  end.

(** [s.includes(',')]. *)
Fixpoint includes_comma (s : string) : bool :=
  match s with
  | EmptyString => false
  | String c s' => if Ascii.eqb c ","%char then true else includes_comma s'
  end.

(** [s.split(',')]: the pieces between commas; never empty. *)
Fixpoint split_comma_go (cur : string) (s : string) : list string :=
  match s with
  | EmptyString => [String.rev cur]
  | String c s' =>
      if Ascii.eqb c ","%char then String.rev cur :: split_comma_go EmptyString s'
      else split_comma_go (String c cur) s'
  end.

Definition split_comma (s : string) : list string := split_comma_go EmptyString s.

(** [a.sort()] on an array of strings: ascending by code unit.  Any
    algorithm gives the same array ([sort_characterised] below); merge sort
    is used to compute it. *)
Definition sort (l : list string) : list string := merge_sort String.le l.

(** [a.join(',')]. *)
Definition join_comma (l : list string) : string := String.concat "," l.

(** The property names a plain object ([{}]) inherits from
    [Object.prototype].  Each of them holds a function or an object, so
    [o[k]] is truthy for such a name [k] even when [o] has no property [k]
    of its own. *)
Definition object_prototype_names : list string :=
  ["constructor"; "hasOwnProperty"; "isPrototypeOf"; "propertyIsEnumerable";
   "toLocaleString"; "toString"; "valueOf"; "__proto__";
   "__defineGetter__"; "__defineSetter__"; "__lookupGetter__";
   "__lookupSetter__"].

Definition inherited (k : string) : bool :=
  bool_decide (k ∈ object_prototype_names).

End Js.

(** ** The answer inputs: [input[name="answer"]] *)

Module Dom.

Inductive InputType := Radio | Checkbox.

Record Input := mkInput {
  value : string;
  checked : bool;
  disabled : bool
}.

Global Instance Input_eq_dec : EqDecision Input.
Proof. solve_decision. Defined.

Definition set_disabled (b : bool) (i : Input) : Input :=
  {| value := value i; checked := checked i; disabled := b |}.

Definition set_checked (b : bool) (i : Input) : Input :=
  {| value := value i; checked := b; disabled := disabled i |}.

(** [document.querySelectorAll('input[name="answer"]:checked')], in
    document order. *)
Definition checked_inputs (inputs : list Input) : list Input :=
  filter (λ i, checked i = true) inputs.

(** [.map(el => el.value)] over the checked inputs. *)
Definition checked_values (inputs : list Input) : list string :=
  value <$> checked_inputs inputs.

(** The markup produced for one choice: enabled and unchecked. *)
Definition fresh_input (letter : string) : Input :=
  {| value := letter; checked := false; disabled := false |}.

(** A click of the student on the choice [letter].  A disabled input does
    not react; a checkbox toggles; a radio button becomes the only checked
    one of its group. *)
Definition click_choice (ty : InputType) (letter : string) (inputs : list Input)
  : list Input :=
  match ty with
  | Checkbox =>
      (λ i, if decide (value i = letter)
            then (if disabled i then i else set_checked (negb (checked i)) i)
            else i) <$> inputs
  | Radio =>
      if decide (Exists (λ i, value i = letter ∧ disabled i = false) inputs)
      then (λ i, set_checked (bool_decide (value i = letter)) i) <$> inputs
      else inputs
  end.

Definition click_choices (ty : InputType) (letters : list string)
  (inputs : list Input) : list Input :=
  foldl (λ acc l, click_choice ty l acc) inputs letters.

(** [Object.entries(choices).sort((a, b) => a[0].localeCompare(b[0]))]:
    a stable sort of the entries by their letter, for the collation [cmp]. *)
Fixpoint insert_entry (cmp : string → string → comparison)
  (e : string * string) (l : list (string * string)) : list (string * string) :=
  match l with
  | [] => [e]
  | e' :: l' =>
      match cmp e.1 e'.1 with
      | Gt => e' :: insert_entry cmp e l'
      | _ => e :: l
      end
  end.

Definition sort_entries (cmp : string → string → comparison)
  (l : list (string * string)) : list (string * string) :=
  foldr (insert_entry cmp) [] l.

End Dom.

(** The normalised value both submit handlers build for a multi-select
    question: [Array.from(checked).map(el => el.value).sort().join(',')]. *)
Definition normalized_answer (inputs : list Dom.Input) : string :=
  Js.join_comma (Js.sort (Dom.checked_values inputs)).

(** ** The linear practice page ([practiceState] and its handlers)

    Text content and styling (progress text, feedback wording, opacity,
    highlighting) are projections of the state below and are left out. *)

Module Practice.

Record Question := mkQuestion {
  id : string;
  question_number : Z;
  multi_answer : bool;
  choices : list (string * string)
}.

(** [practiceState]. *)
Record State := mkState {
  protocolSlug : option string;
  totalQuestions : Z;
  currentQuestion : option Question;
  questionNumber : Z;
  correctCount : Z;
  incorrectCount : Z;
  skippedCount : Z;
  attemptNumber : Z;
  disabledChoices : list string;
  canReveal : bool
}.

Definition initial_state : State :=
  {| protocolSlug := None; totalQuestions := 0; currentQuestion := None;
     questionNumber := 0; correctCount := 0; incorrectCount := 0;
     skippedCount := 0; attemptNumber := 0; disabledChoices := [];
     canReveal := false |}.

(** [showFeedback(type, ...)]: the alert class of the feedback status. *)
Inductive FeedbackType := Danger | Success | Warning | Info.

(** Where the window is: [navigateToSummary] leaves the practice page. *)
Inductive Location := PracticePage | SummaryPage.

(** The elements the handlers touch.  A [*_hidden] flag is the presence of
    the class [d-none]; [feedback = None] is a hidden feedback section. *)
Record Page := mkPage {
  inputs : list Dom.Input;
  input_type : Dom.InputType;
  loading_hidden : bool;
  feedback : option FeedbackType;
  submit_hidden : bool;
  submit_disabled : bool;
  skip_hidden : bool;
  try_again_hidden : bool;
  reveal_hidden : bool;
  next_hidden : bool;
  location : Location
}.

(** The requests the page sends ([fetch] with its JSON body). *)
Inductive Request :=
  | StartSession (protocol_slug : option string)
  | CheckAnswer (question_id selected_answer : string)
  | Explain (question_id : string)
  | Skip (question_id : string)
  | Next.

Record World := mkWorld {
  st : State;
  page : Page;
  pending : list Request
}.

(** *** Response payloads, with the fields the callbacks read *)

Record CheckData := mkCheckData {
  check_error : option string;
  correct : bool;
  check_correct_answer : option string;
  attempt : Z;
  can_reveal : bool;
  disabled_choices : option (list string)
}.

Record ExplainData := mkExplainData {
  explain_error : option string;
  explain_correct_answer : option string
}.

Record SkipData := mkSkipData {
  skip_error : option string;
  skip_done : bool;
  next_question : option Question;
  skip_total_questions : Z
}.

Record NextData := mkNextData {
  next_error : option string;
  next_done : bool;
  question : option Question
}.

Record StartData := mkStartData {
  start_error : option string;
  start_total_questions : Z;
  first_question : option Question
}.

(** A delivered response: the parsed JSON body of the matching endpoint, or
    a rejected promise (transport failure, unparsable body). *)
Inductive Response :=
  | CheckAnswerOk (d : CheckData)
  | ExplainOk (d : ExplainData)
  | SkipOk (d : SkipData)
  | NextOk (d : NextData)
  | StartOk (d : StartData)
  | Rejected.

(** *** Field updates *)

Definition set_page (f : Page → Page) (w : World) : World :=
  {| st := st w; page := f (page w); pending := pending w |}.

Definition set_st (f : State → State) (w : World) : World :=
  {| st := f (st w); page := page w; pending := pending w |}.

Definition send (r : Request) (w : World) : World :=
  {| st := st w; page := page w; pending := pending w ++ [r] |}.

Definition with_inputs (f : list Dom.Input → list Dom.Input) (p : Page) : Page :=
  {| inputs := f (inputs p); input_type := input_type p;
     loading_hidden := loading_hidden p; feedback := feedback p;
     submit_hidden := submit_hidden p; submit_disabled := submit_disabled p;
     skip_hidden := skip_hidden p; try_again_hidden := try_again_hidden p;
     reveal_hidden := reveal_hidden p; next_hidden := next_hidden p;
     location := location p |}.

Definition with_loading_hidden (b : bool) (p : Page) : Page :=
  {| inputs := inputs p; input_type := input_type p;
     loading_hidden := b; feedback := feedback p;
     submit_hidden := submit_hidden p; submit_disabled := submit_disabled p;
     skip_hidden := skip_hidden p; try_again_hidden := try_again_hidden p;
     reveal_hidden := reveal_hidden p; next_hidden := next_hidden p;
     location := location p |}.

Definition with_feedback (f : option FeedbackType) (p : Page) : Page :=
  {| inputs := inputs p; input_type := input_type p;
     loading_hidden := loading_hidden p; feedback := f;
     submit_hidden := submit_hidden p; submit_disabled := submit_disabled p;
     skip_hidden := skip_hidden p; try_again_hidden := try_again_hidden p;
     reveal_hidden := reveal_hidden p; next_hidden := next_hidden p;
     location := location p |}.

Definition with_submit (hidden dis : bool) (p : Page) : Page :=
  {| inputs := inputs p; input_type := input_type p;
     loading_hidden := loading_hidden p; feedback := feedback p;
     submit_hidden := hidden; submit_disabled := dis;
     skip_hidden := skip_hidden p; try_again_hidden := try_again_hidden p;
     reveal_hidden := reveal_hidden p; next_hidden := next_hidden p;
     location := location p |}.

Definition with_skip_hidden (b : bool) (p : Page) : Page :=
  {| inputs := inputs p; input_type := input_type p;
     loading_hidden := loading_hidden p; feedback := feedback p;
     submit_hidden := submit_hidden p; submit_disabled := submit_disabled p;
     skip_hidden := b; try_again_hidden := try_again_hidden p;
     reveal_hidden := reveal_hidden p; next_hidden := next_hidden p;
     location := location p |}.

Definition with_try_again_hidden (b : bool) (p : Page) : Page :=
  {| inputs := inputs p; input_type := input_type p;
     loading_hidden := loading_hidden p; feedback := feedback p;
     submit_hidden := submit_hidden p; submit_disabled := submit_disabled p;
     skip_hidden := skip_hidden p; try_again_hidden := b;
     reveal_hidden := reveal_hidden p; next_hidden := next_hidden p;
     location := location p |}.

Definition with_reveal_hidden (b : bool) (p : Page) : Page :=
  {| inputs := inputs p; input_type := input_type p;
     loading_hidden := loading_hidden p; feedback := feedback p;
     submit_hidden := submit_hidden p; submit_disabled := submit_disabled p;
     skip_hidden := skip_hidden p; try_again_hidden := try_again_hidden p;
     reveal_hidden := b; next_hidden := next_hidden p;
     location := location p |}.

Definition with_next_hidden (b : bool) (p : Page) : Page :=
  {| inputs := inputs p; input_type := input_type p;
     loading_hidden := loading_hidden p; feedback := feedback p;
     submit_hidden := submit_hidden p; submit_disabled := submit_disabled p;
     skip_hidden := skip_hidden p; try_again_hidden := try_again_hidden p;
     reveal_hidden := reveal_hidden p; next_hidden := b;
     location := location p |}.

Definition with_location (l : Location) (p : Page) : Page :=
  {| inputs := inputs p; input_type := input_type p;
     loading_hidden := loading_hidden p; feedback := feedback p;
     submit_hidden := submit_hidden p; submit_disabled := submit_disabled p;
     skip_hidden := skip_hidden p; try_again_hidden := try_again_hidden p;
     reveal_hidden := reveal_hidden p; next_hidden := next_hidden p;
     location := l |}.

Definition with_counts (c i s : Z) (x : State) : State :=
  {| protocolSlug := protocolSlug x; totalQuestions := totalQuestions x;
     currentQuestion := currentQuestion x; questionNumber := questionNumber x;
     correctCount := c; incorrectCount := i; skippedCount := s;
     attemptNumber := attemptNumber x; disabledChoices := disabledChoices x;
     canReveal := canReveal x |}.

Definition with_totalQuestions (n : Z) (x : State) : State :=
  {| protocolSlug := protocolSlug x; totalQuestions := n;
     currentQuestion := currentQuestion x; questionNumber := questionNumber x;
     correctCount := correctCount x; incorrectCount := incorrectCount x;
     skippedCount := skippedCount x;
     attemptNumber := attemptNumber x; disabledChoices := disabledChoices x;
     canReveal := canReveal x |}.

Definition with_attempt (a : Z) (r : bool) (d : list string) (x : State) : State :=
  {| protocolSlug := protocolSlug x; totalQuestions := totalQuestions x;
     currentQuestion := currentQuestion x; questionNumber := questionNumber x;
     correctCount := correctCount x; incorrectCount := incorrectCount x;
     skippedCount := skippedCount x;
     attemptNumber := a; disabledChoices := d; canReveal := r |}.

Definition with_question (q : Question) (x : State) : State :=
  {| protocolSlug := protocolSlug x; totalQuestions := totalQuestions x;
     currentQuestion := Some q; questionNumber := question_number q;
     correctCount := correctCount x; incorrectCount := incorrectCount x;
     skippedCount := skippedCount x;
     attemptNumber := 0; disabledChoices := []; canReveal := false |}.

(** *** Handlers *)

Section Handlers.

(** [a.localeCompare(b)] depends on the locale of the browser; the handlers
    are defined for any collation. *)
Variable localeCompare : string → string → comparison.

(** The inputs written into [#answer-choices], one per choice. *)
Definition render (q : Question) : list Dom.Input :=
  (λ e, Dom.fresh_input e.1) <$> Dom.sort_entries localeCompare (choices q).

Definition displayQuestion (q : Question) (w : World) : World :=
  {| st := with_question q (st w);
     page :=
       {| inputs := Dom.set_disabled false <$> render q;
          input_type := if multi_answer q then Dom.Checkbox else Dom.Radio;
          loading_hidden := true;
          feedback := None;
          submit_hidden := false;
          submit_disabled := true;
          skip_hidden := false;
          try_again_hidden := true;
          reveal_hidden := true;
          next_hidden := true;
          location := location (page w) |};
     pending := pending w |}.

(** The answer collected by [submitAnswer]: the sorted, comma-joined checked
    letters for a multi-answer question, the first checked value (or [null])
    otherwise. *)
Definition collect_selected (q : Question) (inputs : list Dom.Input)
  : option string :=
  if multi_answer q then Some (normalized_answer inputs)
  else Dom.value <$> head (Dom.checked_inputs inputs).

(** [submitAnswer].  Without a current question the first property access
    throws and nothing has been changed yet. *)
Definition submitAnswer (w : World) : World :=
  match currentQuestion (st w) with
  | None => w
  | Some q =>
      match collect_selected q (inputs (page w)) with
      | Some selected =>
          if Js.truthy (Some selected) then
            send (CheckAnswer (id q) selected)
              (set_page
                 (λ p, with_inputs (fmap (Dom.set_disabled true))
                         (with_reveal_hidden true
                            (with_try_again_hidden true
                               (with_skip_hidden true
                                  (with_submit true (submit_disabled p)
                                     (with_loading_hidden false p)))))) w)
          else w
      | None => w
      end
  end.

(** [applyDisabledChoices]: the input of each listed letter is disabled and
    unchecked (the keys of the choices object are unique, so at most one
    input carries a given letter). *)
Definition applyDisabledChoices (letters : list string)
  (inputs : list Dom.Input) : list Dom.Input :=
  (λ i, if decide (Dom.value i ∈ letters)
        then Dom.set_checked false (Dom.set_disabled true i) else i) <$> inputs.

(** The [.catch] callback of the check-answer request. *)
Definition submitAnswer_catch (w : World) : World :=
  set_page (λ p, with_skip_hidden false
                   (with_feedback (Some Danger) (with_loading_hidden true p))) w.

(** The [.then] callback of the check-answer request.
    [highlightCorrectAnswer] calls [split] on [data.correct_answer] and
    throws when the field is missing; the promise chain then runs the
    [.catch] callback on the state reached so far. *)
Definition submitAnswer_then (d : CheckData) (w : World) : World :=
  let w1 := set_page (with_loading_hidden true) w in
  if Js.truthy (check_error d) then
    set_page (λ p, with_skip_hidden false (with_feedback (Some Danger) p)) w1
  else if correct d then
    let w2 :=
      set_page (with_feedback (Some Success))
        (set_st (λ x, with_counts (correctCount x + 1) (incorrectCount x)
                        (skippedCount x) x) w1) in
    match check_correct_answer d with
    | None => submitAnswer_catch w2
    | Some _ => set_page (with_next_hidden false) w2
    end
  else
    let dis := default [] (disabled_choices d) in
    set_page
      (λ p, (if can_reveal d then with_reveal_hidden false else (λ p', p'))
              (with_try_again_hidden false
                 (with_inputs (applyDisabledChoices dis)
                    (with_feedback (Some Warning) p))))
      (set_st (with_attempt (attempt d) (can_reveal d) dis) w1).

(** [tryAgain]. *)
Definition tryAgain (w : World) : World :=
  set_page
    (λ p, with_inputs
            (fmap (λ i, Dom.set_checked false
                          (if decide (Dom.value i ∈ disabledChoices (st w))
                           then i else Dom.set_disabled false i)))
            (with_skip_hidden false
               (with_submit false true
                  (with_reveal_hidden true
                     (with_try_again_hidden true (with_feedback None p)))))) w.

(** [revealAnswer].  The buttons are hidden before the request body reads
    [practiceState.currentQuestion.id]. *)
Definition revealAnswer (w : World) : World :=
  let w1 :=
    set_page (λ p, with_reveal_hidden true
                     (with_try_again_hidden true
                        (with_loading_hidden false p))) w in
  match currentQuestion (st w) with
  | None => w1
  | Some q => send (Explain (id q)) w1
  end.

Definition revealAnswer_catch (w : World) : World :=
  set_page (λ p, with_feedback (Some Danger) (with_loading_hidden true p)) w.

Definition revealAnswer_then (d : ExplainData) (w : World) : World :=
  let w1 := set_page (with_loading_hidden true) w in
  if Js.truthy (explain_error d) then set_page (with_feedback (Some Danger)) w1
  else
    let w2 :=
      set_st (λ x, with_counts (correctCount x) (incorrectCount x + 1)
                     (skippedCount x) x) w1 in
    match explain_correct_answer d with
    | None => revealAnswer_catch w2
    | Some _ =>
        set_page (λ p, with_next_hidden false (with_feedback (Some Info) p)) w2
    end.

Definition navigateToSummary (w : World) : World :=
  set_page (with_location SummaryPage) w.

(** [skipQuestion] and its callbacks. *)
Definition skipQuestion (w : World) : World :=
  match currentQuestion (st w) with
  | None => w
  | Some q => send (Skip (id q)) w
  end.

Definition show_danger (w : World) : World :=
  set_page (with_feedback (Some Danger)) w.

Definition skipQuestion_then (d : SkipData) (w : World) : World :=
  if Js.truthy (skip_error d) then show_danger w
  else
    let w1 :=
      set_st (λ x, with_counts (correctCount x) (incorrectCount x)
                     (skippedCount x + 1) x) w in
    match skip_done d, next_question d with
    | false, Some q =>
        displayQuestion q
          (set_st (with_totalQuestions (skip_total_questions d)) w1)
    | _, _ => navigateToSummary w1
    end.

(** [nextQuestion] and its callbacks. *)
Definition nextQuestion (w : World) : World := send Next w.

Definition nextQuestion_then (d : NextData) (w : World) : World :=
  if Js.truthy (next_error d) then show_danger w
  else
    match next_done d, question d with
    | false, Some q => displayQuestion q w
    | _, _ => navigateToSummary w
    end.

(** [startSession] and its callbacks (the error text written into the
    question element is not modelled). *)
Definition startSession (w : World) : World :=
  send (StartSession (protocolSlug (st w))) w.

Definition startSession_then (d : StartData) (w : World) : World :=
  if Js.truthy (start_error d) then w
  else
    let w1 := set_st (with_totalQuestions (start_total_questions d)) w in
    match first_question d with
    | Some q => displayQuestion q w1
    | None =>
        set_st (λ x, {| protocolSlug := protocolSlug x;
                        totalQuestions := totalQuestions x;
                        currentQuestion := None;
                        questionNumber := questionNumber x;
                        correctCount := correctCount x;
                        incorrectCount := incorrectCount x;
                        skippedCount := skippedCount x;
                        attemptNumber := attemptNumber x;
                        disabledChoices := disabledChoices x;
                        canReveal := canReveal x |}) w1
    end.

(** The page as [initPracticePage] finds it, before [startSession]. *)
Definition initial_page : Page :=
  {| inputs := []; input_type := Dom.Radio; loading_hidden := true;
     feedback := None; submit_hidden := false; submit_disabled := true;
     skip_hidden := false; try_again_hidden := true; reveal_hidden := true;
     next_hidden := true; location := PracticePage |}.

Definition initPracticePage (slug : string) (total : Z) : World :=
  startSession
    {| st := {| protocolSlug := Some slug; totalQuestions := total;
                currentQuestion := None; questionNumber := 0;
                correctCount := 0; incorrectCount := 0; skippedCount := 0;
                attemptNumber := 0; disabledChoices := []; canReveal := false |};
       page := initial_page;
       pending := [] |}.

(** *** The event loop

    One event is a click of the student or the delivery of the response to
    an in-flight request.  A button reacts only while it is displayed and
    not disabled; a response runs the callbacks of its own request. *)

Inductive Event :=
  | ClickChoice (letter : string)
  | ClickSubmit
  | ClickTryAgain
  | ClickReveal
  | ClickNext
  | ClickSkip
  | Deliver (i : nat) (r : Response).

Definition clickable (hidden dis : bool) : bool := negb hidden && negb dis.

(** A click on a choice; the [change] listener enables the submit button
    when the click changed the selection. *)
Definition clickChoice (letter : string) (w : World) : World :=
  let inputs' := Dom.click_choice (input_type (page w)) letter (inputs (page w)) in
  if decide (inputs' = inputs (page w)) then w
  else set_page (λ p, with_submit (submit_hidden p) false
                        (with_inputs (λ _, inputs') p)) w.

Definition callbacks (req : Request) (r : Response) : option (World → World) :=
  match req, r with
  | CheckAnswer _ _, CheckAnswerOk d => Some (submitAnswer_then d)
  | CheckAnswer _ _, Rejected => Some submitAnswer_catch
  | Explain _, ExplainOk d => Some (revealAnswer_then d)
  | Explain _, Rejected => Some revealAnswer_catch
  | Skip _, SkipOk d => Some (skipQuestion_then d)
  | Skip _, Rejected => Some show_danger
  | Next, NextOk d => Some (nextQuestion_then d)
  | Next, Rejected => Some show_danger
  | StartSession _, StartOk d => Some (startSession_then d)
  | StartSession _, Rejected => Some (λ w, w)
  | _, _ => None
  end.

Definition deliver (i : nat) (r : Response) (w : World) : World :=
  match pending w !! i with
  | None => w
  | Some req =>
      match callbacks req r with
      | None => w
      | Some k =>
          k {| st := st w; page := page w; pending := delete i (pending w) |}
      end
  end.

Definition step (e : Event) (w : World) : World :=
  match location (page w) with
  | SummaryPage => w
  | PracticePage =>
      match e with
      | ClickChoice l => clickChoice l w
      | ClickSubmit =>
          if clickable (submit_hidden (page w)) (submit_disabled (page w))
          then submitAnswer w else w
      | ClickTryAgain =>
          if clickable (try_again_hidden (page w)) false then tryAgain w else w
      | ClickReveal =>
          if clickable (reveal_hidden (page w)) false then revealAnswer w else w
      | ClickNext =>
          if clickable (next_hidden (page w)) false then nextQuestion w else w
      | ClickSkip =>
          if clickable (skip_hidden (page w)) false then skipQuestion w else w
      | Deliver i r => deliver i r w
      end
  end.

Definition run (es : list Event) (w : World) : World :=
  foldl (λ acc e, step e acc) w es.

End Handlers.

End Practice.

(** ** The concept-group quiz page ([quizState] and its handlers)

    The groups of a session are objects that the callbacks of in-flight
    requests keep a reference to.  A group is identified by the generation of
    the [conceptGroups] array it belongs to (a new array is installed by
    every start response and every restart) and by its index in that array;
    the [seen_questions] arrays live in a store and are referred to by
    address, so that two references to one array see each other's [push]. *)

Module Quiz.

Record Question := mkQuestion {
  id : string;
  (** [question.type === 'drag_drop' || question.question_type === 'drag_drop'] *)
  drag_drop : bool;
  multi_answer : bool;
  correct_answer : option string;
  choices : list (string * string)
}.

Record ConceptGroup := mkGroup {
  group_id : string;
  concept : string;
  question : option Question;
  (** address of the array in the store; [None] while the field is absent *)
  seen_questions : option nat
}.

(** A value of the [scores] object. *)
Record Outcome := mkOutcome {
  firstAttemptCorrect : bool;
  attempts : Z;
  outcome_concept : string
}.

(** The popup window behind the handle [dragDropWindow]. *)
Record Popup := mkPopup { closed : bool }.

(** [quizState].  [scores] holds the own properties of the object, keyed by
    group id; a read [scores[k]] also finds the names of
    [Js.object_prototype_names]. *)
Record State := mkState {
  sessionId : option string;
  protocol : option string;
  conceptGroups : list ConceptGroup;
  currentIndex : nat;
  attemptNumber : Z;
  scores : gmap string Outcome;
  totalConcepts : Z;
  dragDropWindow : option Popup;
  dragDropQuestions : list Question
}.

Inductive FeedbackType := Success | Danger | Warning.

(** What [alert] was called with. *)
Inductive Alert :=
  | PleaseSelectProtocol
  | PleaseSelectAnswer
  | SelectExactly (numCorrect : nat)
  | AllCovered
  | ErrorAlert (message : string)
  | ErrorStarting
  | ErrorSubmitting
  | ErrorLoading.

(** The elements the handlers touch.  [inputs] are the answer inputs inside
    [#answer-choices]; [popup_button] is the question id of the button that
    opens the drag-and-drop popup, when [#answer-choices] holds one. *)
Record Page := mkPage {
  inputs : list Dom.Input;
  input_type : Dom.InputType;
  popup_button : option string;
  feedback : option FeedbackType;
  submit_hidden : bool;
  try_again_hidden : bool;
  more_concept_hidden : bool;
  next_topic_hidden : bool;
  setup_hidden : bool;
  interface_hidden : bool;
  summary_hidden : bool
}.

(** The requests of the quiz page, as sent. *)
Inductive Request :=
  | DragDropQuestions
  | Start (protocol : string)
  | Submit (session_id : option string) (question_id student_answer : string)
      (attempt_number : Z) (group_id : string)
  | GroupQuestion (group_id : string) (session_id : option string)
      (exclude : string).

(** What the callbacks of a request captured when it was sent: the group
    under the cursor ([currentGroup]) and, for a group-question request, the
    array [seenQuestions]. *)
Inductive Capture :=
  | NoCapture
  | SubmitCapture (captured_group_id captured_concept : string)
  | MoreCapture (generation index seen : nat).

Record Call := mkCall { request : Request; capture : Capture }.

Record World := mkWorld {
  st : State;
  page : Page;
  pending : list Call;
  alerts : list Alert;
  arrays : list (list string);
  generation : nat
}.

(** *** Response payloads *)

Record GroupData := mkGroupData {
  gd_group_id : string;
  gd_concept : string;
  gd_question : option Question;
  gd_seen_questions : option (list string)
}.

Record StartData := mkStartData {
  start_error : option string;
  session_id : option string;
  start_protocol : option string;
  concept_groups : list GroupData;
  total_concepts : Z
}.

Record SubmitData := mkSubmitData {
  submit_error : option string;
  correct : bool;
  more_in_group : Z;
  attempt : Z
}.

Record MoreData := mkMoreData {
  more_error : option string;
  all_covered : bool;
  more_question : option Question
}.

Inductive Response :=
  | DragDropOk (questions : option (list Question))
  | StartOk (d : StartData)
  | SubmitOk (d : SubmitData)
  | MoreOk (d : MoreData)
  | Rejected.

(** The data of a [message] event. *)
Record Message := mkMessage {
  type : string;
  questionId : string;
  msg_correct : bool
}.

(** *** Field updates *)

Definition set_page (f : Page → Page) (w : World) : World :=
  {| st := st w; page := f (page w); pending := pending w;
     alerts := alerts w; arrays := arrays w; generation := generation w |}.

Definition set_st (f : State → State) (w : World) : World :=
  {| st := f (st w); page := page w; pending := pending w;
     alerts := alerts w; arrays := arrays w; generation := generation w |}.

Definition send (c : Call) (w : World) : World :=
  {| st := st w; page := page w; pending := pending w ++ [c];
     alerts := alerts w; arrays := arrays w; generation := generation w |}.

Definition alert (a : Alert) (w : World) : World :=
  {| st := st w; page := page w; pending := pending w;
     alerts := alerts w ++ [a]; arrays := arrays w;
     generation := generation w |}.

Definition set_arrays (f : list (list string) → list (list string))
  (w : World) : World :=
  {| st := st w; page := page w; pending := pending w;
     alerts := alerts w; arrays := f (arrays w);
     generation := generation w |}.

Definition with_inputs (f : list Dom.Input → list Dom.Input) (p : Page) : Page :=
  {| inputs := f (inputs p); input_type := input_type p;
     popup_button := popup_button p; feedback := feedback p;
     submit_hidden := submit_hidden p; try_again_hidden := try_again_hidden p;
     more_concept_hidden := more_concept_hidden p;
     next_topic_hidden := next_topic_hidden p;
     setup_hidden := setup_hidden p; interface_hidden := interface_hidden p;
     summary_hidden := summary_hidden p |}.

(** [answerChoices.innerHTML = ...]: the inputs are replaced. *)
Definition with_choices (ins : list Dom.Input) (ty : Dom.InputType)
  (button : option string) (p : Page) : Page :=
  {| inputs := ins; input_type := ty;
     popup_button := button; feedback := feedback p;
     submit_hidden := submit_hidden p; try_again_hidden := try_again_hidden p;
     more_concept_hidden := more_concept_hidden p;
     next_topic_hidden := next_topic_hidden p;
     setup_hidden := setup_hidden p; interface_hidden := interface_hidden p;
     summary_hidden := summary_hidden p |}.

Definition with_feedback (f : option FeedbackType) (p : Page) : Page :=
  {| inputs := inputs p; input_type := input_type p;
     popup_button := popup_button p; feedback := f;
     submit_hidden := submit_hidden p; try_again_hidden := try_again_hidden p;
     more_concept_hidden := more_concept_hidden p;
     next_topic_hidden := next_topic_hidden p;
     setup_hidden := setup_hidden p; interface_hidden := interface_hidden p;
     summary_hidden := summary_hidden p |}.

Definition with_submit_hidden (b : bool) (p : Page) : Page :=
  {| inputs := inputs p; input_type := input_type p;
     popup_button := popup_button p; feedback := feedback p;
     submit_hidden := b; try_again_hidden := try_again_hidden p;
     more_concept_hidden := more_concept_hidden p;
     next_topic_hidden := next_topic_hidden p;
     setup_hidden := setup_hidden p; interface_hidden := interface_hidden p;
     summary_hidden := summary_hidden p |}.

Definition with_try_again_hidden (b : bool) (p : Page) : Page :=
  {| inputs := inputs p; input_type := input_type p;
     popup_button := popup_button p; feedback := feedback p;
     submit_hidden := submit_hidden p; try_again_hidden := b;
     more_concept_hidden := more_concept_hidden p;
     next_topic_hidden := next_topic_hidden p;
     setup_hidden := setup_hidden p; interface_hidden := interface_hidden p;
     summary_hidden := summary_hidden p |}.

Definition with_more_concept_hidden (b : bool) (p : Page) : Page :=
  {| inputs := inputs p; input_type := input_type p;
     popup_button := popup_button p; feedback := feedback p;
     submit_hidden := submit_hidden p; try_again_hidden := try_again_hidden p;
     more_concept_hidden := b;
     next_topic_hidden := next_topic_hidden p;
     setup_hidden := setup_hidden p; interface_hidden := interface_hidden p;
     summary_hidden := summary_hidden p |}.

Definition with_next_topic_hidden (b : bool) (p : Page) : Page :=
  {| inputs := inputs p; input_type := input_type p;
     popup_button := popup_button p; feedback := feedback p;
     submit_hidden := submit_hidden p; try_again_hidden := try_again_hidden p;
     more_concept_hidden := more_concept_hidden p;
     next_topic_hidden := b;
     setup_hidden := setup_hidden p; interface_hidden := interface_hidden p;
     summary_hidden := summary_hidden p |}.

Definition with_sections (setup interface summary : bool) (p : Page) : Page :=
  {| inputs := inputs p; input_type := input_type p;
     popup_button := popup_button p; feedback := feedback p;
     submit_hidden := submit_hidden p; try_again_hidden := try_again_hidden p;
     more_concept_hidden := more_concept_hidden p;
     next_topic_hidden := next_topic_hidden p;
     setup_hidden := setup; interface_hidden := interface;
     summary_hidden := summary |}.

Definition with_attemptNumber (a : Z) (x : State) : State :=
  {| sessionId := sessionId x; protocol := protocol x;
     conceptGroups := conceptGroups x; currentIndex := currentIndex x;
     attemptNumber := a; scores := scores x;
     totalConcepts := totalConcepts x; dragDropWindow := dragDropWindow x;
     dragDropQuestions := dragDropQuestions x |}.

Definition with_scores (s : gmap string Outcome) (x : State) : State :=
  {| sessionId := sessionId x; protocol := protocol x;
     conceptGroups := conceptGroups x; currentIndex := currentIndex x;
     attemptNumber := attemptNumber x; scores := s;
     totalConcepts := totalConcepts x; dragDropWindow := dragDropWindow x;
     dragDropQuestions := dragDropQuestions x |}.

Definition with_currentIndex (i : nat) (x : State) : State :=
  {| sessionId := sessionId x; protocol := protocol x;
     conceptGroups := conceptGroups x; currentIndex := i;
     attemptNumber := attemptNumber x; scores := scores x;
     totalConcepts := totalConcepts x; dragDropWindow := dragDropWindow x;
     dragDropQuestions := dragDropQuestions x |}.

Definition with_conceptGroups (gs : list ConceptGroup) (x : State) : State :=
  {| sessionId := sessionId x; protocol := protocol x;
     conceptGroups := gs; currentIndex := currentIndex x;
     attemptNumber := attemptNumber x; scores := scores x;
     totalConcepts := totalConcepts x; dragDropWindow := dragDropWindow x;
     dragDropQuestions := dragDropQuestions x |}.

Definition with_dragDropWindow (p : option Popup) (x : State) : State :=
  {| sessionId := sessionId x; protocol := protocol x;
     conceptGroups := conceptGroups x; currentIndex := currentIndex x;
     attemptNumber := attemptNumber x; scores := scores x;
     totalConcepts := totalConcepts x; dragDropWindow := p;
     dragDropQuestions := dragDropQuestions x |}.

Definition with_dragDropQuestions (qs : list Question) (x : State) : State :=
  {| sessionId := sessionId x; protocol := protocol x;
     conceptGroups := conceptGroups x; currentIndex := currentIndex x;
     attemptNumber := attemptNumber x; scores := scores x;
     totalConcepts := totalConcepts x; dragDropWindow := dragDropWindow x;
     dragDropQuestions := qs |}.

(** *** Handlers *)

Section Handlers.

Variable localeCompare : string → string → comparison.

(** A handler either returns or throws (a [TypeError] on a property of
    [undefined]); the world is the one reached at that point. *)
Inductive Completion :=
  | Returned (w : World)
  | Threw (w : World).

Definition world_of (c : Completion) : World :=
  match c with Returned w | Threw w => w end.

(** [question.multi_answer ||
     (question.correct_answer && question.correct_answer.includes(','))]. *)
Definition isMultiAnswer (q : Question) : bool :=
  multi_answer q ||
  match correct_answer q with
  | Some s => Js.includes_comma s
  | None => false
  end.

(** [isMultiAnswer ? question.correct_answer.split(',').length : 1];
    [None] when [split] is called on a missing [correct_answer]. *)
Definition numCorrect (q : Question) : option nat :=
  if isMultiAnswer q
  then (λ s, length (Js.split_comma s)) <$> correct_answer q
  else Some 1%nat.

(** [if (w && !w.closed) w.close()] on the popup handle. *)
Definition closePopupIfOpen (w : World) : World :=
  match dragDropWindow (st w) with
  | Some p =>
      if closed p then w
      else set_st (with_dragDropWindow (Some {| closed := true |})) w
  | None => w
  end.

Definition showSummary (w : World) : World :=
  set_page (λ p, with_sections (setup_hidden p) true false p)
    (closePopupIfOpen w).

Definition displayDragDropQuestion (q : Question) (w : World) : World :=
  set_page
    (λ p, with_next_topic_hidden false
            (with_more_concept_hidden true
               (with_try_again_hidden true
                  (with_submit_hidden true
                     (with_feedback None
                        (with_choices [] (input_type p) (Some (id q)) p)))))) w.

Definition render (q : Question) : list Dom.Input :=
  (λ e, Dom.fresh_input e.1) <$> Dom.sort_entries localeCompare (choices q).

Definition displayCurrentQuestion (w : World) : Completion :=
  match conceptGroups (st w) !! currentIndex (st w) with
  | None => Returned (showSummary w)
  | Some g =>
      match question g with
      | None => Threw w
      | Some q =>
          if drag_drop q then Returned (displayDragDropQuestion q w)
          else
            match numCorrect q with
            | None => Threw w
            | Some _ =>
                Returned
                  (set_st (with_attemptNumber 1)
                     (set_page
                        (λ p, with_next_topic_hidden true
                                (with_more_concept_hidden true
                                   (with_try_again_hidden true
                                      (with_submit_hidden false
                                         (with_feedback None
                                            (with_choices (render q)
                                               (if isMultiAnswer q
                                                then Dom.Checkbox else Dom.Radio)
                                               None p)))))) w))
            end
      end
  end.

Definition nextTopic (w : World) : Completion :=
  let w1 := closePopupIfOpen w in
  let w2 := set_st (λ x, with_currentIndex (S (currentIndex x)) x) w1 in
  let w3 := set_page (with_inputs (fmap (Dom.set_disabled false))) w2 in
  if decide (length (conceptGroups (st w3)) ≤ currentIndex (st w3))%nat
  then Returned (showSummary w3)
  else displayCurrentQuestion w3.

(** The record written into [scores] for a correct resolution. *)
Definition outcome_now (x : State) (concept : string) : Outcome :=
  {| firstAttemptCorrect := bool_decide (attemptNumber x = 1);
     attempts := attemptNumber x;
     outcome_concept := concept |}.

Definition handleDragDropMessage (m : Message) (w : World) : World :=
  if decide (type m = "dragDropComplete") then
    match conceptGroups (st w) !! currentIndex (st w) with
    | None => w
    | Some currentGroup =>
        if msg_correct m then
          set_page
            (λ p, with_next_topic_hidden false
                    (with_more_concept_hidden true
                       (with_try_again_hidden true
                          (with_submit_hidden true
                             (with_choices [] (input_type p) None
                                (with_feedback (Some Success) p))))))
            (set_st (λ x, with_scores
                            (<[group_id currentGroup :=
                                 outcome_now x (concept currentGroup)]> (scores x)) x) w)
        else
          set_page
            (λ p, with_next_topic_hidden false
                    (with_choices [] (input_type p) (Some (questionId m))
                       (with_feedback (Some Warning) p)))
            (set_st (λ x, with_attemptNumber (attemptNumber x + 1) x) w)
    end
  else w.

(** [submitAnswer] up to the [fetch] call. *)
Definition submitAnswer (w : World) : World :=
  let selectedAnswers := Dom.checked_inputs (inputs (page w)) in
  if decide (length selectedAnswers = 0%nat) then alert PleaseSelectAnswer w
  else
    match conceptGroups (st w) !! currentIndex (st w) with
    | None => w
    | Some currentGroup =>
        match question currentGroup with
        | None => w
        | Some q =>
            match numCorrect q with
            | None => w
            | Some n =>
                if isMultiAnswer q && negb (length selectedAnswers =? n)%nat
                then alert (SelectExactly n) w
                else
                  send
                    {| request :=
                         Submit (sessionId (st w)) (id q)
                           (normalized_answer (inputs (page w)))
                           (attemptNumber (st w)) (group_id currentGroup);
                       capture :=
                         SubmitCapture (group_id currentGroup)
                           (concept currentGroup) |}
                    (set_page (with_inputs (fmap (Dom.set_disabled true))) w)
            end
        end
    end.

(** The [.then] callback of the submit request; [gid] and [cpt] are the id
    and the concept of the captured [currentGroup]. *)
Definition submitAnswer_then (gid cpt : string) (d : SubmitData) (w : World)
  : World :=
  if Js.truthy (submit_error d) then
    alert (ErrorAlert (default EmptyString (submit_error d))) w
  else if correct d then
    let w1 :=
      match scores (st w) !! gid with
      | Some _ => w
      | None =>
          if Js.inherited gid then w
          else
            set_st (λ x, with_scores (<[gid := outcome_now x cpt]> (scores x)) x)
              w
      end in
    set_page
      (λ p, with_next_topic_hidden false
              ((if 0 <? more_in_group d
                then with_more_concept_hidden false else (λ p', p'))
                 (with_submit_hidden true (with_feedback (Some Success) p))))
      w1
  else
    set_page
      (λ p, with_try_again_hidden false
              (with_submit_hidden true (with_feedback (Some Danger) p)))
      (set_st (with_attemptNumber (attempt d + 1)) w).

Definition submitAnswer_catch (w : World) : World := alert ErrorSubmitting w.

(** [tryAgain]. *)
Definition tryAgain (w : World) : World :=
  set_page
    (λ p, with_submit_hidden false
            (with_try_again_hidden true
               (with_feedback None
                  (with_inputs
                     (fmap (λ i, Dom.set_checked false (Dom.set_disabled false i)))
                     p)))) w.

(** [loadMoreFromConcept] up to the [fetch] call.
    [currentGroup.seen_questions || []] is the group's own array when the
    field is set and a new empty array otherwise. *)
Definition loadMoreFromConcept (w : World) : World :=
  match conceptGroups (st w) !! currentIndex (st w) with
  | None => w
  | Some currentGroup =>
      let w1 :=
        match seen_questions currentGroup with
        | Some _ => w
        | None => set_arrays (λ s, s ++ [[]]) w
        end in
      let seenQuestions :=
        default (length (arrays w)) (seen_questions currentGroup) in
      send
        {| request :=
             GroupQuestion (group_id currentGroup) (sessionId (st w))
               (Js.join_comma (default [] (arrays w1 !! seenQuestions)));
           capture :=
             MoreCapture (generation w) (currentIndex (st w)) seenQuestions |}
        w1
  end.

(** The assignments [currentGroup.question = ...] and
    [currentGroup.seen_questions = seenQuestions] on the captured group; a
    group of an array that [quizState] no longer holds is out of reach. *)
Definition assign_group (gen idx : nat) (q : option Question) (seen : nat)
  (w : World) : World :=
  if decide (gen = generation w) then
    set_st
      (λ x, with_conceptGroups
              (alter (λ g, {| group_id := group_id g; concept := concept g;
                              question := q; seen_questions := Some seen |})
                 idx (conceptGroups x)) x) w
  else w.

Definition loadMoreFromConcept_catch (w : World) : World := alert ErrorLoading w.

(** The [.then] callback of the group-question request.  An exception in it
    ([data.question.id] on a missing question, or one thrown by
    [displayCurrentQuestion] or [nextTopic]) runs the [.catch] callback. *)
Definition loadMoreFromConcept_then (gen idx seen : nat) (d : MoreData)
  (w : World) : World :=
  if Js.truthy (more_error d) then
    if all_covered d then
      match nextTopic (alert AllCovered w) with
      | Returned w' => w'
      | Threw w' => loadMoreFromConcept_catch w'
      end
    else alert (ErrorAlert (default EmptyString (more_error d))) w
  else
    let w1 := assign_group gen idx (more_question d) seen w in
    match more_question d with
    | None => loadMoreFromConcept_catch w1
    | Some q =>
        let w2 := set_arrays (alter (λ l, l ++ [id q]) seen) w1 in
        let w3 := set_page (with_inputs (fmap (Dom.set_disabled false))) w2 in
        match displayCurrentQuestion w3 with
        | Returned w' => w'
        | Threw w' => loadMoreFromConcept_catch w'
        end
    end.

(** [restartQuiz]: the state object is replaced; only the drag-and-drop
    catalogue is carried over. *)
Definition restartQuiz (w : World) : World :=
  let w1 := closePopupIfOpen w in
  {| st := {| sessionId := None; protocol := None; conceptGroups := [];
              currentIndex := 0; attemptNumber := 1; scores := ∅;
              totalConcepts := 0; dragDropWindow := None;
              dragDropQuestions := dragDropQuestions (st w1) |};
     page := with_sections false (interface_hidden (page w1)) true (page w1);
     pending := pending w1;
     alerts := alerts w1;
     arrays := arrays w1;
     generation := S (generation w1) |}.

(** [startQuiz] with the value of the protocol select. *)
Definition startQuiz (selected : string) (w : World) : World :=
  if Js.truthy (Some selected)
  then send {| request := Start selected; capture := NoCapture |} w
  else alert PleaseSelectProtocol w.

(** The groups of a start response become objects of the page; an array
    that came with a group is put into the store. *)
Fixpoint install_groups (gs : list GroupData) (store : list (list string))
  : list ConceptGroup * list (list string) :=
  match gs with
  | [] => ([], store)
  | g :: gs' =>
      let '(seen, store1) :=
        match gd_seen_questions g with
        | Some l => (Some (length store), store ++ [l])
        | None => (None, store)
        end in
      let '(rest, store2) := install_groups gs' store1 in
      ({| group_id := gd_group_id g; concept := gd_concept g;
          question := gd_question g; seen_questions := seen |} :: rest, store2)
  end.

Definition startQuiz_then (d : StartData) (w : World) : World :=
  if Js.truthy (start_error d) then
    alert (ErrorAlert (default EmptyString (start_error d))) w
  else
    let '(groups, store) := install_groups (concept_groups d) (arrays w) in
    let w1 :=
      {| st := {| sessionId := session_id d; protocol := start_protocol d;
                  conceptGroups := groups; currentIndex := 0;
                  attemptNumber := 1; scores := ∅;
                  totalConcepts := total_concepts d;
                  dragDropWindow := dragDropWindow (st w);
                  dragDropQuestions := dragDropQuestions (st w) |};
         page := with_sections true false (summary_hidden (page w)) (page w);
         pending := pending w;
         alerts := alerts w;
         arrays := store;
         generation := S (generation w) |} in
    match displayCurrentQuestion w1 with
    | Returned w' => w'
    | Threw w' => alert ErrorStarting w'
    end.

Definition startQuiz_catch (w : World) : World := alert ErrorStarting w.

(** [loadDragDropQuestions] and its callback. *)
Definition loadDragDropQuestions (w : World) : World :=
  send {| request := DragDropQuestions; capture := NoCapture |} w.

Definition loadDragDropQuestions_then (qs : option (list Question)) (w : World)
  : World :=
  match qs with
  | Some l => set_st (with_dragDropQuestions l) w
  | None => w
  end.

(** [openDragDropPopup(questionId)]; [opened] tells whether [window.open]
    returned a window (it returns [null] when the popup is blocked). *)
Definition openDragDropPopup (qid : string) (opened : bool) (w : World) : World :=
  set_page (λ p, with_choices [] (input_type p) (Some qid) p)
    (set_st (with_dragDropWindow
               (if opened then Some {| closed := false |} else None))
       (closePopupIfOpen w)).

(** *** The event loop *)

Inductive Event :=
  | ClickChoice (letter : string)
  | ClickStart (selected : string)
  | ClickSubmit
  | ClickTryAgain
  | ClickMoreConcept
  | ClickNextTopic
  | ClickRestart
  | ClickOpenPopup (opened : bool)
  | PopupClosed
  | Receive (m : Message)
  | Deliver (i : nat) (r : Response).

Definition callbacks (c : Call) (r : Response) : option (World → World) :=
  match request c, capture c, r with
  | DragDropQuestions, _, DragDropOk qs => Some (loadDragDropQuestions_then qs)
  | DragDropQuestions, _, Rejected => Some (λ w, w)
  | Start _, _, StartOk d => Some (startQuiz_then d)
  | Start _, _, Rejected => Some startQuiz_catch
  | Submit _ _ _ _ _, SubmitCapture gid cpt, SubmitOk d =>
      Some (submitAnswer_then gid cpt d)
  | Submit _ _ _ _ _, _, Rejected => Some submitAnswer_catch
  | GroupQuestion _ _ _, MoreCapture gen idx seen, MoreOk d =>
      Some (loadMoreFromConcept_then gen idx seen d)
  | GroupQuestion _ _ _, _, Rejected => Some loadMoreFromConcept_catch
  | _, _, _ => None
  end.

Definition deliver (i : nat) (r : Response) (w : World) : World :=
  match pending w !! i with
  | None => w
  | Some c =>
      match callbacks c r with
      | None => w
      | Some k =>
          k {| st := st w; page := page w; pending := delete i (pending w);
               alerts := alerts w; arrays := arrays w;
               generation := generation w |}
      end
  end.

(** A button reacts while it does not carry [d-none] (the quiz script never
    disables a button; the visibility of the three page sections is kept in
    the page but not used to filter clicks). *)
Definition step (e : Event) (w : World) : World :=
  match e with
  | ClickChoice l =>
      set_page (with_inputs (Dom.click_choice (input_type (page w)) l)) w
  | ClickStart selected => startQuiz selected w
  | ClickSubmit => if submit_hidden (page w) then w else submitAnswer w
  | ClickTryAgain => if try_again_hidden (page w) then w else tryAgain w
  | ClickMoreConcept =>
      if more_concept_hidden (page w) then w else loadMoreFromConcept w
  | ClickNextTopic =>
      if next_topic_hidden (page w) then w else world_of (nextTopic w)
  | ClickRestart => restartQuiz w
  | ClickOpenPopup opened =>
      match popup_button (page w) with
      | Some qid => openDragDropPopup qid opened w
      | None => w
      end
  | PopupClosed =>
      match dragDropWindow (st w) with
      | Some _ => set_st (with_dragDropWindow (Some {| closed := true |})) w
      | None => w
      end
  | Receive m => handleDragDropMessage m w
  | Deliver i r => deliver i r w
  end.

Definition run (es : list Event) (w : World) : World :=
  foldl (λ acc e, step e acc) w es.

End Handlers.

End Quiz.

(** ** The tutor chat of the protocol page ([sendMessage] and its callbacks)

    The markup of a message is a projection of its type and text and is
    left out; the page holds the input, the submit button and the list of
    messages in [#chat-container]. *)

Module Chat.

(** Code units that [String.prototype.trim] strips, among those below 256:
    tab, line feed, vertical tab, form feed, carriage return, space and
    no-break space. *)
Definition is_white_space (c : ascii) : bool :=
  bool_decide (N_of_ascii c ∈ [9; 10; 11; 12; 13; 32; 160]%N).

Fixpoint trim_start (s : string) : string :=
  match s with
  | EmptyString => EmptyString
  | String c s' => if is_white_space c then trim_start s' else s
  end.

(** [s.trim()]. *)
Definition trim (s : string) : string :=
  String.rev (trim_start (String.rev (trim_start s))).

(** The first argument of [addMessage]. *)
Inductive MessageType := User | Tutor | Error.

Record Page := mkPage {
  input_value : string;
  input_disabled : bool;
  submit_disabled : bool;
  submit_text_hidden : bool;
  loading_hidden : bool;
  messages : list (MessageType * string)
}.

(** The body of the request to [/api/ask]. *)
Record Request := mkRequest {
  protocol_slug : option string;
  question : string
}.

Record World := mkWorld {
  page : Page;
  pending : list Request
}.

(** A response of [/api/ask] with the fields the callback reads, or a
    rejected promise with the message of its error. *)
Inductive Response :=
  | AskOk (error : option string) (answer : string)
  | Rejected (message : string).

Definition addMessage (ty : MessageType) (text : string) (p : Page) : Page :=
  {| input_value := input_value p; input_disabled := input_disabled p;
     submit_disabled := submit_disabled p;
     submit_text_hidden := submit_text_hidden p;
     loading_hidden := loading_hidden p;
     messages := messages p ++ [(ty, text)] |}.

(** [sendMessage]; [slug] is [window.protocolSlug]. *)
Definition sendMessage (slug : option string) (w : World) : World :=
  let question := trim (input_value (page w)) in
  if Js.truthy (Some question) then
    {| page :=
         {| input_value := EmptyString; input_disabled := true;
            submit_disabled := true; submit_text_hidden := true;
            loading_hidden := false;
            messages := messages (page w) ++ [(User, question)] |};
       pending :=
         pending w ++ [{| protocol_slug := slug; question := question |}] |}
  else w.

(** The [.then] and [.catch] callbacks. *)
Definition sendMessage_reply (r : Response) (p : Page) : Page :=
  match r with
  | AskOk error answer =>
      if Js.truthy error
      then addMessage Error (String.append "Error: " (default EmptyString error)) p
      else addMessage Tutor answer p
  | Rejected message => addMessage Error (String.append "Error: " message) p
  end.

(** The [.finally] callback. *)
Definition sendMessage_finally (p : Page) : Page :=
  {| input_value := input_value p; input_disabled := false;
     submit_disabled := false; submit_text_hidden := false;
     loading_hidden := true; messages := messages p |}.

(** The events of the chat: the student edits the input, presses Enter in
    it or clicks the submit button (a disabled control does not react), or
    a response arrives. *)
Inductive Event :=
  | TypeText (text : string)
  | PressEnter
  | ClickSubmit
  | Deliver (i : nat) (r : Response).

Definition step (slug : option string) (e : Event) (w : World) : World :=
  match e with
  | TypeText text =>
      if input_disabled (page w) then w
      else
        {| page :=
             {| input_value := text; input_disabled := input_disabled (page w);
                submit_disabled := submit_disabled (page w);
                submit_text_hidden := submit_text_hidden (page w);
                loading_hidden := loading_hidden (page w);
                messages := messages (page w) |};
           pending := pending w |}
  | PressEnter => if input_disabled (page w) then w else sendMessage slug w
  | ClickSubmit => if submit_disabled (page w) then w else sendMessage slug w
  | Deliver i r =>
      match pending w !! i with
      | None => w
      | Some _ =>
          {| page := sendMessage_finally (sendMessage_reply r (page w));
             pending := delete i (pending w) |}
      end
  end.

Definition run (slug : option string) (es : list Event) (w : World) : World :=
  foldl (λ acc e, step slug e acc) w es.

(** The chat as the page loads it: empty input, both controls enabled,
    nothing in flight. *)
Definition initial (msgs : list (MessageType * string)) : World :=
  {| page := {| input_value := EmptyString; input_disabled := false;
                submit_disabled := false; submit_text_hidden := false;
                loading_hidden := true; messages := msgs |};
     pending := [] |}.

End Chat.

(** * Derived notions

    Functions of the state that the statements below are about, and the
    concrete sessions on which they are evaluated. *)

(** A click on an enabled checkbox flips it. *)
Definition toggle (letter : string) (i : Dom.Input) : Dom.Input :=
  if decide (Dom.value i = letter)
  then (if Dom.disabled i then i else Dom.set_checked (negb (Dom.checked i)) i)
  else i.

(** The three counters of the linear practice page. *)
Definition counters (w : Practice.World) : Z * Z * Z :=
  (Practice.correctCount (Practice.st w),
   Practice.incorrectCount (Practice.st w),
   Practice.skippedCount (Practice.st w)).

(** The ids in the group's [seen_questions] array; none while the field is
    absent. *)
Definition seen_ids (w : Quiz.World) (g : Quiz.ConceptGroup) : list string :=
  match Quiz.seen_questions g with
  | Some a => default [] (Quiz.arrays w !! a)
  | None => []
  end.

(** A group whose question [displayCurrentQuestion] can show. *)
Definition displayable (g : Quiz.ConceptGroup) : bool :=
  match Quiz.question g with
  | Some q => Quiz.drag_drop q || bool_decide (is_Some (Quiz.numCorrect q))
  | None => false
  end.

(** One attempt at the question on display: the student picks the choice
    [a.1] and submits, and the response [a.2] arrives. *)
Definition attempt_events (a : string * Practice.CheckData)
  : list Practice.Event :=
  [Practice.ClickChoice a.1; Practice.ClickSubmit;
   Practice.Deliver 0 (Practice.CheckAnswerOk a.2)].

(** The attempts at one question: [a], then each of [more] after a click
    on "try again". *)
Definition attempts_events (a : string * Practice.CheckData)
  (more : list (string * Practice.CheckData)) : list Practice.Event :=
  attempt_events a ++ (more ≫= λ b, Practice.ClickTryAgain :: attempt_events b).

(** The attempts [a], [more] at the question [q] are wrong answers the page
    allows, and they end with the reveal on offer: each attempt picks a
    choice of [q] that the response to the attempt before it has not
    disabled ([dis] for the first attempt), each response reports a wrong
    answer and no error, and the response to the last attempt has
    [can_reveal] set. *)
Fixpoint wrong_until_reveal (q : Practice.Question) (dis : list string)
  (a : string * Practice.CheckData)
  (more : list (string * Practice.CheckData)) : Prop :=
  (a.1 ∈ (Practice.choices q).*1)
  ∧ (a.1 ≠ EmptyString)
  ∧ (a.1 ∉ dis)
  ∧ Js.truthy (Practice.check_error a.2) = false
  ∧ Practice.correct a.2 = false
  ∧ match more with
    | [] => Practice.can_reveal a.2 = true
    | b :: more' =>
        wrong_until_reveal q (default [] (Practice.disabled_choices a.2)) b
          more'
    end.

(** Scenario A as the events of a linear session, up to the reveal: the
    first question is answered correctly at once (choice [l1]), the second
    is skipped, the third is answered wrong, once ([a3]) or several times
    ([more3], each after "try again").  The payloads of the responses are
    parameters. *)
Definition scenario_A_answers (l1 : string)
  (d0 : Practice.StartData) (dC : Practice.CheckData) (dN : Practice.NextData)
  (dS : Practice.SkipData) (a3 : string * Practice.CheckData)
  (more3 : list (string * Practice.CheckData)) : list Practice.Event :=
  [Practice.Deliver 0 (Practice.StartOk d0);
   Practice.ClickChoice l1; Practice.ClickSubmit;
   Practice.Deliver 0 (Practice.CheckAnswerOk dC);
   Practice.ClickNext; Practice.Deliver 0 (Practice.NextOk dN);
   Practice.ClickSkip; Practice.Deliver 0 (Practice.SkipOk dS)]
  ++ attempts_events a3 more3.

(** Scenario A: the answers, then the answer to the third question is
    revealed. *)
Definition scenario_A_events (l1 : string)
  (d0 : Practice.StartData) (dC : Practice.CheckData) (dN : Practice.NextData)
  (dS : Practice.SkipData) (a3 : string * Practice.CheckData)
  (more3 : list (string * Practice.CheckData)) (dR : Practice.ExplainData)
  : list Practice.Event :=
  scenario_A_answers l1 d0 dC dN dS a3 more3
  ++ [Practice.ClickReveal; Practice.Deliver 0 (Practice.ExplainOk dR)].

(** A question on display, ready for an answer, nothing in flight. *)
Definition presented (lc : string → string → comparison)
  (q : Practice.Question) (w : Practice.World) : Prop :=
  Practice.location (Practice.page w) = Practice.PracticePage
  ∧ Practice.pending w = []
  ∧ Practice.currentQuestion (Practice.st w) = Some q
  ∧ Practice.submit_hidden (Practice.page w) = false
  ∧ Practice.skip_hidden (Practice.page w) = false
  ∧ Practice.inputs (Practice.page w) =
      Dom.set_disabled false <$> Practice.render lc q
  ∧ Practice.input_type (Practice.page w) =
      (if Practice.multi_answer q then Dom.Checkbox else Dom.Radio).

(** The page between two questions: the "next" button is offered and
    nothing is in flight. *)
Definition resolved (w : Practice.World) : Prop :=
  Practice.location (Practice.page w) = Practice.PracticePage
  ∧ Practice.pending w = []
  ∧ Practice.next_hidden (Practice.page w) = false.

(** The inputs of [letters] with nothing checked and exactly the letters
    of [dis] disabled. *)
Definition unchecked_inputs (dis letters : list string) : list Dom.Input :=
  (λ v, {| Dom.value := v; Dom.checked := false;
           Dom.disabled := bool_decide (v ∈ dis) |}) <$> letters.

(** The question [q] is on display and open for an answer: nothing is in
    flight, nothing is checked, the submit button is displayed and the
    choices of [dis] are disabled. *)
Definition open_for_answer (lc : string → string → comparison)
  (q : Practice.Question) (dis : list string) (w : Practice.World) : Prop :=
  Practice.location (Practice.page w) = Practice.PracticePage
  ∧ Practice.pending w = []
  ∧ Practice.currentQuestion (Practice.st w) = Some q
  ∧ Practice.submit_hidden (Practice.page w) = false
  ∧ Practice.inputs (Practice.page w) =
      unchecked_inputs dis (Dom.sort_entries lc (Practice.choices q)).*1
  ∧ Practice.input_type (Practice.page w) =
      (if Practice.multi_answer q then Dom.Checkbox else Dom.Radio).

(** The response [d] to a wrong answer to [q] has been handled: "try
    again" is offered, the reveal is offered exactly when [d] allows it,
    and every input is disabled. *)
Definition wrong_answer_shown (lc : string → string → comparison)
  (q : Practice.Question) (d : Practice.CheckData) (w : Practice.World)
  : Prop :=
  Practice.location (Practice.page w) = Practice.PracticePage
  ∧ Practice.pending w = []
  ∧ Practice.currentQuestion (Practice.st w) = Some q
  ∧ Practice.try_again_hidden (Practice.page w) = false
  ∧ Practice.reveal_hidden (Practice.page w) = negb (Practice.can_reveal d)
  ∧ Practice.disabledChoices (Practice.st w) =
      default [] (Practice.disabled_choices d)
  ∧ Forall (λ i, Dom.disabled i = true) (Practice.inputs (Practice.page w))
  ∧ Dom.value <$> Practice.inputs (Practice.page w) =
      (Dom.sort_entries lc (Practice.choices q)).*1
  ∧ Practice.input_type (Practice.page w) =
      (if Practice.multi_answer q then Dom.Checkbox else Dom.Radio).

(** ** Concrete sessions used below *)

Module Examples.

(** Choice letters collate in code-unit order in these sessions. *)
Definition collation : string → string → comparison := String.compare.

(** *** Linear practice page *)

Definition two_of_three : Practice.Question :=
  {| Practice.id := "q7"; Practice.question_number := 1;
     Practice.multi_answer := true;
     Practice.choices := [("c", "third"); ("a", "first"); ("b", "second")] |}.

Definition practice_blank : Practice.World :=
  {| Practice.st := Practice.initial_state;
     Practice.page := Practice.initial_page;
     Practice.pending := [] |}.

(** The question [two_of_three] on display, nothing checked yet. *)
Definition practice_shown : Practice.World :=
  Practice.displayQuestion collation two_of_three practice_blank.

(** One, then two choices checked, in this click order. *)
Definition practice_one_checked : Practice.World :=
  Practice.run collation [Practice.ClickChoice "a"] practice_shown.

Definition practice_two_checked : Practice.World :=
  Practice.run collation
    [Practice.ClickChoice "c"; Practice.ClickChoice "a"] practice_shown.

(** *** Concept-group quiz page *)

Definition quiz_blank : Quiz.World :=
  {| Quiz.st :=
       {| Quiz.sessionId := None; Quiz.protocol := None;
          Quiz.conceptGroups := []; Quiz.currentIndex := 0;
          Quiz.attemptNumber := 1; Quiz.scores := ∅;
          Quiz.totalConcepts := 0; Quiz.dragDropWindow := None;
          Quiz.dragDropQuestions := [] |};
     Quiz.page :=
       {| Quiz.inputs := []; Quiz.input_type := Dom.Radio;
          Quiz.popup_button := None; Quiz.feedback := None;
          Quiz.submit_hidden := false; Quiz.try_again_hidden := true;
          Quiz.more_concept_hidden := true; Quiz.next_topic_hidden := true;
          Quiz.setup_hidden := false; Quiz.interface_hidden := true;
          Quiz.summary_hidden := true |};
     Quiz.pending := []; Quiz.alerts := []; Quiz.arrays := [];
     Quiz.generation := 0 |}.

Definition single_choice : Quiz.Question :=
  {| Quiz.id := "q001"; Quiz.drag_drop := false; Quiz.multi_answer := false;
     Quiz.correct_answer := Some "a";
     Quiz.choices := [("b", "120"); ("a", "110"); ("c", "90")] |}.

Definition pick_two : Quiz.Question :=
  {| Quiz.id := "q002"; Quiz.drag_drop := false; Quiz.multi_answer := false;
     Quiz.correct_answer := Some "a,c";
     Quiz.choices := [("a", "one"); ("b", "two"); ("c", "three")] |}.

Definition interactive : Quiz.Question :=
  {| Quiz.id := "7"; Quiz.drag_drop := true; Quiz.multi_answer := false;
     Quiz.correct_answer := None; Quiz.choices := [] |}.

Definition group_of (gid cpt : string) (q : Quiz.Question) : Quiz.GroupData :=
  {| Quiz.gd_group_id := gid; Quiz.gd_concept := cpt;
     Quiz.gd_question := Some q; Quiz.gd_seen_questions := None |}.

(** A start response in the documented shape: groups carry an id, a
    concept and one question. *)
Definition start_with (gs : list Quiz.GroupData) : Quiz.Response :=
  Quiz.StartOk
    {| Quiz.start_error := None; Quiz.session_id := Some "s1";
       Quiz.start_protocol := Some "ospf"; Quiz.concept_groups := gs;
       Quiz.total_concepts := Z.of_nat (length gs) |}.

Definition graded (ok : bool) (more : Z) (n : Z) : Quiz.Response :=
  Quiz.SubmitOk
    {| Quiz.submit_error := None; Quiz.correct := ok;
       Quiz.more_in_group := more; Quiz.attempt := n |}.

Definition completion (qid : string) (ok : bool) : Quiz.Message :=
  {| Quiz.type := "dragDropComplete"; Quiz.questionId := qid;
     Quiz.msg_correct := ok |}.

(** A quiz started on the given groups, the first group on display. *)
Definition quiz_started (gs : list Quiz.GroupData) : Quiz.World :=
  Quiz.run collation
    [Quiz.ClickStart "ospf"; Quiz.Deliver 0 (start_with gs)] quiz_blank.

(** The two-letter question on display with all three choices checked. *)
Definition quiz_three_checked : Quiz.World :=
  Quiz.run collation
    [Quiz.ClickChoice "a"; Quiz.ClickChoice "b"; Quiz.ClickChoice "c"]
    (quiz_started [group_of "g2" "pairs" pick_two]).

End Examples.

Module Sessions.
Import Examples.

(** First question of group g1 answered correctly on the first attempt. *)
Definition first_try_correct : Quiz.World :=
  Quiz.run collation
    [Quiz.ClickChoice "a"; Quiz.ClickSubmit; Quiz.Deliver 0 (graded true 1 1)]
    (quiz_started [group_of "g1" "OSPF distance" single_choice]).

(** Then: another question of the group is requested and is an interactive
    one; the popup is closed once without success, reopened and completed. *)
Definition then_interactive_second_try : Quiz.World :=
  Quiz.run collation
    [Quiz.ClickMoreConcept;
     Quiz.Deliver 0
       (Quiz.MoreOk {| Quiz.more_error := None; Quiz.all_covered := false;
                       Quiz.more_question := Some interactive |});
     Quiz.ClickOpenPopup true;
     Quiz.Receive (completion "7" false);
     Quiz.ClickOpenPopup true;
     Quiz.Receive (completion "7" true)]
    first_try_correct.



(** A wrong answer on the quiz page, feedback on display. *)
Definition quiz_answered_wrong : Quiz.World :=
  Quiz.run collation
    [Quiz.ClickChoice "b"; Quiz.ClickSubmit; Quiz.Deliver 0 (graded false 0 1)]
    (quiz_started [group_of "g1" "OSPF distance" single_choice]).

End Sessions.

Module Scenario.
Import Examples.

(** Three single-answer questions of a linear session. *)
Definition question_of (n : Z) (qid : string) : Practice.Question :=
  {| Practice.id := qid; Practice.question_number := n;
     Practice.multi_answer := false;
     Practice.choices := [("a", "first"); ("b", "second")] |}.

Definition Q1 : Practice.Question := question_of 1 "q1".
Definition Q2 : Practice.Question := question_of 2 "q2".
Definition Q3 : Practice.Question :=
  {| Practice.id := "q3"; Practice.question_number := 3;
     Practice.multi_answer := false;
     Practice.choices := [("a", "first"); ("b", "second"); ("c", "third")] |}.

Definition started : Practice.StartData :=
  {| Practice.start_error := None; Practice.start_total_questions := 3;
     Practice.first_question := Some Q1 |}.

Definition right_answer : Practice.CheckData :=
  {| Practice.check_error := None; Practice.correct := true;
     Practice.check_correct_answer := Some "a"; Practice.attempt := 1;
     Practice.can_reveal := false; Practice.disabled_choices := None |}.

Definition wrong_answer : Practice.CheckData :=
  {| Practice.check_error := None; Practice.correct := false;
     Practice.check_correct_answer := None; Practice.attempt := 2;
     Practice.can_reveal := true; Practice.disabled_choices := Some ["b"] |}.

Definition next_is (q : Practice.Question) : Practice.NextData :=
  {| Practice.next_error := None; Practice.next_done := false;
     Practice.question := Some q |}.

Definition skipped_to (q : Practice.Question) : Practice.SkipData :=
  {| Practice.skip_error := None; Practice.skip_done := false;
     Practice.next_question := Some q; Practice.skip_total_questions := 3 |}.

Definition skipped_to_end : Practice.SkipData :=
  {| Practice.skip_error := None; Practice.skip_done := true;
     Practice.next_question := None; Practice.skip_total_questions := 3 |}.

Definition revealed : Practice.ExplainData :=
  {| Practice.explain_error := None;
     Practice.explain_correct_answer := Some "a" |}.

(** The page right after [initPracticePage]. *)
Definition opened : Practice.World := Practice.initPracticePage "ospf" 3.

(** The first wrong answer to a question: the picked choice is disabled,
    the reveal is not on offer yet. *)
Definition first_wrong : Practice.CheckData :=
  {| Practice.check_error := None; Practice.correct := false;
     Practice.check_correct_answer := None; Practice.attempt := 1;
     Practice.can_reveal := false; Practice.disabled_choices := Some ["b"] |}.

(** The second wrong answer: the reveal is on offer. *)
Definition second_wrong : Practice.CheckData :=
  {| Practice.check_error := None; Practice.correct := false;
     Practice.check_correct_answer := None; Practice.attempt := 2;
     Practice.can_reveal := true;
     Practice.disabled_choices := Some ["b"; "c"] |}.

(** Q1 right at once, Q2 skipped, Q3 wrong (b), tried again, wrong (c) and
    then revealed. *)
Definition events_A : list Practice.Event :=
  scenario_A_events "a" started right_answer (next_is Q2) (skipped_to Q3)
    ("b", first_wrong) [("c", second_wrong)] revealed.

(** A question answered wrong and then skipped (the skip button comes back
    with "try again"). *)
Definition events_wrong_then_skip : list Practice.Event :=
  [Practice.Deliver 0 (Practice.StartOk started);
   Practice.ClickChoice "b"; Practice.ClickSubmit;
   Practice.Deliver 0 (Practice.CheckAnswerOk wrong_answer);
   Practice.ClickTryAgain;
   Practice.ClickSkip; Practice.Deliver 0 (Practice.SkipOk skipped_to_end)].

End Scenario.

Module DoubleSubmit.
Import Examples.

(** A choice picked and submitted on the quiz page; no response yet. *)
Definition in_flight : Quiz.World :=
  Quiz.run collation [Quiz.ClickChoice "a"; Quiz.ClickSubmit]
    (quiz_started [group_of "g1" "OSPF distance" single_choice]).

Definition clicked_again : Quiz.World :=
  Quiz.step collation Quiz.ClickSubmit in_flight.

End DoubleSubmit.

Module Instances.

Definition checked_a_then_c : list Dom.Input :=
  Dom.click_choices Dom.Checkbox ["a"; "c"]
    (Dom.fresh_input <$> ["a"; "b"; "c"]).

(** The same letters in an array that lists c first. *)
Definition c_before_a : list Dom.Input :=
  [ {| Dom.value := "c"; Dom.checked := true; Dom.disabled := false |};
    {| Dom.value := "b"; Dom.checked := false; Dom.disabled := false |};
    {| Dom.value := "a"; Dom.checked := true; Dom.disabled := false |} ].

(** The practice question with one choice picked and its request in
    flight. *)
Definition practice_in_flight : Practice.World :=
  Practice.step Examples.collation Practice.ClickSubmit
    Examples.practice_one_checked.

Definition wrong_disable_a : Practice.CheckData :=
  {| Practice.check_error := None; Practice.correct := false;
     Practice.check_correct_answer := None; Practice.attempt := 1;
     Practice.can_reveal := false; Practice.disabled_choices := Some ["a"] |}.

End Instances.

(** ** Notions for the further properties *)

(** The delivery of a response, as opposed to an action of the student. *)
Definition is_delivery (e : Practice.Event) : bool :=
  match e with
  | Practice.Deliver _ _ => true
  | _ => false
  end.

(** A check-answer or reveal round trip that failed: the payload carries an
    error, or the promise was rejected. *)
Definition check_failed (r : Practice.Response) : bool :=
  match r with
  | Practice.CheckAnswerOk d => Js.truthy (Practice.check_error d)
  | Practice.Rejected => true
  | _ => false
  end.

Definition reveal_failed (r : Practice.Response) : bool :=
  match r with
  | Practice.ExplainOk d => Js.truthy (Practice.explain_error d)
  | Practice.Rejected => true
  | _ => false
  end.

(** The events of the quiz page that install a new state object: a restart
    and the delivery of a start response. *)
Definition starts_over (e : Quiz.Event) : bool :=
  match e with
  | Quiz.ClickRestart => true
  | Quiz.Deliver _ (Quiz.StartOk _) => true
  | _ => false
  end.

(** A submit round trip of the quiz page that failed. *)
Definition submit_failed (r : Quiz.Response) : bool :=
  match r with
  | Quiz.SubmitOk d => Js.truthy (Quiz.submit_error d)
  | Quiz.Rejected => true
  | _ => false
  end.


Definition totalAnswered (x : Quiz.State) : nat := size (Quiz.scores x).

(** The popup handle refers to a window that is still open. *)
Definition popup_open (x : Quiz.State) : bool :=
  match Quiz.dragDropWindow x with
  | Some p => negb (Quiz.closed p)
  | None => false
  end.

(** One round of "more from this concept": the click, and the delivery of
    a response with question [q] to the request the click has sent. *)
Definition more_round (lc : string → string → comparison) (q : Quiz.Question)
  (w : Quiz.World) : Quiz.World :=
  Quiz.deliver lc (length (Quiz.pending w))
    (Quiz.MoreOk {| Quiz.more_error := None; Quiz.all_covered := false;
                    Quiz.more_question := Some q |})
    (Quiz.loadMoreFromConcept w).

(** The [seen_questions] field of a group, when set, refers to an array of
    the store. *)
Definition seen_in_store (w : Quiz.World) (g : Quiz.ConceptGroup) : Prop :=
  match Quiz.seen_questions g with
  | Some a => (a < length (Quiz.arrays w))%nat
  | None => True
  end.

(** A string of white space only. *)
Fixpoint all_white_space (s : string) : bool :=
  match s with
  | EmptyString => true
  | String c s' => Chat.is_white_space c && all_white_space s'
  end.

(** The chat is idle: nothing in flight, input and button enabled. *)
Definition chat_idle (w : Chat.World) : Prop :=
  Chat.pending w = []
  ∧ Chat.input_disabled (Chat.page w) = false
  ∧ Chat.submit_disabled (Chat.page w) = false.

(** The chat waits for one answer: input and button disabled. *)
Definition chat_waiting (w : Chat.World) : Prop :=
  (∃ r, Chat.pending w = [r])
  ∧ Chat.input_disabled (Chat.page w) = true
  ∧ Chat.submit_disabled (Chat.page w) = true.

(** The message a response adds to the chat. *)
Definition chat_reply (r : Chat.Response) : Chat.MessageType * string :=
  match r with
  | Chat.AskOk error answer =>
      if Js.truthy error
      then (Chat.Error, String.append "Error: " (default EmptyString error))
      else (Chat.Tutor, answer)
  | Chat.Rejected message => (Chat.Error, String.append "Error: " message)
  end.

(** The order in which [sort] with the comparator [lc] leaves two letters:
    the second is not put before the first. *)
Definition in_order (lc : string → string → comparison) (a b : string) : Prop :=
  lc a b ≠ Gt.

(** Every input of a listed letter is disabled and unchecked. *)
Definition listed_are_locked (dis : list string) (ins : list Dom.Input) : Prop :=
  Forall (λ i, Dom.value i ∈ dis →
               Dom.disabled i = true ∧ Dom.checked i = false) ins.

(** No action button of the practice page is displayed and every answer
    input is disabled. *)
Definition nothing_to_click (w : Practice.World) : Prop :=
  Practice.submit_hidden (Practice.page w) = true
  ∧ Practice.skip_hidden (Practice.page w) = true
  ∧ Practice.try_again_hidden (Practice.page w) = true
  ∧ Practice.reveal_hidden (Practice.page w) = true
  ∧ Practice.next_hidden (Practice.page w) = true
  ∧ Forall (λ i, Dom.disabled i = true) (Practice.inputs (Practice.page w)).

Module MoreSessions.
Import Examples.


(** A choice checked on the first question of a quiz, nothing sent yet. *)
Definition choice_checked : Quiz.World :=
  Quiz.run collation [Quiz.ClickChoice "a"]
    (quiz_started [group_of "g1" "OSPF distance" single_choice]).

(** After [Sessions.first_try_correct] the student asks for more from the
    concept, and the response carries the question that was on display,
    q001, again. *)
Definition same_question_again : Quiz.World :=
  Quiz.run Examples.collation
    [Quiz.ClickMoreConcept;
     Quiz.Deliver 0
       (Quiz.MoreOk
          {| Quiz.more_error := None; Quiz.all_covered := false;
             Quiz.more_question := Some Examples.single_choice |})]
    Sessions.first_try_correct.

End MoreSessions.

(** The submitted value in the words of the specification: the letters
    "joined by a comma".  It is written as [Array.prototype.join] builds
    its result, from left to right: the first letter, then for each
    further letter a comma and the letter.  The value the handlers build,
    [normalized_answer], is compared with it in
    [multi_select_value_canonical]. *)
Definition spec_joined_by_comma (letters : list string) : string :=
  match letters with
  | [] => EmptyString
  | first :: rest =>
      foldl (λ acc l, String.append acc (String ","%char l)) first rest
  end.

(** * Properties *)

(** ** Sorting and joining *)

Lemma sort_Sorted (l : list string) : Sorted String.le (Js.sort l).
Proof. apply (Sorted_merge_sort String.le). Qed.

Lemma sort_Permutation (l : list string) : Js.sort l ≡ₚ l.
Proof. apply (merge_sort_Permutation String.le). Qed.

(** Whatever algorithm the engine runs for [sort()], an ascending
    rearrangement of the array is the one computed here. *)
Lemma sort_characterised (l l' : list string) :
  Sorted String.le l' → l' ≡ₚ l → l' = Js.sort l.
Proof.
  intros Hs Hp. apply (Sorted_unique String.le); [done | apply sort_Sorted |].
  by rewrite Hp, sort_Permutation.
Qed.

Lemma sort_order_independent (l1 l2 : list string) :
  l1 ≡ₚ l2 → Js.sort l1 = Js.sort l2.
Proof.
  intros Hp. apply sort_characterised; [apply sort_Sorted |].
  by rewrite sort_Permutation.
Qed.

(** ** Clicks on checkboxes commute *)

Lemma click_checkbox_toggle letter ins :
  Dom.click_choice Dom.Checkbox letter ins = toggle letter <$> ins.
Proof. done. Qed.

Lemma toggle_comm a b i : toggle a (toggle b i) = toggle b (toggle a i).
Proof.
  unfold toggle. destruct i as [v c d]; simpl.
  repeat (case_decide; simpl); destruct d; simpl;
    repeat (case_decide; simpl); try done; congruence.
Qed.

Lemma click_checkbox_comm a b ins :
  Dom.click_choice Dom.Checkbox a (Dom.click_choice Dom.Checkbox b ins) =
  Dom.click_choice Dom.Checkbox b (Dom.click_choice Dom.Checkbox a ins).
Proof.
  rewrite !click_checkbox_toggle, <- !list_fmap_compose.
  apply list_fmap_ext. intros _ i _. apply toggle_comm.
Qed.

Lemma click_choices_order_independent clicks1 clicks2 ins :
  clicks1 ≡ₚ clicks2 →
  Dom.click_choices Dom.Checkbox clicks1 ins =
  Dom.click_choices Dom.Checkbox clicks2 ins.
Proof.
  unfold Dom.click_choices. intros Hp. revert ins.
  induction Hp as [|x l1 l2 _ IH|x y l|l1 l2 l3 _ IH1 _ IH2]; intros ins;
    cbn [foldl].
  - done.
  - apply IH.
  - by rewrite click_checkbox_comm.
  - by rewrite IH1.
Qed.

(** ** What the submit handlers send *)

(** [split] never returns an empty array: a required count is at least 1. *)
Lemma split_comma_length_pos (s : string) :
  (0 < length (Js.split_comma s))%nat.
Proof.
  unfold Js.split_comma. generalize EmptyString.
  induction s as [|c s IH]; intros cur; simpl; [lia |].
  destruct (Ascii.eqb c ","); simpl; [lia | apply IH].
Qed.

Lemma append_empty_inv (s1 s2 : string) :
  String.append s1 s2 = EmptyString → s1 = EmptyString ∧ s2 = EmptyString.
Proof. destruct s1; simpl; [done | discriminate]. Qed.

Lemma join_comma_empty (l : list string) :
  Js.join_comma l = EmptyString → l = [] ∨ l = [EmptyString].
Proof.
  unfold Js.join_comma.
  destruct l as [|x [|y l]]; cbn [String.concat];
    [by left | intros ->; by right |].
  intros H. apply append_empty_inv in H as [_ H]. discriminate.
Qed.

(** A selection that holds at least one choice, none with an empty value,
    has a non-empty normalised value. *)
Lemma normalized_answer_nonempty (ins : list Dom.Input) :
  Dom.checked_values ins ≠ [] →
  EmptyString ∉ Dom.checked_values ins →
  normalized_answer ins ≠ EmptyString.
Proof.
  intros Hne Hin Hj. unfold normalized_answer in Hj.
  apply join_comma_empty in Hj as [Hj|Hj].
  - apply Hne, Permutation_nil_r. by rewrite <- Hj, sort_Permutation.
  - apply Hin. rewrite <- (sort_Permutation (Dom.checked_values ins)), Hj.
    by left.
Qed.

Lemma truthy_nonempty (s : string) :
  s ≠ EmptyString → Js.truthy (Some s) = true.
Proof.
  intros Hs. unfold Js.truthy. destruct (String.eqb_spec s EmptyString); done.
Qed.

Lemma practice_submit_multi_sends (w : Practice.World) (q : Practice.Question) :
  Practice.currentQuestion (Practice.st w) = Some q →
  Practice.multi_answer q = true →
  normalized_answer (Practice.inputs (Practice.page w)) ≠ EmptyString →
  Practice.pending (Practice.submitAnswer w) =
    Practice.pending w ++
      [Practice.CheckAnswer (Practice.id q)
         (normalized_answer (Practice.inputs (Practice.page w)))].
Proof.
  intros Hq Hm Hne. unfold Practice.submitAnswer, Practice.collect_selected.
  rewrite Hq, Hm, (truthy_nonempty _ Hne). done.
Qed.

Lemma quiz_submit_sends (w : Quiz.World) (g : Quiz.ConceptGroup)
  (q : Quiz.Question) (n : nat) :
  Quiz.conceptGroups (Quiz.st w) !! Quiz.currentIndex (Quiz.st w) = Some g →
  Quiz.question g = Some q →
  Quiz.numCorrect q = Some n →
  length (Dom.checked_inputs (Quiz.inputs (Quiz.page w))) ≠ 0%nat →
  (Quiz.isMultiAnswer q = true →
   length (Dom.checked_inputs (Quiz.inputs (Quiz.page w))) = n) →
  Quiz.pending (Quiz.submitAnswer w) =
    Quiz.pending w ++
      [{| Quiz.request :=
            Quiz.Submit (Quiz.sessionId (Quiz.st w)) (Quiz.id q)
              (normalized_answer (Quiz.inputs (Quiz.page w)))
              (Quiz.attemptNumber (Quiz.st w)) (Quiz.group_id g);
          Quiz.capture :=
            Quiz.SubmitCapture (Quiz.group_id g) (Quiz.concept g) |}]
  ∧ Quiz.alerts (Quiz.submitAnswer w) = Quiz.alerts w.
Proof.
  intros Hg Hq Hn Hsel Hcount. unfold Quiz.submitAnswer.
  rewrite Hg, Hq, Hn. case_decide; [done |].
  destruct (Quiz.isMultiAnswer q) eqn:Hm; simpl.
  - rewrite (Hcount eq_refl), Nat.eqb_refl. done.
  - done.
Qed.

Lemma string_app_cons (c : ascii) (s t : string) :
  String.append (String c s) t = String c (String.append s t).
Proof. done. Qed.

Lemma string_app_nil (t : string) : String.append EmptyString t = t.
Proof. done. Qed.

Lemma string_app_assoc (a b c : string) :
  String.append (String.append a b) c = String.append a (String.append b c).
Proof.
  induction a as [|x a IH]; [done |]. by rewrite !string_app_cons, IH.
Qed.

Lemma join_comma_cons2 (x y : string) (r : list string) :
  Js.join_comma (x :: y :: r) =
    String.append x (String ","%char (Js.join_comma (y :: r))).
Proof. done. Qed.

Lemma join_comma_head_append (a b : string) (r : list string) :
  Js.join_comma (String.append a b :: r) =
    String.append a (Js.join_comma (b :: r)).
Proof.
  destruct r as [|y r]; [done |].
  by rewrite !join_comma_cons2, string_app_assoc.
Qed.

(** [join(',')] as the standard recursion over the rest of the array and
    as the accumulation from the left give the same string. *)
Lemma join_comma_from_the_left (l : list string) :
  Js.join_comma l = spec_joined_by_comma l.
Proof.
  destruct l as [|first rest]; [done |]. unfold spec_joined_by_comma.
  revert first. induction rest as [|y r IH]; intros first; [done |].
  cbn [foldl]. rewrite <- IH, join_comma_head_append.
  rewrite join_comma_cons2. f_equal.
  change (String ","%char y) with (String.append (String ","%char EmptyString) y).
  by rewrite join_comma_head_append.
Qed.

(** C8: for a multi-select question the submitted value is the checked
    letters sorted in ascending order and joined by commas: it is the
    string the specification describes, [spec_joined_by_comma], of the
    letters in the one ascending arrangement of the checked values.  Two
    selections of the same letters give the same value: whether the
    letters are collected in a different order ([ins1], [ins2]) or were
    clicked in a different order ([clicks1], [clicks2]); and this value is
    what the check-answer request of either page carries. *)
Theorem multi_select_value_canonical (ins1 ins2 : list Dom.Input) :
  Dom.checked_values ins1 ≡ₚ Dom.checked_values ins2 →
  normalized_answer ins1 = normalized_answer ins2
  ∧ normalized_answer ins1 = Js.join_comma (Js.sort (Dom.checked_values ins1))
  ∧ normalized_answer ins1 =
      spec_joined_by_comma (Js.sort (Dom.checked_values ins1))
  ∧ (∀ sorted : list string,
       Sorted String.le sorted →
       sorted ≡ₚ Dom.checked_values ins1 →
       normalized_answer ins1 = spec_joined_by_comma sorted
       ∧ normalized_answer ins2 = spec_joined_by_comma sorted)
  ∧ Sorted String.le (Js.sort (Dom.checked_values ins1))
  ∧ Js.sort (Dom.checked_values ins1) ≡ₚ Dom.checked_values ins1
  ∧ (∀ clicks1 clicks2 ins,
       clicks1 ≡ₚ clicks2 →
       normalized_answer (Dom.click_choices Dom.Checkbox clicks1 ins) =
       normalized_answer (Dom.click_choices Dom.Checkbox clicks2 ins))
  ∧ (∀ (w : Practice.World) q,
       Practice.currentQuestion (Practice.st w) = Some q →
       Practice.multi_answer q = true →
       Dom.checked_values (Practice.inputs (Practice.page w)) ≠ [] →
       EmptyString ∉ Dom.checked_values (Practice.inputs (Practice.page w)) →
       Practice.pending (Practice.submitAnswer w) =
         Practice.pending w ++
           [Practice.CheckAnswer (Practice.id q)
              (Js.join_comma
                 (Js.sort (Dom.checked_values (Practice.inputs (Practice.page w)))))])
  ∧ (∀ (w : Quiz.World) g q,
       Quiz.conceptGroups (Quiz.st w) !! Quiz.currentIndex (Quiz.st w) = Some g →
       Quiz.question g = Some q →
       Quiz.isMultiAnswer q = true →
       Quiz.numCorrect q =
         Some (length (Dom.checked_inputs (Quiz.inputs (Quiz.page w)))) →
       Quiz.pending (Quiz.submitAnswer w) =
         Quiz.pending w ++
           [{| Quiz.request :=
                 Quiz.Submit (Quiz.sessionId (Quiz.st w)) (Quiz.id q)
                   (Js.join_comma
                      (Js.sort (Dom.checked_values (Quiz.inputs (Quiz.page w)))))
                   (Quiz.attemptNumber (Quiz.st w)) (Quiz.group_id g);
               Quiz.capture :=
                 Quiz.SubmitCapture (Quiz.group_id g) (Quiz.concept g) |}]).
Proof.
  intros Hp. repeat split.
  - unfold normalized_answer. by rewrite (sort_order_independent _ _ Hp).
  - unfold normalized_answer. apply join_comma_from_the_left.
  - unfold normalized_answer. rewrite join_comma_from_the_left.
    f_equal. symmetry. by apply sort_characterised.
  - unfold normalized_answer. rewrite join_comma_from_the_left.
    f_equal. symmetry. apply sort_characterised; [done |].
    by etrans; [| exact Hp].
  - apply sort_Sorted.
  - apply sort_Permutation.
  - intros clicks1 clicks2 ins Hc.
    by rewrite (click_choices_order_independent _ _ _ Hc).
  - intros w q Hq Hm Hne Hin.
    apply (practice_submit_multi_sends w q Hq Hm).
    by apply normalized_answer_nonempty.
  - intros w g q Hg Hq Hm Hn.
    destruct (decide (length (Dom.checked_inputs (Quiz.inputs (Quiz.page w))) = 0%nat))
      as [H0|H0].
    + exfalso. rewrite H0 in Hn. unfold Quiz.numCorrect in Hn. rewrite Hm in Hn.
      destruct (Quiz.correct_answer q) as [s|]; [|done]. simpl in Hn.
      injection Hn as Hn. pose proof (split_comma_length_pos s). lia.
    + by apply (quiz_submit_sends w g q _ Hg Hq Hn H0).
Qed.

(** ** Restart *)

Lemma closePopupIfOpen_catalog (w : Quiz.World) :
  Quiz.dragDropQuestions (Quiz.st (Quiz.closePopupIfOpen w)) =
  Quiz.dragDropQuestions (Quiz.st w).
Proof.
  unfold Quiz.closePopupIfOpen.
  destruct (Quiz.dragDropWindow (Quiz.st w)) as [[[]]|]; done.
Qed.

(** C9: restarting a concept-group session puts the cursor back to the
    start, empties the outcome map, forgets session id, protocol, groups
    and popup handle, sets the attempt number back to 1, and keeps the
    catalogue of drag-and-drop questions that was fetched before. *)
Theorem restartQuiz_resets_session_keeps_catalog (w : Quiz.World) :
  let w' := Quiz.restartQuiz w in
  Quiz.currentIndex (Quiz.st w') = 0%nat
  ∧ Quiz.scores (Quiz.st w') = ∅
  ∧ Quiz.sessionId (Quiz.st w') = None
  ∧ Quiz.protocol (Quiz.st w') = None
  ∧ Quiz.conceptGroups (Quiz.st w') = []
  ∧ Quiz.attemptNumber (Quiz.st w') = 1
  ∧ Quiz.dragDropWindow (Quiz.st w') = None
  ∧ Quiz.dragDropQuestions (Quiz.st w') = Quiz.dragDropQuestions (Quiz.st w).
Proof.
  cbn. repeat split. apply closePopupIfOpen_catalog.
Qed.

(** ** The selection-count gate *)

(** C1, as stated, fails on the linear practice page: on a multi-select
    question whose correct answer is "a,c" (two letters) a submission with
    one checked choice is sent to the check-answer endpoint, and so is one
    with two; the page has no count to compare with. *)
Lemma practice_submit_has_no_count_gate :
  Practice.currentQuestion (Practice.st Examples.practice_one_checked)
    = Some Examples.two_of_three
  ∧ Practice.multi_answer Examples.two_of_three = true
  ∧ length (Js.split_comma "a,c") = 2%nat
  ∧ length (Dom.checked_values
              (Practice.inputs (Practice.page Examples.practice_one_checked)))
    = 1%nat
  ∧ Practice.pending Examples.practice_one_checked = []
  ∧ Practice.pending
      (Practice.step Examples.collation Practice.ClickSubmit
         Examples.practice_one_checked)
    = [Practice.CheckAnswer "q7" "a"]
  ∧ Practice.pending
      (Practice.step Examples.collation Practice.ClickSubmit
         Examples.practice_two_checked)
    = [Practice.CheckAnswer "q7" "a,c"].
Proof. vm_compute. repeat split. Qed.

Lemma quiz_submit_nothing_checked (w : Quiz.World) :
  length (Dom.checked_inputs (Quiz.inputs (Quiz.page w))) = 0%nat →
  Quiz.submitAnswer w = Quiz.alert Quiz.PleaseSelectAnswer w.
Proof. intros H. unfold Quiz.submitAnswer. by rewrite decide_True. Qed.

Lemma numCorrect_multi (q : Quiz.Question) (ca : string) :
  Quiz.isMultiAnswer q = true →
  Quiz.correct_answer q = Some ca →
  Quiz.numCorrect q = Some (length (Js.split_comma ca)).
Proof. intros Hm Hca. unfold Quiz.numCorrect. by rewrite Hm, Hca. Qed.

(** C1, amended: on the concept-group quiz page, for a multi-select
    question whose correct answer is known to the page, a submission with
    nothing checked is rejected with the generic prompt, a non-empty
    submission whose count differs from the number of letters of the correct
    answer is rejected with the count hint, in both cases without a request
    and without any other change; a submission with exactly that count is
    sent with the normalised value.  On the linear practice page every
    non-empty selection of a multi-select question is sent. *)
Theorem quiz_submit_count_gate (w : Quiz.World) (g : Quiz.ConceptGroup)
  (q : Quiz.Question) (ca : string) :
  Quiz.conceptGroups (Quiz.st w) !! Quiz.currentIndex (Quiz.st w) = Some g →
  Quiz.question g = Some q →
  Quiz.isMultiAnswer q = true →
  Quiz.correct_answer q = Some ca →
  let k := length (Dom.checked_inputs (Quiz.inputs (Quiz.page w))) in
  let n := length (Js.split_comma ca) in
  (k = 0%nat → Quiz.submitAnswer w = Quiz.alert Quiz.PleaseSelectAnswer w)
  ∧ (k ≠ 0%nat → k ≠ n →
     Quiz.submitAnswer w = Quiz.alert (Quiz.SelectExactly n) w)
  ∧ (k = n →
     Quiz.pending (Quiz.submitAnswer w) =
       Quiz.pending w ++
         [{| Quiz.request :=
               Quiz.Submit (Quiz.sessionId (Quiz.st w)) (Quiz.id q)
                 (normalized_answer (Quiz.inputs (Quiz.page w)))
                 (Quiz.attemptNumber (Quiz.st w)) (Quiz.group_id g);
             Quiz.capture :=
               Quiz.SubmitCapture (Quiz.group_id g) (Quiz.concept g) |}]
     ∧ Quiz.alerts (Quiz.submitAnswer w) = Quiz.alerts w)
  ∧ (∀ (pw : Practice.World) (pq : Practice.Question),
       Practice.currentQuestion (Practice.st pw) = Some pq →
       Practice.multi_answer pq = true →
       Dom.checked_values (Practice.inputs (Practice.page pw)) ≠ [] →
       EmptyString ∉ Dom.checked_values (Practice.inputs (Practice.page pw)) →
       Practice.pending (Practice.submitAnswer pw) =
         Practice.pending pw ++
           [Practice.CheckAnswer (Practice.id pq)
              (normalized_answer (Practice.inputs (Practice.page pw)))]).
Proof.
  intros Hg Hq Hm Hca k n.
  pose proof (numCorrect_multi q ca Hm Hca) as Hn.
  pose proof (split_comma_length_pos ca) as Hpos.
  split; [apply quiz_submit_nothing_checked |].
  split; [| split].
  - intros Hk Hkn. unfold Quiz.submitAnswer.
    rewrite Hg, Hq, Hn, Hm. rewrite decide_False by done. simpl.
    fold k n. destruct (Nat.eqb_spec k n); done.
  - intros Hkn. apply (quiz_submit_sends w g q n Hg Hq Hn); fold k; [lia | done].
  - intros pw pq Hpq Hpm Hne Hin.
    apply (practice_submit_multi_sends pw pq Hpq Hpm).
    by apply normalized_answer_nonempty.
Qed.

Lemma quiz_submit_count_gate_witness :
  Quiz.submitAnswer Examples.quiz_three_checked =
  Quiz.alert (Quiz.SelectExactly 2) Examples.quiz_three_checked.
Proof.
  refine (proj1 (proj2 (quiz_submit_count_gate Examples.quiz_three_checked
    {| Quiz.group_id := "g2"; Quiz.concept := "pairs";
       Quiz.question := Some Examples.pick_two; Quiz.seen_questions := None |}
    Examples.pick_two "a,c" _ _ _ _)) _ _);
    vm_compute; (reflexivity || discriminate).
Defined.

(** ** Outcome records *)

(** The callback of a multiple-choice submission never touches a record
    that is already in the outcome map. *)
Lemma submitAnswer_then_keeps_outcomes (gid cpt : string) (d : Quiz.SubmitData)
  (w : Quiz.World) (gid' : string) (o : Quiz.Outcome) :
  Quiz.scores (Quiz.st w) !! gid' = Some o →
  Quiz.scores (Quiz.st (Quiz.submitAnswer_then gid cpt d w)) !! gid' = Some o.
Proof.
  intros Ho. unfold Quiz.submitAnswer_then.
  destruct (Js.truthy (Quiz.submit_error d)); [done |].
  destruct (Quiz.correct d); [| done].
  destruct (Quiz.scores (Quiz.st w) !! gid) eqn:Hgid; simpl; [done |].
  destruct (Js.inherited gid); simpl; [done |].
  rewrite lookup_insert_ne; [done | congruence].
Qed.


(** C2: the claim is violated by the drag-and-drop path.  Group g1 is
    resolved correctly on the first attempt and its record is stored; a
    later interactive question of the same group, completed on the second
    try, replaces the record. *)
Theorem drag_drop_completion_replaces_outcome :
  Quiz.scores (Quiz.st Sessions.first_try_correct) !! "g1" =
    Some {| Quiz.firstAttemptCorrect := true; Quiz.attempts := 1;
            Quiz.outcome_concept := "OSPF distance" |}
  ∧ Quiz.scores (Quiz.st Sessions.then_interactive_second_try) !! "g1" =
    Some {| Quiz.firstAttemptCorrect := false; Quiz.attempts := 2;
            Quiz.outcome_concept := "OSPF distance" |}.
Proof. split; vm_compute; reflexivity. Qed.

(** ** Completion messages *)




(** ** Disabled choices *)

(** C4, as stated, fails on the concept-group quiz page: after a wrong
    answer every choice is disabled, and "try again" on the same question
    enables all of them, the wrong one included. *)
Lemma quiz_tryAgain_enables_every_choice :
  Dom.value <$> Quiz.inputs (Quiz.page Sessions.quiz_answered_wrong)
    = ["a"; "b"; "c"]
  ∧ Dom.disabled <$> Quiz.inputs (Quiz.page Sessions.quiz_answered_wrong)
    = [true; true; true]
  ∧ Quiz.try_again_hidden (Quiz.page Sessions.quiz_answered_wrong) = false
  ∧ Dom.disabled <$>
      Quiz.inputs (Quiz.page (Quiz.step Examples.collation Quiz.ClickTryAgain
                                Sessions.quiz_answered_wrong))
    = [false; false; false]
  ∧ Quiz.st (Quiz.step Examples.collation Quiz.ClickTryAgain
               Sessions.quiz_answered_wrong)
    = Quiz.st Sessions.quiz_answered_wrong.
Proof. vm_compute. repeat split. Qed.

(** While a check-answer request is in flight every input is disabled. *)
Lemma practice_submit_disables_inputs (w : Practice.World) :
  Practice.pending (Practice.submitAnswer w) ≠ Practice.pending w →
  Forall (λ i, Dom.disabled i = true)
    (Practice.inputs (Practice.page (Practice.submitAnswer w))).
Proof.
  unfold Practice.submitAnswer.
  destruct (Practice.currentQuestion (Practice.st w)) as [q|]; [| done].
  destruct (Practice.collect_selected q _) as [s|]; [| done].
  destruct (Js.truthy (Some s)); [| done].
  intros _. simpl. apply Forall_fmap, Forall_true. done.
Qed.

Lemma practice_displayQuestion_fresh (lc : string → string → comparison)
  (q : Practice.Question) (w : Practice.World) :
  Forall (λ i, Dom.disabled i = false ∧ Dom.checked i = false)
    (Practice.inputs (Practice.page (Practice.displayQuestion lc q w)))
  ∧ Practice.disabledChoices (Practice.st (Practice.displayQuestion lc q w)) = [].
Proof.
  split; [| done]. simpl. unfold Practice.render.
  rewrite <- list_fmap_compose. apply Forall_fmap, Forall_true. done.
Qed.

(** C4, amended.  On the linear practice page, after a wrong submission
    (whose request had locked every input) and "try again", a choice is
    disabled exactly when the latest check-answer response lists it in
    [disabled_choices], and every choice is unchecked: a choice stays
    disabled over retries as long as the responses keep listing it.
    Displaying a question presents every choice enabled and unchecked and
    empties the list.  On the concept-group quiz page "try again" enables
    every choice. *)
Theorem practice_disabled_choices_follow_response (w : Practice.World)
  (d : Practice.CheckData) :
  Js.truthy (Practice.check_error d) = false →
  Practice.correct d = false →
  Forall (λ i, Dom.disabled i = true) (Practice.inputs (Practice.page w)) →
  let dis := default [] (Practice.disabled_choices d) in
  let w1 := Practice.submitAnswer_then d w in
  let w2 := Practice.tryAgain w1 in
  Practice.disabledChoices (Practice.st w1) = dis
  ∧ (∀ (k : nat) (i : Dom.Input),
       Practice.inputs (Practice.page w) !! k = Some i →
       ∃ i2, Practice.inputs (Practice.page w2) !! k = Some i2
             ∧ Dom.value i2 = Dom.value i
             ∧ Dom.checked i2 = false
             ∧ (Dom.disabled i2 = true ↔ Dom.value i ∈ dis))
  ∧ (∀ (lc : string → string → comparison) (q : Practice.Question)
       (w' : Practice.World),
       Forall (λ i, Dom.disabled i = false ∧ Dom.checked i = false)
         (Practice.inputs (Practice.page (Practice.displayQuestion lc q w')))
       ∧ Practice.disabledChoices
           (Practice.st (Practice.displayQuestion lc q w')) = [])
  ∧ (∀ qw : Quiz.World,
       Forall (λ i, Dom.disabled i = false ∧ Dom.checked i = false)
         (Quiz.inputs (Quiz.page (Quiz.tryAgain qw)))).
Proof.
  intros He Hc Hlocked dis w1 w2.
  assert (Hst : Practice.disabledChoices (Practice.st w1) = dis).
  { unfold w1, Practice.submitAnswer_then. rewrite He, Hc. done. }
  split; [done |]. split; [| split].
  - intros k i Hk.
    assert (Hi : Dom.disabled i = true).
    { rewrite Forall_lookup in Hlocked. by apply (Hlocked k). }
    assert (Hins : Practice.inputs (Practice.page w1) =
                   Practice.applyDisabledChoices dis
                     (Practice.inputs (Practice.page w))).
    { unfold w1, Practice.submitAnswer_then. rewrite He, Hc.
      fold dis. destruct (Practice.can_reveal d); done. }
    unfold w2, Practice.tryAgain. simpl. rewrite Hst, Hins.
    unfold Practice.applyDisabledChoices.
    rewrite <- list_fmap_compose, list_lookup_fmap, Hk. simpl.
    eexists. split; [done |].
    destruct i as [v c b]; simpl in *; subst b.
    destruct (decide (v ∈ dis)) as [Hin|Hin]; simpl.
    + rewrite decide_True by done. simpl. done.
    + rewrite decide_False by done. simpl. split; [done |].
      split; [done |]. split; [done | by intros ?].
  - intros lc q w'. apply practice_displayQuestion_fresh.
  - intros qw. unfold Quiz.tryAgain. simpl. apply Forall_fmap, Forall_true. done.
Qed.

(** ** Counters of the linear practice page *)

Section PracticeCounters.

Variable lc : string → string → comparison.

Lemma counters_displayQuestion q w :
  counters (Practice.displayQuestion lc q w) = counters w.
Proof. done. Qed.

Lemma counters_clickChoice l w : counters (Practice.clickChoice l w) = counters w.
Proof. unfold Practice.clickChoice. by case_decide. Qed.

Lemma counters_submitAnswer w : counters (Practice.submitAnswer w) = counters w.
Proof. unfold Practice.submitAnswer. by repeat case_match. Qed.

Lemma counters_tryAgain w : counters (Practice.tryAgain w) = counters w.
Proof. done. Qed.

Lemma counters_revealAnswer w : counters (Practice.revealAnswer w) = counters w.
Proof. unfold Practice.revealAnswer. by case_match. Qed.

Lemma counters_skipQuestion w : counters (Practice.skipQuestion w) = counters w.
Proof. unfold Practice.skipQuestion. by case_match. Qed.

Lemma counters_nextQuestion w : counters (Practice.nextQuestion w) = counters w.
Proof. done. Qed.

Lemma counters_nextQuestion_then d w :
  counters (Practice.nextQuestion_then lc d w) = counters w.
Proof. unfold Practice.nextQuestion_then. by repeat case_match. Qed.

Lemma counters_startSession_then d w :
  counters (Practice.startSession_then lc d w) = counters w.
Proof. unfold Practice.startSession_then. by repeat case_match. Qed.

(** A check-answer response: only a correct one counts, as correct. *)
Lemma counters_submitAnswer_then d w :
  counters (Practice.submitAnswer_then d w) =
    if negb (Js.truthy (Practice.check_error d)) && Practice.correct d
    then (Practice.correctCount (Practice.st w) + 1,
          Practice.incorrectCount (Practice.st w),
          Practice.skippedCount (Practice.st w))
    else counters w.
Proof.
  unfold Practice.submitAnswer_then.
  destruct (Js.truthy (Practice.check_error d)); [done |].
  destruct (Practice.correct d); simpl; [| by destruct (Practice.can_reveal d)].
  by destruct (Practice.check_correct_answer d).
Qed.

(** A reveal response without an error counts as incorrect. *)
Lemma counters_revealAnswer_then d w :
  counters (Practice.revealAnswer_then d w) =
    if Js.truthy (Practice.explain_error d) then counters w
    else (Practice.correctCount (Practice.st w),
          Practice.incorrectCount (Practice.st w) + 1,
          Practice.skippedCount (Practice.st w)).
Proof.
  unfold Practice.revealAnswer_then.
  destruct (Js.truthy (Practice.explain_error d)); [done |].
  by destruct (Practice.explain_correct_answer d).
Qed.

(** A skip response without an error counts as skipped. *)
Lemma counters_skipQuestion_then d w :
  counters (Practice.skipQuestion_then lc d w) =
    if Js.truthy (Practice.skip_error d) then counters w
    else (Practice.correctCount (Practice.st w),
          Practice.incorrectCount (Practice.st w),
          Practice.skippedCount (Practice.st w) + 1).
Proof.
  unfold Practice.skipQuestion_then.
  destruct (Js.truthy (Practice.skip_error d)); [done |].
  by repeat case_match.
Qed.

(** Only the delivery of a reveal response changes the incorrect counter. *)
Lemma incorrectCount_changes_only_on_reveal (e : Practice.Event)
  (w : Practice.World) :
  Practice.incorrectCount (Practice.st (Practice.step lc e w)) ≠
    Practice.incorrectCount (Practice.st w) →
  ∃ (i : nat) (d : Practice.ExplainData) (qid : string),
    e = Practice.Deliver i (Practice.ExplainOk d)
    ∧ Practice.pending w !! i = Some (Practice.Explain qid)
    ∧ Js.truthy (Practice.explain_error d) = false
    ∧ Practice.incorrectCount (Practice.st (Practice.step lc e w)) =
        Practice.incorrectCount (Practice.st w) + 1.
Proof.
  assert (Hproj : ∀ a : Practice.World,
            Practice.incorrectCount (Practice.st a) = (counters a).1.2) by done.
  unfold Practice.step.
  destruct (Practice.location (Practice.page w)); [| done].
  destruct e as [l| | | | | |i r]; intros Hne.
  - exfalso. apply Hne. by rewrite !Hproj, counters_clickChoice.
  - exfalso. apply Hne. case_match; [| done].
    by rewrite !Hproj, counters_submitAnswer.
  - exfalso. apply Hne. case_match; [| done].
    by rewrite !Hproj, counters_tryAgain.
  - exfalso. apply Hne. case_match; [| done].
    by rewrite !Hproj, counters_revealAnswer.
  - exfalso. apply Hne. case_match; [| done].
    by rewrite !Hproj, counters_nextQuestion.
  - exfalso. apply Hne. case_match; [| done].
    by rewrite !Hproj, counters_skipQuestion.
  - unfold Practice.deliver in *.
    destruct (Practice.pending w !! i) as [req|] eqn:Hreq; [| done].
    set (w0 := {| Practice.st := Practice.st w; Practice.page := Practice.page w;
                  Practice.pending := delete i (Practice.pending w) |}) in *.
    assert (Hw0 : (counters w0).1.2 = Practice.incorrectCount (Practice.st w))
      by done.
    destruct req as [slug|qid sel|qid|qid|], r as [d|d|d|d|d|];
      simpl in Hne |- *; try done.
    + exfalso. apply Hne. by rewrite Hproj, counters_startSession_then.
    + exfalso. apply Hne. rewrite Hproj, counters_submitAnswer_then.
      by case_match.
    + exists i, d, qid. split; [done |]. split; [done |].
      rewrite Hproj, counters_revealAnswer_then in Hne |- *.
      destruct (Js.truthy (Practice.explain_error d)); done.
    + exfalso. apply Hne. rewrite Hproj, counters_skipQuestion_then.
      by case_match.
    + exfalso. apply Hne. by rewrite Hproj, counters_nextQuestion_then.
Qed.

End PracticeCounters.

(** ** Scenario A through the event loop *)

Lemma insert_entry_Permutation (cmp : string → string → comparison)
  (e : string * string) (l : list (string * string)) :
  Dom.insert_entry cmp e l ≡ₚ e :: l.
Proof.
  induction l as [|e' l IH]; simpl; [done |].
  destruct (cmp e.1 e'.1); try done.
  by rewrite IH, perm_swap.
Qed.

Lemma sort_entries_Permutation (cmp : string → string → comparison)
  (l : list (string * string)) :
  Dom.sort_entries cmp l ≡ₚ l.
Proof.
  induction l as [|e l IH]; simpl; [done |].
  by rewrite insert_entry_Permutation, IH.
Qed.

(** On inputs that are all enabled and unchecked, a click on a letter
    leaves exactly the inputs of that letter checked. *)
Lemma click_fresh_checked_values (ty : Dom.InputType) (letter : string)
  (letters : list string) :
  letter ∈ letters →
  Dom.checked_values (Dom.click_choice ty letter (Dom.fresh_input <$> letters))
    = filter (λ v, v = letter) letters.
Proof.
  intros Hin. unfold Dom.checked_values, Dom.checked_inputs.
  destruct ty; simpl.
  - rewrite decide_True.
    + clear Hin. induction letters as [|v vs IH]; [done |].
      rewrite !fmap_cons, filter_cons, (filter_cons _ v vs). simpl.
      destruct (decide (v = letter)) as [->|Hne].
      * rewrite bool_decide_eq_true_2 by done. rewrite decide_True by done.
        rewrite fmap_cons. simpl. by rewrite IH.
      * rewrite bool_decide_eq_false_2 by done. rewrite decide_False by done.
        done.
    + rewrite Exists_exists. exists (Dom.fresh_input letter).
      split; [| done]. by apply list_elem_of_fmap_2.
  - clear Hin. induction letters as [|v vs IH]; [done |].
    rewrite !fmap_cons, filter_cons, (filter_cons _ v vs). simpl.
    destruct (decide (v = letter)) as [->|Hne].
    + rewrite decide_True by done. rewrite fmap_cons. simpl. by rewrite IH.
    + rewrite decide_False by done. done.
Qed.

Lemma fresh_nothing_checked (letters : list string) :
  Dom.checked_values (Dom.fresh_input <$> letters) = [].
Proof.
  unfold Dom.checked_values, Dom.checked_inputs.
  induction letters as [|v vs IH]; [done |].
  rewrite fmap_cons, filter_cons. simpl. done.
Qed.

Section EventLoop.

Variable lc : string → string → comparison.


Lemma presented_displayQuestion q w :
  Practice.location (Practice.page w) = Practice.PracticePage →
  Practice.pending w = [] →
  presented lc q (Practice.displayQuestion lc q w).
Proof. intros Hl Hp. unfold presented. simpl. by rewrite Hl, Hp. Qed.

Lemma render_fresh q :
  Dom.set_disabled false <$> Practice.render lc q =
  Dom.fresh_input <$> (Dom.sort_entries lc (Practice.choices q)).*1.
Proof.
  unfold Practice.render. rewrite <- !list_fmap_compose.
  by apply list_fmap_ext.
Qed.

Lemma choice_rendered q l :
  l ∈ (Practice.choices q).*1 →
  l ∈ (Dom.sort_entries lc (Practice.choices q)).*1.
Proof. intros H. by rewrite sort_entries_Permutation. Qed.

(** The student picks a choice of the displayed question and submits:
    one check-answer request for this question is in flight. *)
Lemma pick_and_submit q w l :
  presented lc q w →
  l ∈ (Practice.choices q).*1 →
  l ≠ EmptyString →
  let w' := Practice.run lc [Practice.ClickChoice l; Practice.ClickSubmit] w in
  (∃ v, Practice.pending w' = [Practice.CheckAnswer (Practice.id q) v])
  ∧ Practice.location (Practice.page w') = Practice.PracticePage
  ∧ Practice.st w' = Practice.st w.
Proof.
  intros (Hloc & Hpend & Hq & Hsub & _ & Hins & Hty) Hl Hne.
  apply choice_rendered in Hl.
  set (letters := (Dom.sort_entries lc (Practice.choices q)).*1) in *.
  rewrite render_fresh in Hins. fold letters in Hins.
  set (ty := if Practice.multi_answer q then Dom.Checkbox else Dom.Radio) in *.
  pose proof (click_fresh_checked_values ty l letters Hl) as Hcv.
  assert (Hfil : filter (λ v, v = l) letters ≠ []).
  { intros Hnil. assert (l ∈ filter (λ v, v = l) letters) as Hin
      by by apply list_elem_of_filter.
    rewrite Hnil in Hin. by apply not_elem_of_nil in Hin. }
  assert (Hall : ∀ v, v ∈ filter (λ v, v = l) letters → v = l).
  { intros v Hv. by apply list_elem_of_filter in Hv as [-> _]. }
  set (ins' := Dom.click_choice ty l (Dom.fresh_input <$> letters)) in *.
  assert (Hchg : ins' ≠ Dom.fresh_input <$> letters).
  { intros Heq. rewrite Heq, fresh_nothing_checked in Hcv.
    exact (Hfil (eq_sym Hcv)). }
  assert (Hsel : ∃ v, Practice.collect_selected q ins' = Some v ∧ v ≠ EmptyString).
  { unfold Practice.collect_selected.
    destruct (Practice.multi_answer q).
    - eexists. split; [done |]. apply normalized_answer_nonempty.
      + by rewrite Hcv.
      + rewrite Hcv. intros Hin. apply Hall in Hin. by subst l.
    - assert (Hhd : Dom.value <$> head (Dom.checked_inputs ins') =
                    head (Dom.checked_values ins')).
      { unfold Dom.checked_values. by destruct (Dom.checked_inputs ins'). }
      rewrite Hhd, Hcv.
      destruct (filter (λ v, v = l) letters) as [|v vs] eqn:Hf; [done |].
      exists v. split; [done |].
      rewrite (Hall v) by (by left). done. }
  destruct Hsel as (v & Hv & Hvne).
  set (w1 := Practice.step lc (Practice.ClickChoice l) w).
  assert (Hw1 : w1 = Practice.set_page
                       (λ p, Practice.with_submit (Practice.submit_hidden p) false
                               (Practice.with_inputs (λ _, ins') p)) w).
  { unfold w1, Practice.step. rewrite Hloc. unfold Practice.clickChoice.
    rewrite Hty, Hins. fold ins'. by rewrite decide_False. }
  assert (Hstep : Practice.step lc Practice.ClickSubmit w1 =
                  Practice.submitAnswer w1).
  { unfold Practice.step. rewrite Hw1. simpl. by rewrite Hloc, Hsub. }
  unfold Practice.run. cbn [foldl]. fold w1. rewrite Hstep.
  unfold Practice.submitAnswer.
  assert (Hq1 : Practice.currentQuestion (Practice.st w1) = Some q)
    by by rewrite Hw1.
  assert (Hi1 : Practice.inputs (Practice.page w1) = ins') by by rewrite Hw1.
  rewrite Hq1, Hi1, Hv, (truthy_nonempty v Hvne). simpl.
  rewrite Hw1. simpl. rewrite Hpend, Hloc. split; [by exists v |]. done.
Qed.

Lemma run_app es1 es2 w :
  Practice.run lc (es1 ++ es2) w = Practice.run lc es2 (Practice.run lc es1 w).
Proof. unfold Practice.run. apply foldl_app. Qed.

(** With one request in flight, its response runs the callbacks on a page
    with nothing in flight. *)
Lemma deliver_the_only_request w req r k :
  Practice.location (Practice.page w) = Practice.PracticePage →
  Practice.pending w = [req] →
  Practice.callbacks lc req r = Some k →
  Practice.step lc (Practice.Deliver 0 r) w =
    k {| Practice.st := Practice.st w; Practice.page := Practice.page w;
         Practice.pending := [] |}.
Proof.
  intros Hloc Hpend Hk. unfold Practice.step, Practice.deliver.
  by rewrite Hloc, Hpend; simpl; rewrite Hk.
Qed.


Lemma phase_start slug total d q :
  Js.truthy (Practice.start_error d) = false →
  Practice.first_question d = Some q →
  let w' := Practice.run lc [Practice.Deliver 0 (Practice.StartOk d)]
              (Practice.initPracticePage slug total) in
  presented lc q w' ∧ counters w' = (0, 0, 0).
Proof.
  intros He Hq w'. unfold w', Practice.run. cbn [foldl].
  rewrite (deliver_the_only_request _ (Practice.StartSession (Some slug)) _
             (Practice.startSession_then lc d)); [| done..].
  unfold Practice.startSession_then. rewrite He, Hq.
  split; [by apply presented_displayQuestion | done].
Qed.

Lemma phase_correct q w l d :
  presented lc q w →
  l ∈ (Practice.choices q).*1 →
  l ≠ EmptyString →
  Js.truthy (Practice.check_error d) = false →
  Practice.correct d = true →
  is_Some (Practice.check_correct_answer d) →
  let w' := Practice.run lc
              [Practice.ClickChoice l; Practice.ClickSubmit;
               Practice.Deliver 0 (Practice.CheckAnswerOk d)] w in
  resolved w'
  ∧ counters w' = (Practice.correctCount (Practice.st w) + 1,
                   Practice.incorrectCount (Practice.st w),
                   Practice.skippedCount (Practice.st w)).
Proof.
  intros Hp Hl Hne He Hc [ca Hca] w'.
  destruct (pick_and_submit q w l Hp Hl Hne) as ([v Hpend] & Hloc & Hst).
  unfold w'.
  change [Practice.ClickChoice l; Practice.ClickSubmit;
          Practice.Deliver 0 (Practice.CheckAnswerOk d)]
    with ([Practice.ClickChoice l; Practice.ClickSubmit] ++
          [Practice.Deliver 0 (Practice.CheckAnswerOk d)]).
  rewrite run_app.
  set (w2 := Practice.run lc [Practice.ClickChoice l; Practice.ClickSubmit] w) in *.
  clearbody w2. unfold Practice.run. cbn [foldl].
  rewrite (deliver_the_only_request w2 _ (Practice.CheckAnswerOk d)
             (Practice.submitAnswer_then d) Hloc Hpend eq_refl).
  unfold resolved, counters, Practice.submitAnswer_then. rewrite He, Hc, Hca.
  simpl. by rewrite Hloc, Hst.
Qed.

Lemma phase_next w d q :
  resolved w →
  Js.truthy (Practice.next_error d) = false →
  Practice.next_done d = false →
  Practice.question d = Some q →
  let w' := Practice.run lc
              [Practice.ClickNext; Practice.Deliver 0 (Practice.NextOk d)] w in
  presented lc q w' ∧ counters w' = counters w.
Proof.
  intros (Hloc & Hpend & Hnext) He Hd Hq w'. unfold w', Practice.run.
  cbn [foldl].
  assert (H1 : Practice.step lc Practice.ClickNext w = Practice.nextQuestion w)
    by (unfold Practice.step; by rewrite Hloc, Hnext).
  rewrite H1.
  rewrite (deliver_the_only_request (Practice.nextQuestion w) Practice.Next
             (Practice.NextOk d) (Practice.nextQuestion_then lc d));
    [| done | by simpl; rewrite Hpend | done].
  unfold Practice.nextQuestion_then. rewrite He, Hd, Hq.
  split; [by apply presented_displayQuestion | done].
Qed.

Lemma phase_skip q w d q' :
  presented lc q w →
  Js.truthy (Practice.skip_error d) = false →
  Practice.skip_done d = false →
  Practice.next_question d = Some q' →
  let w' := Practice.run lc
              [Practice.ClickSkip; Practice.Deliver 0 (Practice.SkipOk d)] w in
  presented lc q' w'
  ∧ counters w' = (Practice.correctCount (Practice.st w),
                   Practice.incorrectCount (Practice.st w),
                   Practice.skippedCount (Practice.st w) + 1).
Proof.
  intros (Hloc & Hpend & Hcur & _ & Hskip & _) He Hd Hq w'.
  unfold w', Practice.run. cbn [foldl].
  assert (H1 : Practice.step lc Practice.ClickSkip w =
               Practice.send (Practice.Skip (Practice.id q)) w).
  { unfold Practice.step, Practice.skipQuestion. by rewrite Hloc, Hskip, Hcur. }
  rewrite H1.
  rewrite (deliver_the_only_request _ (Practice.Skip (Practice.id q))
             (Practice.SkipOk d) (Practice.skipQuestion_then lc d));
    [| done | by simpl; rewrite Hpend | done].
  unfold Practice.skipQuestion_then. rewrite He, Hd, Hq.
  split; [by apply presented_displayQuestion | done].
Qed.

(** *** Repeated wrong answers to one question *)

Lemma presented_open q w : presented lc q w → open_for_answer lc q [] w.
Proof.
  intros (Hloc & Hpend & Hq & Hsub & _ & Hins & Hty).
  repeat split; try done.
  rewrite Hins. unfold Practice.render, unchecked_inputs.
  rewrite <- !list_fmap_compose. by apply list_fmap_ext.
Qed.

Lemma unchecked_nothing_checked (dis letters : list string) :
  Dom.checked_values (unchecked_inputs dis letters) = [].
Proof.
  unfold Dom.checked_values, Dom.checked_inputs, unchecked_inputs.
  induction letters as [|v vs IH]; [done |].
  rewrite fmap_cons, filter_cons. simpl. done.
Qed.

(** A click on a choice that is not disabled leaves exactly the inputs of
    that letter checked, when nothing was checked before. *)
Lemma click_open_checked_values (ty : Dom.InputType) (l : string)
  (dis letters : list string) :
  l ∈ letters →
  l ∉ dis →
  Dom.checked_values (Dom.click_choice ty l (unchecked_inputs dis letters))
    = filter (λ v, v = l) letters.
Proof.
  intros Hin Hdis. unfold Dom.checked_values, Dom.checked_inputs.
  assert (Hopen : bool_decide (l ∈ dis) = false)
    by by apply bool_decide_eq_false_2.
  destruct ty; simpl.
  - rewrite decide_True.
    + clear Hin. unfold unchecked_inputs.
      induction letters as [|v vs IH]; [done |].
      rewrite !fmap_cons, filter_cons, (filter_cons _ v vs). simpl.
      destruct (decide (v = l)) as [->|Hne].
      * rewrite (bool_decide_eq_true_2 (l = l)) by done.
        rewrite decide_True by done. rewrite fmap_cons. simpl. by rewrite IH.
      * rewrite (bool_decide_eq_false_2 (v = l)) by done.
        rewrite decide_False by done. done.
    + rewrite Exists_exists.
      exists {| Dom.value := l; Dom.checked := false;
                Dom.disabled := bool_decide (l ∈ dis) |}.
      split; [| done]. unfold unchecked_inputs.
      apply list_elem_of_fmap. by exists l.
  - clear Hin. unfold unchecked_inputs.
    induction letters as [|v vs IH]; [done |].
    rewrite !fmap_cons, filter_cons, (filter_cons _ v vs). simpl.
    destruct (decide (v = l)) as [->|Hne].
    + rewrite Hopen. simpl. f_equal. exact IH.
    + simpl. exact IH.
Qed.

Lemma value_click_choice (ty : Dom.InputType) (l : string)
  (ins : list Dom.Input) :
  Dom.value <$> Dom.click_choice ty l ins = Dom.value <$> ins.
Proof.
  destruct ty; simpl.
  - case_decide; [| done]. rewrite <- list_fmap_compose.
    by apply list_fmap_ext.
  - rewrite <- list_fmap_compose. apply list_fmap_ext.
    intros k i _. simpl. by repeat case_match.
Qed.

Lemma value_applyDisabledChoices (dis : list string) (ins : list Dom.Input) :
  Dom.value <$> Practice.applyDisabledChoices dis ins = Dom.value <$> ins.
Proof.
  unfold Practice.applyDisabledChoices. rewrite <- list_fmap_compose.
  apply list_fmap_ext. intros k i _. simpl. by case_decide.
Qed.

Lemma locked_applyDisabledChoices (dis : list string) (ins : list Dom.Input) :
  Forall (λ i, Dom.disabled i = true) ins →
  Forall (λ i, Dom.disabled i = true) (Practice.applyDisabledChoices dis ins).
Proof.
  intros H. unfold Practice.applyDisabledChoices. apply Forall_fmap.
  eapply Forall_impl; [exact H |]. intros i Hi. simpl. by case_decide.
Qed.

(** "Try again" on inputs that are all disabled: nothing is checked and
    exactly the listed letters stay disabled. *)
Lemma tryAgain_inputs (dis : list string) (ins : list Dom.Input) :
  Forall (λ i, Dom.disabled i = true) ins →
  (λ i, Dom.set_checked false
          (if decide (Dom.value i ∈ dis) then i else Dom.set_disabled false i))
    <$> ins
  = unchecked_inputs dis (Dom.value <$> ins).
Proof.
  intros H. unfold unchecked_inputs. rewrite <- list_fmap_compose.
  apply Forall_fmap_ext. eapply Forall_impl; [exact H |].
  intros [v c d] Hd. simpl in *. subst d. case_decide.
  - by rewrite bool_decide_eq_true_2.
  - by rewrite bool_decide_eq_false_2.
Qed.

(** One wrong attempt: the student picks an enabled choice of the question
    and submits, and the response reports a wrong answer. *)
Lemma phase_wrong q dis w l d :
  open_for_answer lc q dis w →
  l ∈ (Practice.choices q).*1 →
  l ≠ EmptyString →
  l ∉ dis →
  Js.truthy (Practice.check_error d) = false →
  Practice.correct d = false →
  let w' := Practice.run lc (attempt_events (l, d)) w in
  wrong_answer_shown lc q d w' ∧ counters w' = counters w.
Proof.
  intros (Hloc & Hpend & Hq & Hsub & Hins & Hty) Hl Hne Hdis He Hc w'.
  apply choice_rendered in Hl.
  set (letters := (Dom.sort_entries lc (Practice.choices q)).*1) in *.
  set (ty := if Practice.multi_answer q then Dom.Checkbox else Dom.Radio) in *.
  pose proof (click_open_checked_values ty l dis letters Hl Hdis) as Hcv.
  assert (Hfil : filter (λ v, v = l) letters ≠ []).
  { intros Hnil. assert (l ∈ filter (λ v, v = l) letters) as Hin
      by by apply list_elem_of_filter.
    rewrite Hnil in Hin. by apply not_elem_of_nil in Hin. }
  assert (Hall : ∀ v, v ∈ filter (λ v, v = l) letters → v = l).
  { intros v Hv. by apply list_elem_of_filter in Hv as [-> _]. }
  set (ins' := Dom.click_choice ty l (unchecked_inputs dis letters)) in *.
  assert (Hchg : ins' ≠ unchecked_inputs dis letters).
  { intros Heq. rewrite Heq, unchecked_nothing_checked in Hcv.
    exact (Hfil (eq_sym Hcv)). }
  assert (Hval : Dom.value <$> ins' = letters).
  { unfold ins'. rewrite value_click_choice. unfold unchecked_inputs.
    rewrite <- list_fmap_compose. apply list_fmap_id. }
  assert (Hsel : ∃ v, Practice.collect_selected q ins' = Some v ∧ v ≠ EmptyString).
  { unfold Practice.collect_selected.
    destruct (Practice.multi_answer q).
    - eexists. split; [done |]. apply normalized_answer_nonempty.
      + by rewrite Hcv.
      + rewrite Hcv. intros Hin. apply Hall in Hin. by subst l.
    - assert (Hhd : Dom.value <$> head (Dom.checked_inputs ins') =
                    head (Dom.checked_values ins')).
      { unfold Dom.checked_values. by destruct (Dom.checked_inputs ins'). }
      rewrite Hhd, Hcv.
      destruct (filter (λ v, v = l) letters) as [|v vs] eqn:Hf; [done |].
      exists v. split; [done |].
      rewrite (Hall v) by (by left). done. }
  destruct Hsel as (v & Hv & Hvne).
  set (w1 := Practice.step lc (Practice.ClickChoice l) w).
  assert (Hw1 : w1 = Practice.set_page
                       (λ p, Practice.with_submit (Practice.submit_hidden p) false
                               (Practice.with_inputs (λ _, ins') p)) w).
  { unfold w1, Practice.step. rewrite Hloc. unfold Practice.clickChoice.
    rewrite Hty, Hins. fold ins'. by rewrite decide_False. }
  assert (Hstep : Practice.step lc Practice.ClickSubmit w1 =
                  Practice.submitAnswer w1).
  { unfold Practice.step. rewrite Hw1. simpl. by rewrite Hloc, Hsub. }
  assert (Hq1 : Practice.currentQuestion (Practice.st w1) = Some q)
    by by rewrite Hw1.
  assert (Hi1 : Practice.inputs (Practice.page w1) = ins') by by rewrite Hw1.
  set (w2 := Practice.submitAnswer w1).
  assert (Hw2 : Practice.location (Practice.page w2) = Practice.PracticePage
                ∧ Practice.pending w2 = [Practice.CheckAnswer (Practice.id q) v]
                ∧ Practice.st w2 = Practice.st w
                ∧ Practice.inputs (Practice.page w2) =
                    Dom.set_disabled true <$> ins'
                ∧ Practice.input_type (Practice.page w2) = ty
                ∧ Practice.reveal_hidden (Practice.page w2) = true).
  { unfold w2, Practice.submitAnswer.
    rewrite Hq1, Hi1, Hv, (truthy_nonempty v Hvne). simpl.
    rewrite Hw1. simpl. by rewrite Hpend, Hloc, Hty. }
  destruct Hw2 as (Hloc2 & Hpend2 & Hst2 & Hins2 & Hty2 & Hrev2).
  unfold w', attempt_events, Practice.run. cbn [foldl fst snd].
  fold w1. rewrite Hstep. fold w2. clearbody w2.
  rewrite (deliver_the_only_request w2 _ (Practice.CheckAnswerOk d)
             (Practice.submitAnswer_then d) Hloc2 Hpend2 eq_refl).
  unfold wrong_answer_shown, counters, Practice.submitAnswer_then.
  rewrite He, Hc. fold letters.
  destruct (Practice.can_reveal d); simpl;
    rewrite ?Hloc2, ?Hst2, ?Hq, ?Hins2, ?Hty2, ?Hrev2, ?value_applyDisabledChoices;
    rewrite <- ?list_fmap_compose, ?Hval;
    (split; [| done]);
    repeat split; try done;
    try (apply locked_applyDisabledChoices, Forall_fmap, Forall_true; done).
Qed.

(** After a wrong answer, "try again" opens the question again with the
    choices the response listed disabled. *)
Lemma phase_try_again q d w :
  wrong_answer_shown lc q d w →
  let w' := Practice.step lc Practice.ClickTryAgain w in
  open_for_answer lc q (default [] (Practice.disabled_choices d)) w'
  ∧ counters w' = counters w.
Proof.
  intros (Hloc & Hpend & Hq & Htry & _ & Hdis & Hlock & Hval & Hty) w'.
  assert (Hw' : w' = Practice.tryAgain w).
  { unfold w', Practice.step. by rewrite Hloc, Htry. }
  rewrite Hw'. split; [| apply counters_tryAgain].
  unfold open_for_answer, Practice.tryAgain. simpl.
  rewrite Hloc, Hpend, Hq, Hty, Hdis, (tryAgain_inputs _ _ Hlock), Hval. done.
Qed.

Lemma attempts_events_cons a b more :
  attempts_events a (b :: more) =
    attempt_events a ++ [Practice.ClickTryAgain] ++ attempts_events b more.
Proof. unfold attempts_events. by rewrite bind_cons. Qed.

(** Wrong attempts, however many, leave the counters as they are, and end
    with the response to the last one on display. *)
Lemma phase_wrong_attempts q more : ∀ dis a w,
  open_for_answer lc q dis w →
  wrong_until_reveal q dis a more →
  let w' := Practice.run lc (attempts_events a more) w in
  (∃ d, wrong_answer_shown lc q d w' ∧ Practice.can_reveal d = true)
  ∧ counters w' = counters w.
Proof.
  induction more as [|b more IH]; intros dis [l d] w Ho Hw w'; unfold w'; clear w'.
  - destruct Hw as (Hl & Hne & Hdis & He & Hc & Hrev). cbn [fst snd] in *.
    assert (Hone : attempts_events (l, d) [] = attempt_events (l, d))
      by (unfold attempts_events; apply app_nil_r).
    rewrite Hone.
    destruct (phase_wrong q dis w l d Ho Hl Hne Hdis He Hc) as [Hs Hcnt].
    split; [by exists d | done].
  - destruct Hw as (Hl & Hne & Hdis & He & Hc & Hrest). cbn [fst snd] in *.
    rewrite attempts_events_cons, !run_app.
    destruct (phase_wrong q dis w l d Ho Hl Hne Hdis He Hc) as [Hs Hcnt].
    set (w1 := Practice.run lc (attempt_events (l, d)) w) in *. clearbody w1.
    destruct (phase_try_again q d w1 Hs) as [Ho2 Hcnt2].
    change (Practice.run lc [Practice.ClickTryAgain] w1)
      with (Practice.step lc Practice.ClickTryAgain w1).
    set (w2 := Practice.step lc Practice.ClickTryAgain w1) in *. clearbody w2.
    destruct (IH _ b w2 Ho2 Hrest) as [Hex Hcnt3].
    split; [done | congruence].
Qed.

(** With the reveal on offer, revealing the answer adds one to the
    incorrect counter. *)
Lemma phase_reveal q d w dR :
  wrong_answer_shown lc q d w →
  Practice.can_reveal d = true →
  Js.truthy (Practice.explain_error dR) = false →
  counters (Practice.run lc
              [Practice.ClickReveal; Practice.Deliver 0 (Practice.ExplainOk dR)]
              w)
  = (Practice.correctCount (Practice.st w),
     Practice.incorrectCount (Practice.st w) + 1,
     Practice.skippedCount (Practice.st w)).
Proof.
  intros (Hloc & Hpend & Hq & _ & Hrev & _) Hcan HeR.
  rewrite Hcan in Hrev. simpl in Hrev.
  unfold Practice.run. cbn [foldl].
  assert (H4 : Practice.step lc Practice.ClickReveal w =
               Practice.revealAnswer w)
    by (unfold Practice.step; by rewrite Hloc, Hrev).
  rewrite H4.
  assert (H5 : Practice.location (Practice.page (Practice.revealAnswer w)) =
                 Practice.PracticePage
               ∧ Practice.pending (Practice.revealAnswer w) =
                 [Practice.Explain (Practice.id q)]).
  { unfold Practice.revealAnswer. rewrite Hq. simpl. by rewrite Hpend. }
  destruct H5 as [Hloc5 Hpend5].
  rewrite (deliver_the_only_request _ (Practice.Explain (Practice.id q))
             (Practice.ExplainOk dR) (Practice.revealAnswer_then dR)
             Hloc5 Hpend5 eq_refl).
  rewrite counters_revealAnswer_then, HeR. simpl.
  pose proof (counters_revealAnswer w) as Hcr.
  unfold counters in Hcr. by injection Hcr as -> -> ->.
Qed.

End EventLoop.

(** C5: a linear session in which the first question is answered correctly
    on the first try, the second is skipped and the third is answered wrong
    and then revealed ends with the counters correct = 1, incorrect = 1 and
    skipped = 1.  The third question may be answered wrong once or several
    times, with "try again" in between, until a response offers the reveal;
    after all the wrong answers the counters are still correct = 1,
    incorrect = 0, skipped = 1, so the one in the incorrect counter is
    added by the reveal.  The session is the sequence of clicks and
    responses from the opening of the page; the hypotheses say that the
    responses are the ones of the scenario and that the student clicks
    choices of the questions shown that are not disabled. *)
Theorem scenario_A_counters (lc : string → string → comparison)
  (slug : string) (total : Z) (q1 q2 q3 : Practice.Question) (l1 : string)
  (d0 : Practice.StartData) (dC : Practice.CheckData) (dN : Practice.NextData)
  (dS : Practice.SkipData) (a3 : string * Practice.CheckData)
  (more3 : list (string * Practice.CheckData)) (dR : Practice.ExplainData) :
  Js.truthy (Practice.start_error d0) = false →
  Practice.first_question d0 = Some q1 →
  l1 ∈ (Practice.choices q1).*1 → l1 ≠ EmptyString →
  Js.truthy (Practice.check_error dC) = false →
  Practice.correct dC = true →
  is_Some (Practice.check_correct_answer dC) →
  Js.truthy (Practice.next_error dN) = false →
  Practice.next_done dN = false →
  Practice.question dN = Some q2 →
  Js.truthy (Practice.skip_error dS) = false →
  Practice.skip_done dS = false →
  Practice.next_question dS = Some q3 →
  wrong_until_reveal q3 [] a3 more3 →
  Js.truthy (Practice.explain_error dR) = false →
  counters (Practice.run lc (scenario_A_answers l1 d0 dC dN dS a3 more3)
              (Practice.initPracticePage slug total)) = (1, 0, 1)
  ∧ counters (Practice.run lc (scenario_A_events l1 d0 dC dN dS a3 more3 dR)
                (Practice.initPracticePage slug total)) = (1, 1, 1).
Proof.
  intros He0 Hq1 Hl1 Hn1 HeC HC HcaC HeN HdN Hq2 HeS HdS Hq3 Hwrong HeR.
  unfold scenario_A_events.
  assert (Hsplit : scenario_A_answers l1 d0 dC dN dS a3 more3 =
            [Practice.Deliver 0 (Practice.StartOk d0)] ++
            [Practice.ClickChoice l1; Practice.ClickSubmit;
             Practice.Deliver 0 (Practice.CheckAnswerOk dC)] ++
            [Practice.ClickNext; Practice.Deliver 0 (Practice.NextOk dN)] ++
            [Practice.ClickSkip; Practice.Deliver 0 (Practice.SkipOk dS)] ++
            attempts_events a3 more3) by done.
  rewrite Hsplit, !run_app.
  destruct (phase_start lc slug total d0 q1 He0 Hq1) as [Hp1 Hc1].
  set (w1 := Practice.run lc [Practice.Deliver 0 (Practice.StartOk d0)] _) in *.
  clearbody w1.
  destruct (phase_correct lc q1 w1 l1 dC Hp1 Hl1 Hn1 HeC HC HcaC) as [Hr2 Hc2].
  set (w2 := Practice.run lc [Practice.ClickChoice l1; _; _] w1) in *.
  clearbody w2.
  destruct (phase_next lc w2 dN q2 Hr2 HeN HdN Hq2) as [Hp3 Hc3].
  set (w3 := Practice.run lc [Practice.ClickNext; _] w2) in *. clearbody w3.
  destruct (phase_skip lc q2 w3 dS q3 Hp3 HeS HdS Hq3) as [Hp4 Hc4].
  set (w4 := Practice.run lc [Practice.ClickSkip; _] w3) in *. clearbody w4.
  destruct (phase_wrong_attempts lc q3 more3 [] a3 w4
              (presented_open lc q3 w4 Hp4) Hwrong) as [(d & Hs5 & Hcan) Hc5].
  set (w5 := Practice.run lc (attempts_events a3 more3) w4) in *. clearbody w5.
  rewrite (phase_reveal lc q3 d w5 dR Hs5 Hcan HeR).
  unfold counters in *.
  injection Hc1 as Ha1 Hb1 Hd1. rewrite Ha1, Hb1, Hd1 in Hc2.
  injection Hc2 as Ha2 Hb2 Hd2. injection Hc3 as Ha3 Hb3 Hd3.
  rewrite Ha3, Hb3, Hd3, Ha2, Hb2, Hd2 in Hc4.
  injection Hc4 as Ha4 Hb4 Hd4. rewrite Ha4, Hb4, Hd4 in Hc5.
  injection Hc5 as -> -> ->. done.
Qed.

Lemma scenario_A_counters_witness :
  counters (Practice.run Examples.collation Scenario.events_A Scenario.opened)
    = (1, 1, 1).
Proof.
  apply (scenario_A_counters Examples.collation "ospf" 3
           Scenario.Q1 Scenario.Q2 Scenario.Q3 "a" Scenario.started
           Scenario.right_answer (Scenario.next_is Scenario.Q2)
           (Scenario.skipped_to Scenario.Q3)
           ("b", Scenario.first_wrong) [("c", Scenario.second_wrong)]
           Scenario.revealed);
    try (vm_compute; reflexivity); try discriminate.
  - vm_compute. by left.
  - by eexists.
  - cbn [wrong_until_reveal fst snd]. repeat split; try done.
    + vm_compute. right. by left.
    + apply not_elem_of_nil.
    + vm_compute. right. right. by left.
    + apply not_elem_of_cons. split; [discriminate | apply not_elem_of_nil].
Defined.


(** C10: on the linear practice page the response to a wrong answer leaves
    the correct, incorrect and skipped counters as they are; an event
    changes the incorrect counter only if it is the delivery of a reveal
    response that carries no error, and then by one; a question answered
    wrong and then skipped adds one to the skipped counter and nothing
    else. *)
Theorem wrong_answer_is_not_counted (lc : string → string → comparison)
  (d : Practice.CheckData) (w : Practice.World) :
  Practice.correct d = false →
  counters (Practice.submitAnswer_then d w) = counters w
  ∧ (∀ (e : Practice.Event) (w' : Practice.World),
       Practice.incorrectCount (Practice.st (Practice.step lc e w')) ≠
         Practice.incorrectCount (Practice.st w') →
       ∃ (i : nat) (dR : Practice.ExplainData) (qid : string),
         e = Practice.Deliver i (Practice.ExplainOk dR)
         ∧ Practice.pending w' !! i = Some (Practice.Explain qid)
         ∧ Js.truthy (Practice.explain_error dR) = false
         ∧ Practice.incorrectCount (Practice.st (Practice.step lc e w')) =
             Practice.incorrectCount (Practice.st w') + 1)
  ∧ (∀ (dR : Practice.ExplainData),
       Js.truthy (Practice.explain_error dR) = false →
       counters (Practice.revealAnswer_then dR
                   (Practice.revealAnswer (Practice.submitAnswer_then d w))) =
         (Practice.correctCount (Practice.st w),
          Practice.incorrectCount (Practice.st w) + 1,
          Practice.skippedCount (Practice.st w)))
  ∧ (∀ (dS : Practice.SkipData),
       Js.truthy (Practice.skip_error dS) = false →
       counters (Practice.skipQuestion_then lc dS
                   (Practice.skipQuestion
                      (Practice.tryAgain (Practice.submitAnswer_then d w)))) =
         (Practice.correctCount (Practice.st w),
          Practice.incorrectCount (Practice.st w),
          Practice.skippedCount (Practice.st w) + 1)).
Proof.
  intros Hd.
  assert (Hsame : counters (Practice.submitAnswer_then d w) = counters w).
  { rewrite counters_submitAnswer_then, Hd. by rewrite andb_false_r. }
  split; [done |]. split; [| split].
  - intros e w'. apply incorrectCount_changes_only_on_reveal.
  - intros dR HeR.
    rewrite counters_revealAnswer_then, HeR.
    set (w1 := Practice.revealAnswer _).
    assert (H1 : counters w1 = counters w)
      by (unfold w1; by rewrite counters_revealAnswer).
    unfold counters in H1. by injection H1 as -> -> ->.
  - intros dS HeS.
    rewrite (counters_skipQuestion_then lc), HeS.
    set (w1 := Practice.skipQuestion _).
    assert (H1 : counters w1 = counters w)
      by (unfold w1; by rewrite counters_skipQuestion, counters_tryAgain).
    unfold counters in H1. by injection H1 as -> -> ->.
Qed.

Lemma wrong_answer_is_not_counted_witness :
  counters (Practice.submitAnswer_then Scenario.wrong_answer
              Examples.practice_one_checked)
  = counters Examples.practice_one_checked.
Proof.
  apply (wrong_answer_is_not_counted Examples.collation
           Scenario.wrong_answer Examples.practice_one_checked).
  vm_compute. reflexivity.
Defined.

(** Wrong, then skipped, through the event loop: only the skipped counter
    moved. *)
Lemma wrong_then_skip_event_trace :
  counters (Practice.run Examples.collation Scenario.events_wrong_then_skip
              Scenario.opened) = (0, 0, 1).
Proof. vm_compute. reflexivity. Qed.

(** ** More from this concept *)

Section QuizFrames.

Variable lc : string → string → comparison.

Lemma closePopupIfOpen_frame w :
  Quiz.currentIndex (Quiz.st (Quiz.closePopupIfOpen w)) = Quiz.currentIndex (Quiz.st w)
  ∧ Quiz.conceptGroups (Quiz.st (Quiz.closePopupIfOpen w)) = Quiz.conceptGroups (Quiz.st w)
  ∧ Quiz.alerts (Quiz.closePopupIfOpen w) = Quiz.alerts w
  ∧ Quiz.arrays (Quiz.closePopupIfOpen w) = Quiz.arrays w.
Proof.
  unfold Quiz.closePopupIfOpen.
  destruct (Quiz.dragDropWindow (Quiz.st w)) as [[[]]|]; done.
Qed.

Lemma displayCurrentQuestion_frame w :
  let w' := Quiz.world_of (Quiz.displayCurrentQuestion lc w) in
  Quiz.currentIndex (Quiz.st w') = Quiz.currentIndex (Quiz.st w)
  ∧ Quiz.conceptGroups (Quiz.st w') = Quiz.conceptGroups (Quiz.st w)
  ∧ Quiz.alerts w' = Quiz.alerts w
  ∧ Quiz.arrays w' = Quiz.arrays w.
Proof.
  unfold Quiz.displayCurrentQuestion, Quiz.showSummary.
  destruct (Quiz.conceptGroups (Quiz.st w) !! Quiz.currentIndex (Quiz.st w))
    as [g|]; simpl; [| apply closePopupIfOpen_frame].
  destruct (Quiz.question g) as [q|]; [| done].
  destruct (Quiz.drag_drop q); [done |].
  by destruct (Quiz.numCorrect q).
Qed.

Lemma displayCurrentQuestion_returns w :
  (∀ g, Quiz.conceptGroups (Quiz.st w) !! Quiz.currentIndex (Quiz.st w) = Some g →
        displayable g = true) →
  ∃ w', Quiz.displayCurrentQuestion lc w = Quiz.Returned w'.
Proof.
  intros Hd. unfold Quiz.displayCurrentQuestion.
  destruct (Quiz.conceptGroups (Quiz.st w) !! Quiz.currentIndex (Quiz.st w))
    as [g|]; [| by eexists].
  specialize (Hd g eq_refl). unfold displayable in Hd.
  destruct (Quiz.question g) as [q|]; [| done].
  destruct (Quiz.drag_drop q); [by eexists |]. simpl in Hd.
  apply bool_decide_eq_true in Hd as [n Hn]. rewrite Hn. by eexists.
Qed.

Lemma nextTopic_frame w :
  let w' := Quiz.world_of (Quiz.nextTopic lc w) in
  Quiz.currentIndex (Quiz.st w') = S (Quiz.currentIndex (Quiz.st w))
  ∧ Quiz.conceptGroups (Quiz.st w') = Quiz.conceptGroups (Quiz.st w)
  ∧ Quiz.alerts w' = Quiz.alerts w
  ∧ Quiz.arrays w' = Quiz.arrays w.
Proof.
  unfold Quiz.nextTopic.
  destruct (closePopupIfOpen_frame w) as (Hi & Hg & Ha & Hs).
  set (w3 := Quiz.set_page _ (Quiz.set_st _ (Quiz.closePopupIfOpen w))).
  assert (H3 : Quiz.currentIndex (Quiz.st w3) = S (Quiz.currentIndex (Quiz.st w))
               ∧ Quiz.conceptGroups (Quiz.st w3) = Quiz.conceptGroups (Quiz.st w)
               ∧ Quiz.alerts w3 = Quiz.alerts w
               ∧ Quiz.arrays w3 = Quiz.arrays w).
  { unfold w3. simpl. by rewrite Hi, Hg, Ha, Hs. }
  destruct H3 as (Hi3 & Hg3 & Ha3 & Hs3).
  case_decide.
  - unfold Quiz.showSummary. simpl.
    destruct (closePopupIfOpen_frame w3) as (-> & -> & -> & ->). done.
  - destruct (displayCurrentQuestion_frame w3) as (-> & -> & -> & ->). done.
Qed.

Lemma nextTopic_returns w :
  (∀ g, Quiz.conceptGroups (Quiz.st w) !! S (Quiz.currentIndex (Quiz.st w)) = Some g →
        displayable g = true) →
  ∃ w', Quiz.nextTopic lc w = Quiz.Returned w'.
Proof.
  intros Hd. unfold Quiz.nextTopic.
  destruct (closePopupIfOpen_frame w) as (Hi & Hg & _ & _).
  case_decide; [by eexists |].
  apply displayCurrentQuestion_returns. simpl. rewrite Hi, Hg. done.
Qed.

End QuizFrames.

(** C6: the claim is violated by the exclusion list, which misses the
    question on display.  Group g1 comes from the start response with its
    question q001 and no [seen_questions]; the student has answered q001
    and asks for more: the request excludes nothing, although q001 has been
    shown.  A response that honours this list may carry q001 again, and the
    page displays it a second time.  The id of a question loaded by a
    "more" response is recorded: after that response the group's array
    holds q001, and the next request for the group excludes it. *)
Lemma more_request_omits_the_shown_question :
  (Quiz.id <$>
     (Quiz.conceptGroups (Quiz.st Sessions.first_try_correct) !! 0%nat
        ≫= Quiz.question)) = Some "q001"
  ∧ Quiz.more_concept_hidden (Quiz.page Sessions.first_try_correct) = false
  ∧ Quiz.request <$>
      Quiz.pending (Quiz.step Examples.collation Quiz.ClickMoreConcept
                      Sessions.first_try_correct)
    = [Quiz.GroupQuestion "g1" (Some "s1") EmptyString]
  ∧ Js.split_comma EmptyString = [EmptyString]
  ∧ (Quiz.id <$>
       (Quiz.conceptGroups (Quiz.st MoreSessions.same_question_again) !! 0%nat
          ≫= Quiz.question)) = Some "q001"
  ∧ Dom.value <$> Quiz.inputs (Quiz.page MoreSessions.same_question_again)
    = ["a"; "b"; "c"]
  ∧ Quiz.arrays MoreSessions.same_question_again = [["q001"]]
  ∧ Quiz.request <$>
      Quiz.pending
        (Quiz.run Examples.collation
           [Quiz.ClickChoice "a"; Quiz.ClickSubmit;
            Quiz.Deliver 0 (Examples.graded true 1 1); Quiz.ClickMoreConcept]
           MoreSessions.same_question_again)
    = [Quiz.GroupQuestion "g1" (Some "s1") "q001"].
Proof. vm_compute. repeat split. Qed.

(** More from the concept.  A request for more from the concept carries, as
    its exclusion list, the ids in the [seen_questions] array of the group
    under the cursor, and nothing when the group has no such array; the id
    of the question on display is not added by the page.  When the response
    reports the group as exhausted (an error with [all_covered]) the cursor
    moves on by one and the only notice is the "all covered" one, given
    that a next group, if any, can be displayed.  When the response carries
    a question, its id is appended to the array that was sent and the group
    now refers to that array, so later requests for this group exclude
    it. *)
Theorem more_from_concept_behaviour (lc : string → string → comparison)
  (w : Quiz.World) (g : Quiz.ConceptGroup) :
  Quiz.conceptGroups (Quiz.st w) !! Quiz.currentIndex (Quiz.st w) = Some g →
  (∃ addr : nat,
     Quiz.pending (Quiz.loadMoreFromConcept w) =
       Quiz.pending w ++
         [{| Quiz.request :=
               Quiz.GroupQuestion (Quiz.group_id g) (Quiz.sessionId (Quiz.st w))
                 (Js.join_comma (seen_ids w g));
             Quiz.capture :=
               Quiz.MoreCapture (Quiz.generation w)
                 (Quiz.currentIndex (Quiz.st w)) addr |}])
  ∧ (∀ (w2 : Quiz.World) (gen idx seen : nat) (d : Quiz.MoreData),
       Js.truthy (Quiz.more_error d) = true →
       Quiz.all_covered d = true →
       let w' := Quiz.loadMoreFromConcept_then lc gen idx seen d w2 in
       Quiz.currentIndex (Quiz.st w') = S (Quiz.currentIndex (Quiz.st w2))
       ∧ ((∀ g', Quiz.conceptGroups (Quiz.st w2)
                   !! S (Quiz.currentIndex (Quiz.st w2)) = Some g' →
                 displayable g' = true) →
          Quiz.alerts w' = Quiz.alerts w2 ++ [Quiz.AllCovered]))
  ∧ (∀ (w2 : Quiz.World) (idx seen : nat) (d : Quiz.MoreData)
       (q : Quiz.Question) (l : list string) (g2 : Quiz.ConceptGroup),
       Js.truthy (Quiz.more_error d) = false →
       Quiz.more_question d = Some q →
       Quiz.arrays w2 !! seen = Some l →
       Quiz.conceptGroups (Quiz.st w2) !! idx = Some g2 →
       let w' :=
         Quiz.loadMoreFromConcept_then lc (Quiz.generation w2) idx seen d w2 in
       ∃ g', Quiz.conceptGroups (Quiz.st w') !! idx = Some g'
             ∧ Quiz.group_id g' = Quiz.group_id g2
             ∧ Quiz.question g' = Some q
             ∧ seen_ids w' g' = l ++ [Quiz.id q]).
Proof.
  intros Hg. split; [| split].
  - unfold Quiz.loadMoreFromConcept, seen_ids. rewrite Hg.
    destruct (Quiz.seen_questions g) as [a|]; simpl.
    + by exists a.
    + exists (length (Quiz.arrays w)).
      rewrite lookup_app_r by lia. by rewrite Nat.sub_diag.
  - intros w2 gen idx seen d He Hall w'. unfold w', Quiz.loadMoreFromConcept_then.
    rewrite He, Hall.
    destruct (nextTopic_frame lc (Quiz.alert Quiz.AllCovered w2))
      as (Hi & _ & Ha & _).
    split.
    + destruct (Quiz.nextTopic lc (Quiz.alert Quiz.AllCovered w2)); simpl in *;
        done.
    + intros Hd.
      destruct (nextTopic_returns lc (Quiz.alert Quiz.AllCovered w2) Hd)
        as [w3 Hw3].
      rewrite Hw3 in Ha |- *. done.
  - intros w2 idx seen d q l g2 He Hq Hl Hg2 w'.
    unfold w', Quiz.loadMoreFromConcept_then. rewrite He, Hq.
    set (w3 := Quiz.set_page _ _).
    destruct (displayCurrentQuestion_frame lc w3) as (_ & Hgs & _ & Hs).
    assert (Hgs3 : Quiz.conceptGroups (Quiz.st w3) !! idx =
                   Some {| Quiz.group_id := Quiz.group_id g2;
                           Quiz.concept := Quiz.concept g2;
                           Quiz.question := Some q;
                           Quiz.seen_questions := Some seen |}).
    { unfold w3, Quiz.assign_group. rewrite decide_True by done. simpl.
      rewrite list_lookup_alter_eq, Hg2. done. }
    assert (Hs3 : Quiz.arrays w3 !! seen = Some (l ++ [Quiz.id q])).
    { unfold w3, Quiz.assign_group. rewrite decide_True by done. simpl.
      rewrite list_lookup_alter_eq, Hl. done. }
    eexists. split; [| split; [| split]].
    + destruct (Quiz.displayCurrentQuestion lc w3); simpl in *;
        rewrite Hgs; exact Hgs3.
    + done.
    + done.
    + unfold seen_ids. simpl.
      destruct (Quiz.displayCurrentQuestion lc w3); simpl in *;
        by rewrite Hs, Hs3.
Qed.

Lemma more_from_concept_behaviour_witness :
  ∃ addr : nat,
    Quiz.pending (Quiz.loadMoreFromConcept Sessions.first_try_correct) =
      Quiz.pending Sessions.first_try_correct ++
        [{| Quiz.request := Quiz.GroupQuestion "g1" (Some "s1") EmptyString;
            Quiz.capture := Quiz.MoreCapture 1 0 addr |}].
Proof.
  apply (more_from_concept_behaviour Examples.collation
           Sessions.first_try_correct
           {| Quiz.group_id := "g1"; Quiz.concept := "OSPF distance";
              Quiz.question := Some Examples.single_choice;
              Quiz.seen_questions := None |}).
  vm_compute. reflexivity.
Defined.

(** ** The lock during a round trip *)

Lemma click_on_locked_inputs (ty : Dom.InputType) (letter : string)
  (ins : list Dom.Input) :
  Forall (λ i, Dom.disabled i = true) ins →
  Dom.click_choice ty letter ins = ins.
Proof.
  intros Hlocked. destruct ty; simpl.
  - rewrite decide_False; [done |].
    rewrite Exists_exists. intros (i & Hi & _ & Hd).
    rewrite Forall_forall in Hlocked. specialize (Hlocked i Hi). congruence.
  - induction Hlocked as [|i ins Hi _ IH]; [done |].
    rewrite fmap_cons, IH. f_equal. rewrite Hi. by case_decide.
Qed.

(** On the linear practice page a submission that sends a request hides
    the submit button and disables every input: until a response arrives
    neither a click on the button nor a click on a choice does anything. *)
Lemma practice_submit_locks_page (lc : string → string → comparison)
  (w : Practice.World) :
  Practice.location (Practice.page w) = Practice.PracticePage →
  Practice.pending (Practice.submitAnswer w) ≠ Practice.pending w →
  let w' := Practice.submitAnswer w in
  Practice.submit_hidden (Practice.page w') = true
  ∧ Forall (λ i, Dom.disabled i = true) (Practice.inputs (Practice.page w'))
  ∧ Practice.step lc Practice.ClickSubmit w' = w'
  ∧ (∀ letter, Practice.step lc (Practice.ClickChoice letter) w' = w').
Proof.
  intros Hloc Hsent w'.
  assert (Hlocked : Forall (λ i, Dom.disabled i = true)
                      (Practice.inputs (Practice.page w')))
    by by apply practice_submit_disables_inputs.
  assert (Hhidden : Practice.submit_hidden (Practice.page w') = true
                    ∧ Practice.location (Practice.page w') = Practice.PracticePage).
  { unfold w', Practice.submitAnswer in *.
    destruct (Practice.currentQuestion (Practice.st w)) as [q|]; [| done].
    destruct (Practice.collect_selected q _) as [s|]; [| done].
    destruct (Js.truthy (Some s)); done. }
  destruct Hhidden as [Hhidden Hloc'].
  split; [done |]. split; [done |]. split.
  - unfold Practice.step. by rewrite Hloc', Hhidden.
  - intros letter. unfold Practice.step, Practice.clickChoice. rewrite Hloc'.
    rewrite (click_on_locked_inputs _ _ _ Hlocked). by rewrite decide_True.
Qed.

(** C7: the claim is violated on the concept-group quiz page.  While the
    submit request for q001 is in flight the inputs are disabled but the
    submit button is still displayed; a second click on it starts a
    second request for the same question and attempt. *)
Theorem quiz_second_submit_while_in_flight :
  Quiz.request <$> Quiz.pending DoubleSubmit.in_flight
    = [Quiz.Submit (Some "s1") "q001" "a" 1 "g1"]
  ∧ Dom.disabled <$> Quiz.inputs (Quiz.page DoubleSubmit.in_flight)
    = [true; true; true]
  ∧ Quiz.submit_hidden (Quiz.page DoubleSubmit.in_flight) = false
  ∧ Quiz.request <$> Quiz.pending DoubleSubmit.clicked_again
    = [Quiz.Submit (Some "s1") "q001" "a" 1 "g1";
       Quiz.Submit (Some "s1") "q001" "a" 1 "g1"].
Proof. vm_compute. repeat split. Qed.

Lemma multi_select_value_canonical_witness :
  normalized_answer Instances.checked_a_then_c = "a,c"
  ∧ normalized_answer Instances.c_before_a = "a,c".
Proof.
  destruct (multi_select_value_canonical Instances.checked_a_then_c
              Instances.c_before_a) as (_ & _ & _ & Hspec & _).
  { vm_compute. apply Permutation_sym, perm_swap. }
  apply (Hspec ["a"; "c"]).
  - repeat constructor.
  - vm_compute. reflexivity.
Defined.

Lemma practice_disabled_choices_follow_response_witness :
  Practice.disabledChoices
    (Practice.st (Practice.submitAnswer_then Instances.wrong_disable_a
                    Instances.practice_in_flight)) = ["a"].
Proof.
  apply (practice_disabled_choices_follow_response
           Instances.practice_in_flight Instances.wrong_disable_a).
  - vm_compute. reflexivity.
  - vm_compute. reflexivity.
  - vm_compute. repeat constructor.
Defined.

(** * Further properties *)

(** ** Linear practice page *)

(** Every event leaves the three counters as they are or adds one to
    exactly one of them; no counter ever decreases. *)
Theorem practice_counters_move_by_one (lc : string → string → comparison)
  (e : Practice.Event) (w : Practice.World) :
  let c := Practice.correctCount (Practice.st w) in
  let i := Practice.incorrectCount (Practice.st w) in
  let s := Practice.skippedCount (Practice.st w) in
  counters (Practice.step lc e w) = (c, i, s)
  ∨ counters (Practice.step lc e w) = (c + 1, i, s)
  ∨ counters (Practice.step lc e w) = (c, i + 1, s)
  ∨ counters (Practice.step lc e w) = (c, i, s + 1).
Proof.
  intros c i s. unfold Practice.step.
  destruct (Practice.location (Practice.page w)); [| by left].
  destruct e as [l| | | | | |k r].
  - left. by rewrite counters_clickChoice.
  - left. case_match; [| done]. by rewrite counters_submitAnswer.
  - left. case_match; [| done]. by rewrite counters_tryAgain.
  - left. case_match; [| done]. by rewrite counters_revealAnswer.
  - left. case_match; [| done]. by rewrite counters_nextQuestion.
  - left. case_match; [| done]. by rewrite counters_skipQuestion.
  - unfold Practice.deliver.
    destruct (Practice.pending w !! k) as [req|]; [| by left].
    destruct req as [slug|qid sel|qid|qid|], r as [d|d|d|d|d|]; simpl;
      try (by left).
    + left. by rewrite (counters_startSession_then lc).
    + rewrite counters_submitAnswer_then. case_match; [right; by left | by left].
    + rewrite counters_revealAnswer_then.
      case_match; [by left | right; right; by left].
    + rewrite (counters_skipQuestion_then lc).
      case_match; [by left | right; right; by right].
    + left. by rewrite (counters_nextQuestion_then lc).
Qed.

Lemma no_checked_value_no_checked_input (ins : list Dom.Input) :
  Dom.checked_values ins = [] → Dom.checked_inputs ins = [].
Proof. unfold Dom.checked_values. by destruct (Dom.checked_inputs ins). Qed.

(** With no choice checked [submitAnswer] does nothing at all, for a
    single-answer and for a multi-answer question: no request, no change
    of the page. *)
Theorem practice_submit_without_selection (w : Practice.World) :
  Dom.checked_values (Practice.inputs (Practice.page w)) = [] →
  Practice.submitAnswer w = w.
Proof.
  intros Hnil. unfold Practice.submitAnswer, Practice.collect_selected.
  destruct (Practice.currentQuestion (Practice.st w)) as [q|]; [| done].
  destruct (Practice.multi_answer q).
  - unfold normalized_answer. rewrite Hnil. done.
  - by rewrite (no_checked_value_no_checked_input _ Hnil).
Qed.

Lemma practice_submit_without_selection_witness :
  Practice.submitAnswer Examples.practice_shown = Examples.practice_shown.
Proof.
  apply (practice_submit_without_selection Examples.practice_shown).
  vm_compute. reflexivity.
Defined.

(** *** The order of the choices *)

Section CollationOrder.

Variable lc : string → string → comparison.

(** The comparator never puts two letters each after the other. *)
Hypothesis lc_consistent : ∀ a b, lc a b = Gt → lc b a ≠ Gt.

Lemma HdRel_insert_entry (a e : string * string) (l : list (string * string)) :
  in_order lc a.1 e.1 →
  HdRel (λ x y, in_order lc x.1 y.1) a l →
  HdRel (λ x y, in_order lc x.1 y.1) a (Dom.insert_entry lc e l).
Proof.
  intros Hae Hal. destruct l as [|e' l]; simpl; [by constructor |].
  inversion_clear Hal.
  destruct (lc e.1 e'.1); by constructor.
Qed.

Lemma Sorted_insert_entry (e : string * string) (l : list (string * string)) :
  Sorted (λ x y, in_order lc x.1 y.1) l →
  Sorted (λ x y, in_order lc x.1 y.1) (Dom.insert_entry lc e l).
Proof.
  induction 1 as [|e' l Hs IH Hhd]; simpl; [by repeat constructor |].
  destruct (lc e.1 e'.1) eqn:Hc.
  - constructor; [by constructor |]. constructor. unfold in_order. by rewrite Hc.
  - constructor; [by constructor |]. constructor. unfold in_order. by rewrite Hc.
  - constructor; [done |]. apply HdRel_insert_entry; [| done].
    by apply lc_consistent.
Qed.

Lemma Sorted_sort_entries (l : list (string * string)) :
  Sorted (λ x y, in_order lc x.1 y.1) (Dom.sort_entries lc l).
Proof.
  induction l as [|e l IH]; simpl; [constructor |].
  by apply Sorted_insert_entry.
Qed.

Lemma Sorted_fresh_letters (l : list (string * string)) :
  Sorted (λ x y, in_order lc x.1 y.1) l →
  Sorted (in_order lc) (Dom.value <$> ((λ e, Dom.fresh_input e.1) <$> l)).
Proof.
  induction 1 as [|e l Hs IH Hhd]; simpl; [constructor |].
  constructor; [done |]. destruct Hhd; by constructor.
Qed.

End CollationOrder.

(** The inputs of a displayed question carry the letters of its choices,
    each as often as the choices have it, in the order of the collation
    (given a comparator that never puts two letters each after the other),
    all enabled and unchecked.  This holds of the page [displayQuestion]
    leaves on the practice page, and of the page [displayCurrentQuestion]
    leaves on the quiz page when the group under the cursor has a
    multiple-choice question whose number of correct letters can be
    computed. *)
Theorem choices_rendered_in_collation_order
  (lc : string → string → comparison) (q : Practice.Question)
  (w : Practice.World) (wq : Quiz.World) (g : Quiz.ConceptGroup)
  (qq : Quiz.Question) :
  (∀ a b, lc a b = Gt → lc b a ≠ Gt) →
  Quiz.conceptGroups (Quiz.st wq) !! Quiz.currentIndex (Quiz.st wq) = Some g →
  Quiz.question g = Some qq →
  Quiz.drag_drop qq = false →
  is_Some (Quiz.numCorrect qq) →
  let ins := Practice.inputs (Practice.page (Practice.displayQuestion lc q w)) in
  let qins :=
    Quiz.inputs
      (Quiz.page (Quiz.world_of (Quiz.displayCurrentQuestion lc wq))) in
  Dom.value <$> ins ≡ₚ (Practice.choices q).*1
  ∧ Sorted (in_order lc) (Dom.value <$> ins)
  ∧ Forall (λ i, Dom.disabled i = false ∧ Dom.checked i = false) ins
  ∧ Dom.value <$> qins ≡ₚ (Quiz.choices qq).*1
  ∧ Sorted (in_order lc) (Dom.value <$> qins)
  ∧ Forall (λ i, Dom.disabled i = false ∧ Dom.checked i = false) qins.
Proof.
  intros Hcons Hg Hq Hdd [n Hn] ins qins.
  assert (Hins : ins = (λ e, Dom.fresh_input e.1) <$>
                         Dom.sort_entries lc (Practice.choices q)).
  { unfold ins. simpl. unfold Practice.render.
    rewrite <- list_fmap_compose. by apply list_fmap_ext. }
  assert (Hqins : qins = (λ e, Dom.fresh_input e.1) <$>
                           Dom.sort_entries lc (Quiz.choices qq)).
  { unfold qins, Quiz.displayCurrentQuestion. by rewrite Hg, Hq, Hdd, Hn. }
  assert (Hval : ∀ l : list (string * string),
            Dom.value <$> ((λ e, Dom.fresh_input e.1) <$> l) = l.*1).
  { intros l. rewrite <- list_fmap_compose. by apply list_fmap_ext. }
  rewrite Hins, Hqins, !Hval.
  repeat split.
  - by rewrite sort_entries_Permutation.
  - rewrite <- Hval. apply Sorted_fresh_letters, Sorted_sort_entries, Hcons.
  - apply Forall_fmap, Forall_true. done.
  - by rewrite sort_entries_Permutation.
  - rewrite <- Hval. apply Sorted_fresh_letters, Sorted_sort_entries, Hcons.
  - apply Forall_fmap, Forall_true. done.
Qed.

Lemma choices_rendered_in_collation_order_witness :
  Dom.value <$>
    Practice.inputs
      (Practice.page
         (Practice.displayQuestion Examples.collation Examples.two_of_three
            Examples.practice_blank))
  ≡ₚ ["c"; "a"; "b"]
  ∧ Sorted (in_order Examples.collation)
      (Dom.value <$>
         Quiz.inputs
           (Quiz.page
              (Quiz.world_of
                 (Quiz.displayCurrentQuestion Examples.collation
                    Sessions.first_try_correct)))).
Proof.
  assert (Hcons : ∀ a b, Examples.collation a b = Gt →
                         Examples.collation b a ≠ Gt).
  { intros a b Hab. unfold Examples.collation in *.
    rewrite String.compare_antisym, Hab. discriminate. }
  pose proof (choices_rendered_in_collation_order Examples.collation
                Examples.two_of_three Examples.practice_blank
                Sessions.first_try_correct
                {| Quiz.group_id := "g1"; Quiz.concept := "OSPF distance";
                   Quiz.question := Some Examples.single_choice;
                   Quiz.seen_questions := None |}
                Examples.single_choice Hcons eq_refl eq_refl eq_refl
                (ex_intro _ 1%nat eq_refl)) as H.
  cbv zeta in H. destruct H as (H1 & _ & _ & _ & H5 & _).
  split; [exact H1 | exact H5].
Defined.

(** *** Disabled choices during a retry *)


Lemma click_keeps_listed_locked (ty : Dom.InputType) (letter : string)
  (dis : list string) (ins : list Dom.Input) :
  listed_are_locked dis ins →
  listed_are_locked dis (Dom.click_choice ty letter ins).
Proof.
  unfold listed_are_locked. intros Hinv. destruct ty; simpl.
  - case_decide as Hex; [| done].
    rewrite Exists_exists in Hex. destruct Hex as (i0 & Hi0 & Hv0 & Hd0).
    assert (Hl : letter ∉ dis).
    { intros Hin. rewrite Forall_forall in Hinv.
      destruct (Hinv i0 Hi0) as [Hd _]; [by rewrite Hv0 | congruence]. }
    apply Forall_fmap. eapply Forall_impl; [exact Hinv |].
    intros i Hi Hin. simpl in *. destruct (Hi Hin) as [-> _]. split; [done |].
    apply bool_decide_eq_false_2. intros Heq. by rewrite Heq in Hin.
  - apply Forall_fmap. eapply Forall_impl; [exact Hinv |].
    intros i Hi Hin. simpl in *.
    assert (Hv : Dom.value i ∈ dis).
    { revert Hin. case_decide; [| done]. by destruct (Dom.disabled i). }
    destruct (Hi Hv) as [Hd Hc]. case_decide; [| done]. by rewrite Hd.
Qed.

Lemma clicks_keep_listed_locked (ty : Dom.InputType) (clicks dis : list string)
  (ins : list Dom.Input) :
  listed_are_locked dis ins →
  listed_are_locked dis (Dom.click_choices ty clicks ins).
Proof.
  unfold Dom.click_choices. revert ins.
  induction clicks as [|l clicks IH]; intros ins Hinv; simpl; [done |].
  by apply IH, click_keeps_listed_locked.
Qed.

Lemma listed_locked_not_checked (dis : list string) (ins : list Dom.Input) :
  listed_are_locked dis ins →
  Forall (λ v, v ∉ dis) (Dom.checked_values ins).
Proof.
  unfold listed_are_locked, Dom.checked_values, Dom.checked_inputs.
  intros Hinv. apply Forall_fmap, Forall_forall. intros i Hi.
  apply list_elem_of_filter in Hi as [Hc Hi]. simpl. intros Hin.
  rewrite Forall_forall in Hinv. destruct (Hinv i Hi Hin) as [_ Hu]. congruence.
Qed.

(** After a wrong answer and "try again", whatever the student clicks, no
    choice listed in [disabled_choices] of the response can be checked, so
    none can be part of the next submitted answer. *)
Theorem disabled_choices_cannot_be_selected (w : Practice.World)
  (d : Practice.CheckData) (ty : Dom.InputType) (clicks : list string) :
  Js.truthy (Practice.check_error d) = false →
  Practice.correct d = false →
  Forall (λ i, Dom.disabled i = true) (Practice.inputs (Practice.page w)) →
  let dis := default [] (Practice.disabled_choices d) in
  let ins := Dom.click_choices ty clicks
               (Practice.inputs
                  (Practice.page
                     (Practice.tryAgain (Practice.submitAnswer_then d w)))) in
  Forall (λ v, v ∉ dis) (Dom.checked_values ins)
  ∧ (∀ (q : Practice.Question) (v : string),
       Practice.multi_answer q = false →
       Practice.collect_selected q ins = Some v → v ∉ dis).
Proof.
  intros He Hc Hlocked dis ins.
  assert (Hinv : listed_are_locked dis ins).
  { unfold ins. apply clicks_keep_listed_locked.
    assert (Hst : Practice.disabledChoices
                    (Practice.st (Practice.submitAnswer_then d w)) = dis).
    { unfold Practice.submitAnswer_then. rewrite He, Hc. done. }
    assert (Hins : Practice.inputs (Practice.page (Practice.submitAnswer_then d w))
                   = Practice.applyDisabledChoices dis
                       (Practice.inputs (Practice.page w))).
    { unfold Practice.submitAnswer_then. rewrite He, Hc. fold dis.
      by destruct (Practice.can_reveal d). }
    unfold Practice.tryAgain. simpl. rewrite Hst, Hins.
    unfold listed_are_locked, Practice.applyDisabledChoices.
    rewrite <- list_fmap_compose. apply Forall_fmap.
    eapply Forall_impl; [exact Hlocked |]. intros i Hi Hin. simpl in *.
    destruct (decide (Dom.value i ∈ dis)) as [Hd|Hd]; simpl in *.
    - by rewrite decide_True.
    - rewrite decide_False in Hin by done. simpl in Hin. done. }
  pose proof (listed_locked_not_checked dis ins Hinv) as Hcv.
  split; [done |].
  intros q v Hm Hsel. unfold Practice.collect_selected in Hsel.
  rewrite Hm in Hsel. unfold Dom.checked_values in Hcv.
  destruct (Dom.checked_inputs ins) as [|i rest]; [done |].
  simpl in Hsel. injection Hsel as <-. by inversion Hcv.
Qed.

Lemma disabled_choices_cannot_be_selected_witness :
  Forall (λ v, v ∉ ["a"])
    (Dom.checked_values
       (Dom.click_choices Dom.Checkbox ["a"; "b"]
          (Practice.inputs
             (Practice.page
                (Practice.tryAgain
                   (Practice.submitAnswer_then Instances.wrong_disable_a
                      Instances.practice_in_flight)))))).
Proof.
  apply (disabled_choices_cannot_be_selected Instances.practice_in_flight
           Instances.wrong_disable_a Dom.Checkbox ["a"; "b"]).
  - vm_compute. reflexivity.
  - vm_compute. reflexivity.
  - vm_compute. repeat constructor.
Defined.

(** *** Round trips of the practice page *)

Section PracticeRoundTrips.

Variable lc : string → string → comparison.

Lemma clicks_do_nothing w :
  nothing_to_click w →
  ∀ e, is_delivery e = false → Practice.step lc e w = w.
Proof.
  intros (Hs & Hk & Ht & Hr & Hn & Hlocked) e He. unfold Practice.step.
  destruct (Practice.location (Practice.page w)); [| done].
  destruct e as [l| | | | | |k r]; try done.
  - unfold Practice.clickChoice.
    rewrite (click_on_locked_inputs _ _ _ Hlocked). by rewrite decide_True.
  - by rewrite Hs.
  - by rewrite Ht.
  - by rewrite Hr.
  - by rewrite Hn.
  - by rewrite Hk.
Qed.

Lemma applyDisabledChoices_keeps_locked dis ins :
  Forall (λ i, Dom.disabled i = true) ins →
  Forall (λ i, Dom.disabled i = true) (Practice.applyDisabledChoices dis ins).
Proof.
  intros H. unfold Practice.applyDisabledChoices. apply Forall_fmap.
  eapply Forall_impl; [exact H |]. intros i Hi. simpl. by case_decide.
Qed.

(** The page while the request of a freshly displayed question is in
    flight. *)
Lemma in_flight_page q w0 l :
  Practice.location (Practice.page w0) = Practice.PracticePage →
  Practice.pending w0 = [] →
  l ∈ (Practice.choices q).*1 →
  l ≠ EmptyString →
  let w := Practice.displayQuestion lc q w0 in
  let w' := Practice.run lc [Practice.ClickChoice l; Practice.ClickSubmit] w in
  (∃ v, Practice.pending w' = [Practice.CheckAnswer (Practice.id q) v])
  ∧ Practice.location (Practice.page w') = Practice.PracticePage
  ∧ Practice.st w' = Practice.st w
  ∧ nothing_to_click w'.
Proof.
  intros Hloc0 Hpend0 Hl Hne w w'.
  assert (Hp : presented lc q w) by by apply presented_displayQuestion.
  destruct (pick_and_submit lc q w l Hp Hl Hne) as (Hpend & Hloc & Hst).
  fold w' in Hpend, Hloc, Hst. split; [done |]. split; [done |]. split; [done |].
  (* the second event is a click on the displayed, enabled submit button *)
  set (w1 := Practice.step lc (Practice.ClickChoice l) w).
  assert (Hw' : w' = Practice.step lc Practice.ClickSubmit w1) by done.
  assert (Hpage1 : Practice.try_again_hidden (Practice.page w1) = true
                   ∧ Practice.reveal_hidden (Practice.page w1) = true
                   ∧ Practice.next_hidden (Practice.page w1) = true
                   ∧ Practice.pending w1 = []).
  { unfold w1, Practice.step, w. simpl. rewrite Hloc0.
    unfold Practice.clickChoice. case_decide; simpl; by rewrite ?Hpend0. }
  destruct Hpage1 as (Ht1 & Hr1 & Hn1 & Hp1).
  destruct Hpend as [v Hpend].
  assert (Hsent : w' = Practice.submitAnswer w1
                  ∧ Practice.pending (Practice.submitAnswer w1) ≠ Practice.pending w1).
  { rewrite Hw' in Hpend |- *. unfold Practice.step in *.
    destruct (Practice.location (Practice.page w1));
      [| by rewrite Hp1 in Hpend].
    destruct (Practice.clickable _ _); [| by rewrite Hp1 in Hpend].
    split; [done |]. by rewrite Hpend, Hp1. }
  destruct Hsent as [-> Hsent].
  pose proof (practice_submit_disables_inputs w1 Hsent) as Hlocked.
  unfold nothing_to_click. unfold Practice.submitAnswer in *.
  destruct (Practice.currentQuestion (Practice.st w1)) as [q1|]; [| done].
  destruct (Practice.collect_selected q1 _) as [s|]; [| done].
  destruct (Js.truthy (Some s)); [| done].
  simpl in *. by rewrite Ht1 || done.
Qed.

(** Once the answer to a freshly displayed question has been submitted,
    exactly one check-answer request is in flight and no action of the
    student has any effect until a response is delivered: every button is
    hidden and every input disabled, so no second request can be sent. *)
Theorem practice_single_round_trip q w0 l :
  Practice.location (Practice.page w0) = Practice.PracticePage →
  Practice.pending w0 = [] →
  l ∈ (Practice.choices q).*1 →
  l ≠ EmptyString →
  let w' := Practice.run lc [Practice.ClickChoice l; Practice.ClickSubmit]
              (Practice.displayQuestion lc q w0) in
  (∃ v, Practice.pending w' = [Practice.CheckAnswer (Practice.id q) v])
  ∧ (∀ e, is_delivery e = false → Practice.step lc e w' = w')
  ∧ (∀ es, forallb (λ e, negb (is_delivery e)) es = true →
           Practice.run lc es w' = w').
Proof.
  intros Hloc Hpend Hl Hne w'.
  destruct (in_flight_page q w0 l Hloc Hpend Hl Hne) as (Hp & _ & _ & Hdead).
  fold w' in Hp, Hdead. split; [done |].
  pose proof (clicks_do_nothing w' Hdead) as Hstep. split; [done |].
  intros es. unfold Practice.run.
  induction es as [|e es IH]; simpl; [done |].
  intros [He Hes]%andb_prop. rewrite (Hstep e) by by apply negb_true_iff.
  by apply IH.
Qed.

(** A failed check-answer round trip (an error payload or a rejected
    promise) leaves [practiceState] as it was, shows the skip button again,
    and a click on it sends the skip request for the question on display:
    the student is not stuck. *)
Theorem failed_check_leaves_skip q w0 l r :
  Practice.location (Practice.page w0) = Practice.PracticePage →
  Practice.pending w0 = [] →
  l ∈ (Practice.choices q).*1 →
  l ≠ EmptyString →
  check_failed r = true →
  let w' := Practice.run lc
              [Practice.ClickChoice l; Practice.ClickSubmit;
               Practice.Deliver 0 r]
              (Practice.displayQuestion lc q w0) in
  Practice.st w' = Practice.st (Practice.displayQuestion lc q w0)
  ∧ Practice.pending w' = []
  ∧ Practice.skip_hidden (Practice.page w') = false
  ∧ Practice.pending (Practice.step lc Practice.ClickSkip w') =
      [Practice.Skip (Practice.id q)].
Proof.
  intros Hloc Hpend Hl Hne Hr w'.
  destruct (in_flight_page q w0 l Hloc Hpend Hl Hne)
    as ([v Hp] & Hloc2 & Hst2 & _).
  unfold w'.
  change [Practice.ClickChoice l; Practice.ClickSubmit; Practice.Deliver 0 r]
    with ([Practice.ClickChoice l; Practice.ClickSubmit] ++
          [Practice.Deliver 0 r]).
  rewrite run_app.
  set (w2 := Practice.run lc [Practice.ClickChoice l; Practice.ClickSubmit] _) in *.
  clearbody w2. unfold Practice.run. cbn [foldl].
  assert (Hk : ∃ k, Practice.callbacks lc
                      (Practice.CheckAnswer (Practice.id q) v) r = Some k
                    ∧ ∀ w, Practice.st (k w) = Practice.st w
                           ∧ Practice.pending (k w) = Practice.pending w
                           ∧ Practice.location (Practice.page (k w)) =
                               Practice.location (Practice.page w)
                           ∧ Practice.skip_hidden (Practice.page (k w)) = false).
  { destruct r as [d| | | | |]; try done.
    - exists (Practice.submitAnswer_then d). split; [done |]. intros w.
      unfold Practice.submitAnswer_then. simpl in Hr. by rewrite Hr.
    - exists Practice.submitAnswer_catch. done. }
  destruct Hk as (k & Hk & Hkw).
  rewrite (deliver_the_only_request lc w2 _ r k Hloc2 Hp Hk).
  set (w3 := {| Practice.st := Practice.st w2; Practice.page := Practice.page w2;
                Practice.pending := [] |}).
  destruct (Hkw w3) as (Hst3 & Hp3 & Hloc3 & Hskip3).
  split; [by rewrite Hst3 |]. split; [by rewrite Hp3 |]. split; [done |].
  assert (Hcur : Practice.currentQuestion (Practice.st (k w3)) = Some q)
    by (rewrite Hst3; simpl; by rewrite Hst2).
  unfold Practice.step. rewrite Hloc3.
  change (Practice.location (Practice.page w3))
    with (Practice.location (Practice.page w2)).
  rewrite Hloc2, Hskip3. unfold Practice.clickable, Practice.skipQuestion.
  rewrite Hcur. simpl. by rewrite Hp3.
Qed.

(** A failed reveal round trip is a dead end.  After a wrong answer the
    student asks for the answer and the reveal request fails (error payload
    or rejected promise): the counters are as before the question, nothing
    is in flight, no button is displayed and every input is disabled, so no
    event, click or delivery, changes the page any more. *)
Theorem failed_reveal_is_dead_end q w0 l d r :
  Practice.location (Practice.page w0) = Practice.PracticePage →
  Practice.pending w0 = [] →
  l ∈ (Practice.choices q).*1 →
  l ≠ EmptyString →
  Js.truthy (Practice.check_error d) = false →
  Practice.correct d = false →
  Practice.can_reveal d = true →
  reveal_failed r = true →
  let w' := Practice.run lc
              [Practice.ClickChoice l; Practice.ClickSubmit;
               Practice.Deliver 0 (Practice.CheckAnswerOk d);
               Practice.ClickReveal; Practice.Deliver 0 r]
              (Practice.displayQuestion lc q w0) in
  counters w' = counters w0
  ∧ Practice.pending w' = []
  ∧ nothing_to_click w'
  ∧ (∀ e, Practice.step lc e w' = w').
Proof.
  intros Hloc Hpend Hl Hne He Hc Hrev Hr w'.
  destruct (in_flight_page q w0 l Hloc Hpend Hl Hne)
    as ([v Hp] & Hloc2 & Hst2 & Hdead2).
  unfold w'.
  change [Practice.ClickChoice l; Practice.ClickSubmit;
          Practice.Deliver 0 (Practice.CheckAnswerOk d);
          Practice.ClickReveal; Practice.Deliver 0 r]
    with ([Practice.ClickChoice l; Practice.ClickSubmit] ++
          [Practice.Deliver 0 (Practice.CheckAnswerOk d);
           Practice.ClickReveal; Practice.Deliver 0 r]).
  rewrite run_app.
  set (w2 := Practice.run lc [Practice.ClickChoice l; Practice.ClickSubmit] _) in *.
  clearbody w2. unfold Practice.run. cbn [foldl].
  rewrite (deliver_the_only_request lc w2 _ (Practice.CheckAnswerOk d)
             (Practice.submitAnswer_then d) Hloc2 Hp eq_refl).
  destruct Hdead2 as (Hs2 & Hk2 & Ht2 & Hr2 & Hn2 & Hlocked2).
  set (w3 := Practice.submitAnswer_then d _).
  assert (H3 : Practice.location (Practice.page w3) = Practice.PracticePage
               ∧ Practice.pending w3 = []
               ∧ Practice.currentQuestion (Practice.st w3) = Some q
               ∧ counters w3 = counters w0
               ∧ Practice.reveal_hidden (Practice.page w3) = false
               ∧ Practice.submit_hidden (Practice.page w3) = true
               ∧ Practice.skip_hidden (Practice.page w3) = true
               ∧ Practice.next_hidden (Practice.page w3) = true
               ∧ Forall (λ i, Dom.disabled i = true)
                   (Practice.inputs (Practice.page w3))).
  { unfold w3, counters, Practice.submitAnswer_then. rewrite He, Hc, Hrev.
    simpl. rewrite Hloc2, Hst2, Hs2, Hk2, Hn2. simpl.
    repeat split. by apply applyDisabledChoices_keeps_locked. }
  destruct H3 as (Hloc3 & Hp3 & Hq3 & Hc3 & Hr3 & Hs3 & Hk3 & Hn3 & Hlocked3).
  clearbody w3.
  assert (H4 : Practice.step lc Practice.ClickReveal w3 =
               Practice.revealAnswer w3)
    by (unfold Practice.step; by rewrite Hloc3, Hr3).
  rewrite H4.
  set (w4 := Practice.revealAnswer w3).
  assert (H4' : Practice.location (Practice.page w4) = Practice.PracticePage
                ∧ Practice.pending w4 = [Practice.Explain (Practice.id q)]
                ∧ counters w4 = counters w0
                ∧ nothing_to_click w4).
  { unfold w4, nothing_to_click, counters, Practice.revealAnswer in *.
    rewrite Hq3. simpl. by rewrite Hp3, Hloc3. }
  destruct H4' as (Hloc4 & Hp4 & Hc4 & Hdead4). clearbody w4.
  assert (Hk : ∃ k, Practice.callbacks lc (Practice.Explain (Practice.id q)) r
                      = Some k
                    ∧ ∀ w, counters (k w) = counters w
                           ∧ Practice.pending (k w) = Practice.pending w
                           ∧ Practice.location (Practice.page (k w)) =
                               Practice.location (Practice.page w)
                           ∧ (nothing_to_click w → nothing_to_click (k w))).
  { destruct r as [|dR| | | |]; try done.
    - exists (Practice.revealAnswer_then dR). split; [done |]. intros w.
      unfold Practice.revealAnswer_then. simpl in Hr. by rewrite Hr.
    - exists Practice.revealAnswer_catch. done. }
  destruct Hk as (k & Hk & Hkw).
  rewrite (deliver_the_only_request lc w4 _ r k Hloc4 Hp4 Hk).
  set (w5 := {| Practice.st := Practice.st w4; Practice.page := Practice.page w4;
                Practice.pending := [] |}).
  destruct (Hkw w5) as (Hc5 & Hp5 & Hloc5 & Hdead5).
  specialize (Hdead5 Hdead4).
  split; [by rewrite Hc5 |]. split; [by rewrite Hp5 |]. split; [done |].
  intros e. destruct (is_delivery e) eqn:Hd.
  - destruct e as [| | | | | |i r']; try done.
    unfold Practice.step, Practice.deliver. rewrite Hp5. simpl.
    by destruct (Practice.location (Practice.page (k w5))).
  - by apply clicks_do_nothing.
Qed.

End PracticeRoundTrips.

Lemma practice_single_round_trip_witness :
  ∃ v, Practice.pending
         (Practice.run Examples.collation
            [Practice.ClickChoice "a"; Practice.ClickSubmit]
            (Practice.displayQuestion Examples.collation Scenario.Q1
               Examples.practice_blank))
       = [Practice.CheckAnswer (Practice.id Scenario.Q1) v].
Proof.
  apply (practice_single_round_trip Examples.collation Scenario.Q1
           Examples.practice_blank "a").
  - reflexivity.
  - reflexivity.
  - vm_compute. by left.
  - discriminate.
Defined.

Lemma failed_check_leaves_skip_witness :
  Practice.pending
    (Practice.step Examples.collation Practice.ClickSkip
       (Practice.run Examples.collation
          [Practice.ClickChoice "a"; Practice.ClickSubmit;
           Practice.Deliver 0 Practice.Rejected]
          (Practice.displayQuestion Examples.collation Scenario.Q1
             Examples.practice_blank)))
  = [Practice.Skip (Practice.id Scenario.Q1)].
Proof.
  apply (failed_check_leaves_skip Examples.collation Scenario.Q1
           Examples.practice_blank "a" Practice.Rejected).
  - reflexivity.
  - reflexivity.
  - vm_compute. by left.
  - discriminate.
  - reflexivity.
Defined.

Lemma failed_reveal_is_dead_end_witness :
  counters
    (Practice.run Examples.collation
       [Practice.ClickChoice "b"; Practice.ClickSubmit;
        Practice.Deliver 0 (Practice.CheckAnswerOk Scenario.wrong_answer);
        Practice.ClickReveal; Practice.Deliver 0 Practice.Rejected]
       (Practice.displayQuestion Examples.collation Scenario.Q1
          Examples.practice_blank))
  = counters Examples.practice_blank.
Proof.
  apply (failed_reveal_is_dead_end Examples.collation Scenario.Q1
           Examples.practice_blank "b" Scenario.wrong_answer Practice.Rejected).
  - reflexivity.
  - reflexivity.
  - vm_compute. right. by left.
  - discriminate.
  - reflexivity.
  - reflexivity.
  - reflexivity.
  - reflexivity.
Defined.

(** ** Concept-group quiz page *)

Section QuizInvariants.

Variable lc : string → string → comparison.

Lemma closePopupIfOpen_state w :
  Quiz.scores (Quiz.st (Quiz.closePopupIfOpen w)) = Quiz.scores (Quiz.st w)
  ∧ Quiz.attemptNumber (Quiz.st (Quiz.closePopupIfOpen w)) =
      Quiz.attemptNumber (Quiz.st w)
  ∧ popup_open (Quiz.st (Quiz.closePopupIfOpen w)) = false.
Proof.
  unfold Quiz.closePopupIfOpen, popup_open.
  destruct (Quiz.dragDropWindow (Quiz.st w)) as [[[]]|] eqn:Hw; simpl;
    by rewrite ?Hw.
Qed.

Lemma showSummary_state w :
  Quiz.scores (Quiz.st (Quiz.showSummary w)) = Quiz.scores (Quiz.st w)
  ∧ Quiz.currentIndex (Quiz.st (Quiz.showSummary w)) = Quiz.currentIndex (Quiz.st w)
  ∧ popup_open (Quiz.st (Quiz.showSummary w)) = false.
Proof.
  unfold Quiz.showSummary. simpl.
  destruct (closePopupIfOpen_state w) as (-> & _ & ->).
  by destruct (closePopupIfOpen_frame w) as (-> & _).
Qed.

Lemma displayCurrentQuestion_state w :
  let w' := Quiz.world_of (Quiz.displayCurrentQuestion lc w) in
  Quiz.scores (Quiz.st w') = Quiz.scores (Quiz.st w)
  ∧ (popup_open (Quiz.st w) = false → popup_open (Quiz.st w') = false).
Proof.
  unfold Quiz.displayCurrentQuestion.
  destruct (Quiz.conceptGroups (Quiz.st w) !! Quiz.currentIndex (Quiz.st w))
    as [g|]; cbn [Quiz.world_of].
  - destruct (Quiz.question g) as [q|]; [| done].
    destruct (Quiz.drag_drop q); [done |].
    by destruct (Quiz.numCorrect q).
  - by destruct (showSummary_state w) as (-> & _ & ->).
Qed.

Lemma nextTopic_state w :
  let w' := Quiz.world_of (Quiz.nextTopic lc w) in
  Quiz.scores (Quiz.st w') = Quiz.scores (Quiz.st w)
  ∧ popup_open (Quiz.st w') = false.
Proof.
  unfold Quiz.nextTopic.
  destruct (closePopupIfOpen_state w) as (Hs & _ & Ho).
  set (w3 := Quiz.set_page _ (Quiz.set_st _ (Quiz.closePopupIfOpen w))).
  assert (H3 : Quiz.scores (Quiz.st w3) = Quiz.scores (Quiz.st w)
               ∧ popup_open (Quiz.st w3) = false).
  { unfold w3, popup_open in *. simpl. by rewrite Hs. }
  destruct H3 as [Hs3 Ho3]. case_decide.
  - cbn [Quiz.world_of]. by destruct (showSummary_state w3) as (-> & _ & ->).
  - destruct (displayCurrentQuestion_state w3) as [-> Hopen]. auto.
Qed.

Lemma loadMoreFromConcept_then_state gen idx seen d w :
  let w' := Quiz.loadMoreFromConcept_then lc gen idx seen d w in
  Quiz.scores (Quiz.st w') = Quiz.scores (Quiz.st w)
  ∧ (Quiz.currentIndex (Quiz.st w') = Quiz.currentIndex (Quiz.st w)
     ∨ Quiz.currentIndex (Quiz.st w') = S (Quiz.currentIndex (Quiz.st w))).
Proof.
  unfold Quiz.loadMoreFromConcept_then.
  destruct (Js.truthy (Quiz.more_error d)).
  - destruct (Quiz.all_covered d); [| by split; [| left]].
    destruct (nextTopic_state (Quiz.alert Quiz.AllCovered w)) as [Hs _].
    destruct (nextTopic_frame lc (Quiz.alert Quiz.AllCovered w)) as (Hi & _).
    destruct (Quiz.nextTopic lc (Quiz.alert Quiz.AllCovered w)); simpl in *;
      (split; [done | by right]).
  - assert (Ha : ∀ q, Quiz.scores (Quiz.st (Quiz.assign_group gen idx q seen w))
                      = Quiz.scores (Quiz.st w)
                      ∧ Quiz.currentIndex (Quiz.st (Quiz.assign_group gen idx q seen w))
                      = Quiz.currentIndex (Quiz.st w)).
    { intros q. unfold Quiz.assign_group. by case_decide. }
    destruct (Quiz.more_question d) as [q|].
    + set (w3 := Quiz.set_page _ _).
      destruct (displayCurrentQuestion_state w3) as [Hs _].
      destruct (displayCurrentQuestion_frame lc w3) as (Hi & _).
      destruct (Ha (Some q)) as [Hs0 Hi0].
      destruct (Quiz.displayCurrentQuestion lc w3); simpl in *;
        (split; [by rewrite Hs | left; by rewrite Hi]).
    + simpl. destruct (Ha None) as [-> ->]. by split; [| left].
Qed.

(** The cursor never moves back.  Apart from a restart and the delivery of
    a start response, which begin a new session, every event leaves
    [currentIndex] where it is or advances it by one. *)
Theorem quiz_cursor_is_monotone (e : Quiz.Event) (w : Quiz.World) :
  starts_over e = false →
  Quiz.currentIndex (Quiz.st (Quiz.step lc e w)) = Quiz.currentIndex (Quiz.st w)
  ∨ Quiz.currentIndex (Quiz.st (Quiz.step lc e w)) =
      S (Quiz.currentIndex (Quiz.st w)).
Proof.
  intros He. destruct e as [l|sel| | | | | |opened| |m|i r]; simpl;
    try discriminate He.
  - by left.
  - left. unfold Quiz.startQuiz. by case_match.
  - left. case_match; [done |]. unfold Quiz.submitAnswer. by repeat case_match.
  - left. by case_match.
  - left. case_match; [done |]. unfold Quiz.loadMoreFromConcept.
    by repeat case_match.
  - case_match; [by left |].
    right. by destruct (nextTopic_frame lc w) as (-> & _).
  - left. case_match; [| done]. unfold Quiz.openDragDropPopup. simpl.
    by destruct (closePopupIfOpen_frame w) as (-> & _).
  - left. by case_match.
  - left. unfold Quiz.handleDragDropMessage. by repeat case_match.
  - unfold Quiz.deliver.
    destruct (Quiz.pending w !! i) as [c|]; [| by left].
    destruct c as [req cap].
    destruct req, cap, r as [qs|d|d|d|]; simpl; try (by left);
      try discriminate He.
    + left. by destruct qs.
    + left. by destruct qs.
    + left. by destruct qs.
    + left. unfold Quiz.submitAnswer_then. by repeat case_match.
    + by destruct (loadMoreFromConcept_then_state generation index seen d
                     {| Quiz.st := Quiz.st w; Quiz.page := Quiz.page w;
                        Quiz.pending := delete i (Quiz.pending w);
                        Quiz.alerts := Quiz.alerts w;
                        Quiz.arrays := Quiz.arrays w;
                        Quiz.generation := Quiz.generation w |}) as [_ ?].
Qed.

(** Stored outcome records are kept.  Apart from a drag-and-drop completion
    message, a restart and the delivery of a start response, no event
    changes or removes a record of the outcome map. *)
Theorem quiz_outcomes_are_kept (e : Quiz.Event) (w : Quiz.World)
  (gid : string) (o : Quiz.Outcome) :
  starts_over e = false →
  (∀ m, e ≠ Quiz.Receive m) →
  Quiz.scores (Quiz.st w) !! gid = Some o →
  Quiz.scores (Quiz.st (Quiz.step lc e w)) !! gid = Some o.
Proof.
  intros He Hm Ho. destruct e as [l|sel| | | | | |opened| |m|i r]; simpl;
    try discriminate He.
  - done.
  - unfold Quiz.startQuiz. by case_match.
  - case_match; [done |]. unfold Quiz.submitAnswer. by repeat case_match.
  - by case_match.
  - case_match; [done |]. unfold Quiz.loadMoreFromConcept. by repeat case_match.
  - case_match; [done |]. by destruct (nextTopic_state w) as [-> _].
  - case_match; [| done]. unfold Quiz.openDragDropPopup. simpl.
    by destruct (closePopupIfOpen_state w) as (-> & _).
  - by case_match.
  - by destruct (Hm m).
  - unfold Quiz.deliver.
    destruct (Quiz.pending w !! i) as [c|]; [| done].
    destruct c as [req cap].
    destruct req, cap, r as [qs|d|d|d|]; simpl; try done;
      try discriminate He.
    + by destruct qs.
    + by destruct qs.
    + by destruct qs.
    + by apply submitAnswer_then_keeps_outcomes.
    + by destruct (loadMoreFromConcept_then_state generation index seen d
                     {| Quiz.st := Quiz.st w; Quiz.page := Quiz.page w;
                        Quiz.pending := delete i (Quiz.pending w);
                        Quiz.alerts := Quiz.alerts w;
                        Quiz.arrays := Quiz.arrays w;
                        Quiz.generation := Quiz.generation w |}) as [-> _].
Qed.

End QuizInvariants.

Lemma quiz_cursor_is_monotone_witness :
  Quiz.currentIndex
    (Quiz.st (Quiz.step Examples.collation Quiz.ClickNextTopic
                Sessions.first_try_correct))
  = Quiz.currentIndex (Quiz.st Sessions.first_try_correct)
  ∨ Quiz.currentIndex
      (Quiz.st (Quiz.step Examples.collation Quiz.ClickNextTopic
                  Sessions.first_try_correct))
    = S (Quiz.currentIndex (Quiz.st Sessions.first_try_correct)).
Proof.
  apply (quiz_cursor_is_monotone Examples.collation Quiz.ClickNextTopic
           Sessions.first_try_correct).
  reflexivity.
Defined.

Lemma quiz_outcomes_are_kept_witness :
  Quiz.scores
    (Quiz.st (Quiz.step Examples.collation Quiz.ClickNextTopic
                Sessions.first_try_correct)) !! "g1"
  = Some {| Quiz.firstAttemptCorrect := true; Quiz.attempts := 1;
            Quiz.outcome_concept := "OSPF distance" |}.
Proof.
  apply (quiz_outcomes_are_kept Examples.collation Quiz.ClickNextTopic
           Sessions.first_try_correct "g1").
  - reflexivity.
  - discriminate.
  - vm_compute. reflexivity.
Defined.



(** No open popup survives an advance: after "next topic", after the
    summary is shown, after a restart and after an exhausted "more from
    this concept", the popup handle is empty or refers to a closed window. *)
Theorem no_open_popup_after_advancing (lc : string → string → comparison)
  (w : Quiz.World) :
  popup_open (Quiz.st (Quiz.world_of (Quiz.nextTopic lc w))) = false
  ∧ popup_open (Quiz.st (Quiz.showSummary w)) = false
  ∧ popup_open (Quiz.st (Quiz.restartQuiz w)) = false
  ∧ (∀ gen idx seen d,
       Js.truthy (Quiz.more_error d) = true →
       Quiz.all_covered d = true →
       popup_open
         (Quiz.st (Quiz.loadMoreFromConcept_then lc gen idx seen d w)) = false).
Proof.
  split; [by destruct (nextTopic_state lc w) |].
  split; [by destruct (showSummary_state w) as (_ & _ & ?) |].
  split; [done |].
  intros gen idx seen d He Ha. unfold Quiz.loadMoreFromConcept_then.
  rewrite He, Ha.
  destruct (nextTopic_state lc (Quiz.alert Quiz.AllCovered w)) as [_ Ho].
  by destruct (Quiz.nextTopic lc (Quiz.alert Quiz.AllCovered w)).
Qed.



(** *** A failed submission on the quiz page *)

Lemma checked_values_set_disabled (b : bool) (ins : list Dom.Input) :
  Dom.checked_values (Dom.set_disabled b <$> ins) = Dom.checked_values ins.
Proof.
  unfold Dom.checked_values, Dom.checked_inputs.
  induction ins as [|i ins IH]; [done |].
  rewrite fmap_cons, !filter_cons. cbn [Dom.checked Dom.set_disabled].
  destruct (decide (Dom.checked i = true)); [| exact IH].
  rewrite !fmap_cons. f_equal. exact IH.
Qed.

Lemma length_checked_inputs (ins : list Dom.Input) :
  length (Dom.checked_inputs ins) = length (Dom.checked_values ins).
Proof. unfold Dom.checked_values. by rewrite length_fmap. Qed.

(** What [submitAnswer] sends depends on the state and on the checked
    values only. *)
Lemma quiz_submit_same_request (w w' : Quiz.World) :
  Quiz.st w = Quiz.st w' →
  Dom.checked_values (Quiz.inputs (Quiz.page w)) =
    Dom.checked_values (Quiz.inputs (Quiz.page w')) →
  Quiz.pending w = [] →
  Quiz.pending w' = [] →
  Quiz.pending (Quiz.submitAnswer w') = Quiz.pending (Quiz.submitAnswer w).
Proof.
  intros Hst Hcv Hp Hp'. unfold Quiz.submitAnswer, normalized_answer.
  rewrite !length_checked_inputs, <- Hst, <- Hcv.
  repeat case_match; simpl; by rewrite ?Hp, ?Hp'.
Qed.

Lemma set_page_same (f : Quiz.Page → Quiz.Page) (w : Quiz.World) :
  f (Quiz.page w) = Quiz.page w → Quiz.set_page f w = w.
Proof. intros H. unfold Quiz.set_page. rewrite H. by destruct w. Qed.

(** When a submission fails (error payload or rejected promise) the state
    is untouched and the inputs stay disabled: no click on a choice changes
    the selection any more, and a click on the submit button, which is
    still displayed, sends the very same request again. *)
Theorem failed_quiz_submit_keeps_selection_locked
  (lc : string → string → comparison) (w : Quiz.World) (c : Quiz.Call)
  (r : Quiz.Response) :
  Quiz.pending w = [] →
  Quiz.submit_hidden (Quiz.page w) = false →
  Quiz.pending (Quiz.submitAnswer w) = [c] →
  submit_failed r = true →
  let w' := Quiz.step lc (Quiz.Deliver 0 r) (Quiz.submitAnswer w) in
  Quiz.st w' = Quiz.st w
  ∧ Quiz.pending w' = []
  ∧ length (Quiz.alerts w') = S (length (Quiz.alerts w))
  ∧ (∀ l, Quiz.step lc (Quiz.ClickChoice l) w' = w')
  ∧ Quiz.pending (Quiz.step lc Quiz.ClickSubmit w') = [c].
Proof.
  intros Hp Hsub Hsent Hr w'.
  (* the request went out: the inputs are locked and the rest is as before *)
  assert (Hw1 : Quiz.submitAnswer w =
                Quiz.send c (Quiz.set_page
                               (Quiz.with_inputs (fmap (Dom.set_disabled true))) w)
                ∧ ∃ sid qid ans att gid cpt,
                    c = {| Quiz.request := Quiz.Submit sid qid ans att gid;
                           Quiz.capture := Quiz.SubmitCapture gid cpt |}).
  { unfold Quiz.submitAnswer in *. revert Hsent.
    repeat case_match; simpl; rewrite ?Hp; intros Heq; try discriminate Heq.
    injection Heq as <-. split; [done |]. by repeat eexists. }
  destruct Hw1 as (Hw1 & sid & qid & ans & att & gid & cpt & Hc).
  set (w1 := Quiz.set_page (Quiz.with_inputs (fmap (Dom.set_disabled true))) w) in *.
  assert (Hk : ∃ a, w' = Quiz.alert a w1).
  { unfold w'. rewrite Hw1. unfold Quiz.step, Quiz.deliver. simpl.
    rewrite Hp. simpl. rewrite Hc. simpl.
    destruct r as [qs|d|d|d|]; try discriminate Hr; simpl.
    - simpl in Hr. unfold Quiz.submitAnswer_then. rewrite Hr.
      eexists. unfold Quiz.alert, w1. simpl. by rewrite Hp.
    - eexists. unfold Quiz.submitAnswer_catch, Quiz.alert, w1. simpl.
      by rewrite Hp. }
  destruct Hk as [a Hw']. rewrite Hw'.
  split; [done |]. split; [done |].
  split; [simpl; rewrite length_app; simpl; lia |].
  split.
  - intros l. unfold Quiz.step. apply set_page_same.
    unfold Quiz.with_inputs. rewrite click_on_locked_inputs.
    + by destruct (Quiz.page (Quiz.alert a w1)).
    + simpl. apply Forall_fmap, Forall_true. done.
  - unfold Quiz.step. simpl. rewrite Hsub. rewrite <- Hsent.
    apply quiz_submit_same_request; simpl; try done.
    by rewrite checked_values_set_disabled.
Qed.

Lemma failed_quiz_submit_keeps_selection_locked_witness :
  Quiz.pending
    (Quiz.step Examples.collation Quiz.ClickSubmit
       (Quiz.step Examples.collation (Quiz.Deliver 0 Quiz.Rejected)
          (Quiz.submitAnswer MoreSessions.choice_checked)))
  = [{| Quiz.request := Quiz.Submit (Some "s1") "q001" "a" 1 "g1";
        Quiz.capture := Quiz.SubmitCapture "g1" "OSPF distance" |}].
Proof.
  apply (failed_quiz_submit_keeps_selection_locked Examples.collation
           MoreSessions.choice_checked _ Quiz.Rejected);
    vm_compute; reflexivity.
Defined.

(** *** Successive rounds of "more from this concept" *)

Section MoreRounds.

Variable lc : string → string → comparison.

Lemma displayCurrentQuestion_net w :
  Quiz.pending (Quiz.world_of (Quiz.displayCurrentQuestion lc w)) = Quiz.pending w
  ∧ Quiz.generation (Quiz.world_of (Quiz.displayCurrentQuestion lc w)) =
      Quiz.generation w.
Proof.
  unfold Quiz.displayCurrentQuestion, Quiz.showSummary, Quiz.closePopupIfOpen.
  repeat case_match; done.
Qed.

(** The request of [loadMoreFromConcept]. *)
Lemma loadMoreFromConcept_request w g :
  Quiz.conceptGroups (Quiz.st w) !! Quiz.currentIndex (Quiz.st w) = Some g →
  Quiz.request <$> Quiz.pending (Quiz.loadMoreFromConcept w) =
    (Quiz.request <$> Quiz.pending w) ++
      [Quiz.GroupQuestion (Quiz.group_id g) (Quiz.sessionId (Quiz.st w))
         (Js.join_comma (seen_ids w g))].
Proof.
  intros Hg. unfold Quiz.loadMoreFromConcept, seen_ids. rewrite Hg.
  destruct (Quiz.seen_questions g) as [a|]; simpl; rewrite fmap_app; [done |].
  simpl. rewrite lookup_app_r by lia. by rewrite Nat.sub_diag.
Qed.

(** One round appends the id of the loaded question to the ids of the
    group and keeps everything else in place. *)
Lemma more_round_appends q w g :
  Quiz.conceptGroups (Quiz.st w) !! Quiz.currentIndex (Quiz.st w) = Some g →
  seen_in_store w g →
  let w' := more_round lc q w in
  Quiz.currentIndex (Quiz.st w') = Quiz.currentIndex (Quiz.st w)
  ∧ Quiz.pending w' = Quiz.pending w
  ∧ Quiz.sessionId (Quiz.st w') = Quiz.sessionId (Quiz.st w)
  ∧ ∃ g', Quiz.conceptGroups (Quiz.st w') !! Quiz.currentIndex (Quiz.st w) = Some g'
          ∧ Quiz.group_id g' = Quiz.group_id g
          ∧ Quiz.question g' = Some q
          ∧ seen_in_store w' g'
          ∧ seen_ids w' g' = seen_ids w g ++ [Quiz.id q].
Proof.
  intros Hg Hstore w'.
  set (addr := default (length (Quiz.arrays w)) (Quiz.seen_questions g)).
  set (store := match Quiz.seen_questions g with
                | Some _ => Quiz.arrays w
                | None => Quiz.arrays w ++ [[]]
                end).
  assert (Haddr : store !! addr = Some (seen_ids w g)).
  { unfold store, addr, seen_ids, seen_in_store in *.
    destruct (Quiz.seen_questions g) as [a|]; simpl.
    - apply lookup_lt_is_Some in Hstore as [l Hl]. by rewrite Hl.
    - rewrite lookup_app_r by lia. by rewrite Nat.sub_diag. }
  set (w0 := {| Quiz.st := Quiz.st w; Quiz.page := Quiz.page w;
                Quiz.pending := Quiz.pending w; Quiz.alerts := Quiz.alerts w;
                Quiz.arrays := store; Quiz.generation := Quiz.generation w |}).
  set (d := {| Quiz.more_error := None; Quiz.all_covered := false;
               Quiz.more_question := Some q |}).
  assert (Hw' : w' = Quiz.loadMoreFromConcept_then lc (Quiz.generation w)
                       (Quiz.currentIndex (Quiz.st w)) addr d w0).
  { unfold w', more_round, Quiz.loadMoreFromConcept. rewrite Hg.
    unfold w0, store, addr.
    destruct (Quiz.seen_questions g) as [a|]; unfold Quiz.deliver, Quiz.send;
      cbn [Quiz.pending Quiz.set_arrays Quiz.st Quiz.page Quiz.alerts
           Quiz.arrays Quiz.generation];
      rewrite (list_lookup_middle _ [] _ _ eq_refl);
      cbn [Quiz.callbacks Quiz.request Quiz.capture];
      rewrite delete_middle, app_nil_r; done. }
  rewrite Hw'. unfold Quiz.loadMoreFromConcept_then. simpl.
  set (w3 := Quiz.set_page _ _).
  destruct (displayCurrentQuestion_frame lc w3) as (Hi & Hgs & _ & Hs).
  destruct (displayCurrentQuestion_net w3) as [Hp _].
  destruct (displayCurrentQuestion_state lc w3) as [_ _].
  assert (Hsid : Quiz.sessionId
                   (Quiz.st (Quiz.world_of (Quiz.displayCurrentQuestion lc w3)))
                 = Quiz.sessionId (Quiz.st w3)).
  { unfold Quiz.displayCurrentQuestion, Quiz.showSummary, Quiz.closePopupIfOpen.
    repeat case_match; done. }
  assert (H3 : Quiz.currentIndex (Quiz.st w3) = Quiz.currentIndex (Quiz.st w)
               ∧ Quiz.pending w3 = Quiz.pending w
               ∧ Quiz.sessionId (Quiz.st w3) = Quiz.sessionId (Quiz.st w)
               ∧ Quiz.conceptGroups (Quiz.st w3) !! Quiz.currentIndex (Quiz.st w)
                 = Some {| Quiz.group_id := Quiz.group_id g;
                           Quiz.concept := Quiz.concept g;
                           Quiz.question := Some q;
                           Quiz.seen_questions := Some addr |}
               ∧ Quiz.arrays w3 !! addr = Some (seen_ids w g ++ [Quiz.id q])
               ∧ (addr < length (Quiz.arrays w3))%nat).
  { unfold w3, Quiz.assign_group, w0. simpl. rewrite decide_True by done. simpl.
    rewrite !list_lookup_alter_eq, Hg, Haddr. repeat split.
    rewrite length_alter. by apply lookup_lt_Some in Haddr. }
  destruct H3 as (Hi3 & Hp3 & Hsid3 & Hg3 & Ha3 & Hlt3).
  assert (Hres : ∀ wf, wf = Quiz.world_of (Quiz.displayCurrentQuestion lc w3) →
            Quiz.currentIndex (Quiz.st wf) = Quiz.currentIndex (Quiz.st w)
            ∧ Quiz.pending wf = Quiz.pending w
            ∧ Quiz.sessionId (Quiz.st wf) = Quiz.sessionId (Quiz.st w)
            ∧ ∃ g', Quiz.conceptGroups (Quiz.st wf) !! Quiz.currentIndex (Quiz.st w)
                      = Some g'
                    ∧ Quiz.group_id g' = Quiz.group_id g
                    ∧ Quiz.question g' = Some q
                    ∧ seen_in_store wf g'
                    ∧ seen_ids wf g' = seen_ids w g ++ [Quiz.id q]).
  { intros wf ->. rewrite Hi, Hp, Hsid, Hgs, Hi3, Hp3, Hsid3.
    repeat split. eexists. split; [exact Hg3 |].
    unfold seen_in_store, seen_ids. simpl. by rewrite Hs, Ha3. }
  destruct (Quiz.displayCurrentQuestion lc w3) as [wf|wf]; simpl in *.
  - by apply Hres.
  - destruct (Hres wf eq_refl) as (? & ? & ? & g' & ? & ? & ? & ?).
    repeat split; try done. by exists g'.
Qed.

(** Successive rounds accumulate.  When the student asks for more from the
    concept several times in a row, each request answered before the next
    is sent, the cursor stays on the group, the group's seen ids grow by the
    ids of the questions loaded, in the order of loading, and the next
    request excludes all of them in addition to the ids that were there
    before. *)
Theorem more_rounds_accumulate (qs : list Quiz.Question) (w : Quiz.World)
  (g : Quiz.ConceptGroup) :
  Quiz.conceptGroups (Quiz.st w) !! Quiz.currentIndex (Quiz.st w) = Some g →
  seen_in_store w g →
  let w' := foldl (λ acc q, more_round lc q acc) w qs in
  Quiz.currentIndex (Quiz.st w') = Quiz.currentIndex (Quiz.st w)
  ∧ (∃ g', Quiz.conceptGroups (Quiz.st w') !! Quiz.currentIndex (Quiz.st w)
             = Some g'
           ∧ Quiz.group_id g' = Quiz.group_id g
           ∧ seen_ids w' g' = seen_ids w g ++ (Quiz.id <$> qs))
  ∧ Quiz.request <$> Quiz.pending (Quiz.loadMoreFromConcept w') =
      (Quiz.request <$> Quiz.pending w) ++
        [Quiz.GroupQuestion (Quiz.group_id g) (Quiz.sessionId (Quiz.st w))
           (Js.join_comma (seen_ids w g ++ (Quiz.id <$> qs)))].
Proof.
  revert w g. induction qs as [|q qs IH]; intros w g Hg Hstore w'.
  - unfold w'. simpl. rewrite app_nil_r. split; [done |].
    split; [by exists g |]. by apply loadMoreFromConcept_request.
  - destruct (more_round_appends q w g Hg Hstore)
      as (Hi & Hp & Hsid & g1 & Hg1 & Hgid1 & _ & Hstore1 & Hseen1).
    rewrite <- Hi in Hg1.
    destruct (IH (more_round lc q w) g1 Hg1 Hstore1)
      as (Hi' & (g' & Hg' & Hgid' & Hseen') & Hreq).
    unfold w'. cbn [foldl].
    split; [by rewrite Hi', Hi |]. split.
    + exists g'. rewrite <- Hi. split; [done |]. split; [congruence |].
      rewrite Hseen', Hseen1, fmap_cons, <- app_assoc. done.
    + rewrite Hreq, Hp, Hsid, Hgid1, Hseen1, fmap_cons, <- app_assoc. done.
Qed.

End MoreRounds.

Lemma more_rounds_accumulate_witness :
  Quiz.request <$>
    Quiz.pending
      (Quiz.loadMoreFromConcept
         (foldl (λ acc q, more_round Examples.collation q acc)
            Sessions.first_try_correct
            [Examples.pick_two; Examples.interactive]))
  = [Quiz.GroupQuestion "g1" (Some "s1") "q002,7"].
Proof.
  apply (more_rounds_accumulate Examples.collation
           [Examples.pick_two; Examples.interactive]
           Sessions.first_try_correct
           {| Quiz.group_id := "g1"; Quiz.concept := "OSPF distance";
              Quiz.question := Some Examples.single_choice;
              Quiz.seen_questions := None |}).
  - vm_compute. reflexivity.
  - exact I.
Defined.

(** ** The submitted value on the wire *)

Lemma rev_app_rev_app (x y z : string) :
  String.rev_app (String.rev_app x y) z = String.rev_app y (String.append x z).
Proof.
  revert y. induction x as [|c x IH]; intros y; cbn [String.rev_app].
  - by rewrite string_app_nil.
  - by rewrite IH, string_app_cons.
Qed.

Lemma string_app_empty_r (s : string) : String.append s EmptyString = s.
Proof.
  induction s as [|c s IH]; [done |]. by rewrite string_app_cons, IH.
Qed.

Lemma rev_app_append (x y z : string) :
  String.append (String.rev_app x y) z = String.rev_app x (String.append y z).
Proof.
  revert y. induction x as [|c x IH]; intros y; cbn [String.rev_app]; [done |].
  by rewrite IH, string_app_cons.
Qed.

Lemma split_comma_go_nonempty (cur s : string) : Js.split_comma_go cur s ≠ [].
Proof.
  revert cur. induction s as [|c s IH]; intros cur; simpl; [done |].
  destruct (Ascii.eqb c ","); [done | apply IH].
Qed.

Lemma concat_cons (sep x : string) (l : list string) :
  l ≠ [] →
  String.concat sep (x :: l) =
    String.append x (String.append sep (String.concat sep l)).
Proof. by destruct l. Qed.

(** [split] undoes [join]: joining the pieces of a string with commas
    gives the string back. *)
Lemma join_split_comma_go (cur s : string) :
  Js.join_comma (Js.split_comma_go cur s) =
    String.append (String.rev cur) s.
Proof.
  unfold Js.join_comma. revert cur.
  induction s as [|c s IH]; intros cur; cbn [Js.split_comma_go].
  - cbn [String.concat]. by rewrite string_app_empty_r.
  - destruct (Ascii.eqb_spec c ",") as [->|Hc].
    + rewrite concat_cons by apply split_comma_go_nonempty.
      rewrite IH. done.
    + rewrite IH. unfold String.rev. cbn [String.rev_app].
      by rewrite !rev_app_append, string_app_cons, !string_app_nil.
Qed.

Lemma split_comma_go_piece (x cur rest : string) :
  Js.includes_comma x = false →
  Js.split_comma_go cur (String.append x (String "," rest)) =
    String.rev (String.rev_app x cur) :: Js.split_comma_go EmptyString rest.
Proof.
  revert cur. induction x as [|c x IH]; intros cur Hx.
  - rewrite string_app_nil. cbn. done.
  - rewrite string_app_cons. cbn [Js.split_comma_go String.rev_app].
    cbn [Js.includes_comma] in Hx.
    destruct (Ascii.eqb c ","); [done |]. by apply IH.
Qed.

Lemma split_comma_go_last (x cur : string) :
  Js.includes_comma x = false →
  Js.split_comma_go cur x = [String.rev (String.rev_app x cur)].
Proof.
  revert cur. induction x as [|c x IH]; intros cur Hx; simpl in *; [done |].
  destruct (Ascii.eqb c ","); [done |]. by apply IH.
Qed.

Lemma rev_rev_app_empty (x : string) :
  String.rev (String.rev_app x EmptyString) = x.
Proof.
  unfold String.rev. rewrite rev_app_rev_app. cbn [String.rev_app].
  apply string_app_empty_r.
Qed.

Lemma split_join_comma (l : list string) :
  l ≠ [] →
  Forall (λ v, Js.includes_comma v = false) l →
  Js.split_comma (Js.join_comma l) = l.
Proof.
  unfold Js.split_comma, Js.join_comma. intros Hne Hall.
  induction Hall as [|x l Hx Hall IH]; [done |].
  destruct l as [|y l].
  - cbn [String.concat]. by rewrite split_comma_go_last, rev_rev_app_empty.
  - rewrite concat_cons by done.
    change (String.append "," (String.concat "," (y :: l)))
      with (String "," (String.concat "," (y :: l))).
    rewrite split_comma_go_piece by done. rewrite rev_rev_app_empty.
    f_equal. by apply IH.
Qed.

(** The submitted value decodes to the selection.  Splitting the normalised
    answer at the commas gives back the checked letters in ascending order,
    so its number of pieces is the number of checked choices (given at
    least one checked choice and no comma inside a letter); and joining the
    pieces of any string gives the string back. *)
Theorem normalized_answer_decodes (ins : list Dom.Input) :
  Dom.checked_values ins ≠ [] →
  Forall (λ v, Js.includes_comma v = false) (Dom.checked_values ins) →
  Js.split_comma (normalized_answer ins) = Js.sort (Dom.checked_values ins)
  ∧ length (Js.split_comma (normalized_answer ins)) =
      length (Dom.checked_inputs ins)
  ∧ (∀ s : string, Js.join_comma (Js.split_comma s) = s).
Proof.
  intros Hne Hall.
  assert (Hs : Js.split_comma (normalized_answer ins) =
               Js.sort (Dom.checked_values ins)).
  { unfold normalized_answer. apply split_join_comma.
    - intros Hnil. apply Hne, Permutation_nil_r.
      by rewrite <- Hnil, sort_Permutation.
    - by rewrite sort_Permutation. }
  split; [done |]. split.
  - rewrite Hs, sort_Permutation. symmetry. apply length_checked_inputs.
  - intros s. unfold Js.split_comma. by rewrite join_split_comma_go.
Qed.

Lemma normalized_answer_decodes_witness :
  Js.split_comma (normalized_answer Instances.c_before_a) =
  Js.sort (Dom.checked_values Instances.c_before_a).
Proof.
  apply (normalized_answer_decodes Instances.c_before_a).
  - discriminate.
  - vm_compute. repeat constructor.
Defined.

(** ** The tutor chat *)

Lemma trim_start_white (s : string) :
  all_white_space s = true → Chat.trim_start s = EmptyString.
Proof.
  induction s as [|c s IH]; simpl; [done |].
  intros [Hc Hs]%andb_prop. rewrite Hc. by apply IH.
Qed.

Lemma trim_white (s : string) :
  all_white_space s = true → Chat.trim s = EmptyString.
Proof.
  intros H. unfold Chat.trim. rewrite (trim_start_white _ H). reflexivity.
Qed.

(** A message of white space only is not sent: [sendMessage] changes
    nothing, whether it is started by the Enter key or by the button. *)
Theorem chat_blank_message_not_sent (slug : option string) (w : Chat.World) :
  all_white_space (Chat.input_value (Chat.page w)) = true →
  Chat.sendMessage slug w = w
  ∧ Chat.step slug Chat.PressEnter w = w
  ∧ Chat.step slug Chat.ClickSubmit w = w.
Proof.
  intros Hw.
  assert (Hs : Chat.sendMessage slug w = w).
  { unfold Chat.sendMessage. by rewrite (trim_white _ Hw). }
  split; [done |]. simpl. rewrite Hs. split; by case_match.
Qed.

Lemma chat_blank_message_not_sent_witness :
  Chat.step None Chat.ClickSubmit
    (Chat.step None (Chat.TypeText "   ") (Chat.initial []))
  = Chat.step None (Chat.TypeText "   ") (Chat.initial []).
Proof.
  apply (chat_blank_message_not_sent None
           (Chat.step None (Chat.TypeText "   ") (Chat.initial []))).
  vm_compute. reflexivity.
Defined.

Lemma chat_step_invariant (slug : option string) (e : Chat.Event)
  (w : Chat.World) :
  chat_idle w ∨ chat_waiting w →
  chat_idle (Chat.step slug e w) ∨ chat_waiting (Chat.step slug e w).
Proof.
  intros [(Hp & Hi & Hs)|([r0 Hp] & Hi & Hs)].
  - destruct e as [t| | |i r]; simpl.
    + rewrite Hi. by left.
    + rewrite Hi. unfold Chat.sendMessage. case_match.
      * right. unfold chat_waiting. simpl. rewrite Hp. split; [by eexists | done].
      * by left.
    + rewrite Hs. unfold Chat.sendMessage. case_match.
      * right. unfold chat_waiting. simpl. rewrite Hp. split; [by eexists | done].
      * by left.
    + rewrite Hp. simpl. by left.
  - destruct e as [t| | |i r]; simpl.
    + right. rewrite Hi. by split; [eexists |].
    + right. rewrite Hi. by split; [eexists |].
    + right. rewrite Hs. by split; [eexists |].
    + rewrite Hp. destruct i as [|i]; simpl.
      * left. done.
      * right. by split; [eexists |].
Qed.

(** At most one question to the tutor is in flight.  From the moment the
    page is loaded, whatever the student does and whenever responses
    arrive, the chat is either idle (nothing in flight, input and button
    enabled) or waiting for exactly one answer with both controls
    disabled. *)
Theorem chat_one_request_at_a_time (slug : option string)
  (es : list Chat.Event) (msgs : list (Chat.MessageType * string)) :
  chat_idle (Chat.run slug es (Chat.initial msgs))
  ∨ chat_waiting (Chat.run slug es (Chat.initial msgs)).
Proof.
  assert (Hrun : ∀ w, chat_idle w ∨ chat_waiting w →
            chat_idle (Chat.run slug es w) ∨ chat_waiting (Chat.run slug es w)).
  { unfold Chat.run. induction es as [|e es IH]; intros w Hw; simpl; [done |].
    by apply IH, chat_step_invariant. }
  apply Hrun. by left.
Qed.

(** One exchange with the tutor.  From an idle chat, typing a text that is
    not blank and sending it (by the button or the Enter key) puts one
    request with the trimmed text in flight; when its response arrives the
    chat has gained exactly two messages, the trimmed text of the student
    and then the answer or the error, the input is empty and the chat is
    idle again. *)
Theorem chat_exchange (slug : option string) (w : Chat.World) (t : string)
  (e : Chat.Event) (r : Chat.Response) :
  chat_idle w →
  Chat.trim t ≠ EmptyString →
  e = Chat.ClickSubmit ∨ e = Chat.PressEnter →
  let w1 := Chat.run slug [Chat.TypeText t; e] w in
  let w2 := Chat.step slug (Chat.Deliver 0 r) w1 in
  Chat.pending w1 =
    [{| Chat.protocol_slug := slug; Chat.question := Chat.trim t |}]
  ∧ Chat.messages (Chat.page w2) =
      Chat.messages (Chat.page w) ++ [(Chat.User, Chat.trim t); chat_reply r]
  ∧ Chat.input_value (Chat.page w2) = EmptyString
  ∧ chat_idle w2.
Proof.
  intros (Hp & Hi & Hs) Ht He w1 w2.
  assert (Hw1 : w1 = Chat.sendMessage slug
                       (Chat.step slug (Chat.TypeText t) w)).
  { unfold w1, Chat.run. cbn [foldl]. destruct He as [-> | ->]; simpl;
      by rewrite Hi, ?Hs. }
  assert (Hsend : w1 =
            {| Chat.page :=
                 {| Chat.input_value := EmptyString; Chat.input_disabled := true;
                    Chat.submit_disabled := true;
                    Chat.submit_text_hidden := true;
                    Chat.loading_hidden := false;
                    Chat.messages :=
                      Chat.messages (Chat.page w) ++ [(Chat.User, Chat.trim t)] |};
               Chat.pending :=
                 [{| Chat.protocol_slug := slug; Chat.question := Chat.trim t |}] |}).
  { rewrite Hw1. unfold Chat.step. rewrite Hi. unfold Chat.sendMessage.
    cbn [Chat.page Chat.input_value Chat.pending Chat.messages].
    rewrite (truthy_nonempty _ Ht), Hp. done. }
  split; [by rewrite Hsend |].
  unfold w2. rewrite Hsend. simpl. unfold chat_idle. simpl.
  destruct r as [err ans|msg]; simpl.
  - destruct (Js.truthy err); simpl; rewrite <- app_assoc; done.
  - rewrite <- app_assoc. done.
Qed.

Lemma chat_exchange_witness :
  Chat.messages
    (Chat.page
       (Chat.step (Some "ospf") (Chat.Deliver 0 (Chat.AskOk None "110"))
          (Chat.run (Some "ospf")
             [Chat.TypeText " What is the AD of OSPF? "; Chat.PressEnter]
             (Chat.initial []))))
  = Chat.messages (Chat.page (Chat.initial [])) ++
      [(Chat.User, Chat.trim " What is the AD of OSPF? ");
       chat_reply (Chat.AskOk None "110")].
Proof.
  apply (chat_exchange (Some "ospf") (Chat.initial [])
           " What is the AD of OSPF? " Chat.PressEnter (Chat.AskOk None "110")).
  - repeat split.
  - vm_compute. discriminate.
  - by right.
Defined.

(** ** Late responses and repeated completions *)

Lemma restartQuiz_pending (w : Quiz.World) :
  Quiz.pending (Quiz.restartQuiz w) = Quiz.pending w.
Proof.
  unfold Quiz.restartQuiz, Quiz.closePopupIfOpen. simpl.
  by repeat case_match.
Qed.

(** A restart does not cancel a submission in flight.  When the response to
    a submit request arrives after the quiz has been restarted and reports a
    correct answer, the callback finds the outcome map of the new state
    empty: unless the id of the group the request was sent for is a name
    every object inherits, its record is written there as a first-attempt
    success and is the only record, although no group is loaded; for an
    inherited name the map stays empty. *)
Theorem submit_response_after_restart (lc : string → string → comparison)
  (w : Quiz.World) (i : nat) (sid : option string) (qid ans : string)
  (att : Z) (gid cpt : string) (d : Quiz.SubmitData) :
  Quiz.pending w !! i =
    Some {| Quiz.request := Quiz.Submit sid qid ans att gid;
            Quiz.capture := Quiz.SubmitCapture gid cpt |} →
  Js.truthy (Quiz.submit_error d) = false →
  Quiz.correct d = true →
  let w' := Quiz.run lc [Quiz.ClickRestart; Quiz.Deliver i (Quiz.SubmitOk d)] w in
  Quiz.scores (Quiz.st w') =
    (if Js.inherited gid then ∅
     else {[ gid := {| Quiz.firstAttemptCorrect := true; Quiz.attempts := 1;
                       Quiz.outcome_concept := cpt |} ]})
  ∧ Quiz.conceptGroups (Quiz.st w') = []
  ∧ totalAnswered (Quiz.st w') = (if Js.inherited gid then 0 else 1)%nat.
Proof.
  intros Hp He Hc w'. unfold w', Quiz.run. cbn [foldl].
  unfold Quiz.step, Quiz.deliver. rewrite restartQuiz_pending, Hp.
  cbn [Quiz.callbacks Quiz.request Quiz.capture].
  unfold Quiz.submitAnswer_then. rewrite He, Hc.
  cbn [Quiz.st Quiz.restartQuiz Quiz.scores].
  rewrite lookup_empty. unfold totalAnswered.
  destruct (Js.inherited gid); simpl; (split; [done |]; split; [done |]).
  - apply map_size_empty.
  - by rewrite map_size_insert_None, map_size_empty by apply lookup_empty.
Qed.

Lemma submit_response_after_restart_witness :
  Quiz.scores
    (Quiz.st (Quiz.run Examples.collation
                [Quiz.ClickRestart; Quiz.Deliver 0 (Examples.graded true 0 1)]
                DoubleSubmit.in_flight))
  = {[ "g1" := {| Quiz.firstAttemptCorrect := true; Quiz.attempts := 1;
                  Quiz.outcome_concept := "OSPF distance" |} ]}.
Proof.
  apply (submit_response_after_restart Examples.collation DoubleSubmit.in_flight
           0 (Some "s1") "q001" "a" 1 "g1" "OSPF distance"
           {| Quiz.submit_error := None; Quiz.correct := true;
              Quiz.more_in_group := 0; Quiz.attempt := 1 |});
    vm_compute; reflexivity.
Defined.



